(** * Control plane of the DNS-filtering appliance: shallow embedding of
      [control.go] and the properties of its statistics, resolver probe,
      filter-list and TLS validation handlers. *)

From stdpp Require Import gmap strings list sorting pretty.
From Stdlib Require Import ZArith Lia.

Local Open Scope Z_scope.

(** ** Results of fallible Go calls

    A Go call returning [(T, error)] is a [result T]; the error carries the
    text that [err.Error()] (and the verb [%s]) renders. *)

Inductive result (A : Type) : Type :=
| Ok (a : A)
| Err (msg : string).
Arguments Ok {A} a.
Arguments Err {A} msg.

(** A Go [error] value: [None] is [nil]. *)
Definition error := option string.

(** ** Statistics: top-N tables *)

Module Stats.

(** The local struct [kv] of [sortByValue]. *)
Record kv : Type := KV { k : string; v : Z }.

(** What a comparison function handed to [sort.Slice] has to be. *)
Record StrictWeakOrder {A} (less : A → A → bool) : Prop := {
  swo_irrefl : ∀ x, less x x = false;
  swo_trans : ∀ x y z, less x y = true → less y z = true → less x z = true;
  swo_incomp : ∀ x y z,
    less x y = false → less y x = false →
    less y z = false → less z y = false →
    less x z = false ∧ less z x = false
}.

(** The contract of the standard library's [sort.Slice]: the slice is
    rearranged (a permutation) so that no element is less than one before
    it.  The order of equal elements is not part of the contract. *)
Class SortSlice : Type := {
  sort_Slice : ∀ {A}, (A → A → bool) → list A → list A;
  sort_Slice_perm : ∀ {A} (less : A → A → bool) (l : list A),
    sort_Slice less l ≡ₚ l;
  sort_Slice_sorted : ∀ {A} (less : A → A → bool) (l : list A),
    StrictWeakOrder less →
    Sorted (λ x y, less y x = false) (sort_Slice less l)
}.

(** [for key, value := range m] visits every entry of the map once, in an
    order the language leaves unspecified: a run is described by the
    sequence [it] of entries it visits. *)
Definition is_range (m : gmap string Z) (it : list (string * Z)) : Prop :=
  it ≡ₚ map_to_list m.

Section sortByValue.
Context `{SortSlice}.

(** The comparison closure [ss[l].v > ss[r].v]. *)
Definition less_v (l r : kv) : bool := bool_decide (v r < v l).

(** [sortByValue], on the entries [it] that ranging over [m] yields. *)
Definition sortByValue (it : list (string * Z)) : list string :=
  let ss := foldl (λ ss e, ss ++ [KV e.1 e.2]) [] it in
  let ss := sort_Slice less_v ss in
  foldl (λ sorted e, sorted ++ [k e]) [] ss.

(** The struct slice [ss] of [sortByValue] once it is sorted. *)
Definition sorted_kvs (it : list (string * Z)) : list kv :=
  sort_Slice less_v ((λ e, KV e.1 e.2) <$> it).

(** Go's [top[key]]: the zero value for a missing key. *)
Definition index (top : gmap string Z) (key : string) : Z :=
  default 0 (top !! key).

(** The closure [gen] of [handleStatsTop]: the rows [key: top[key]] it
    writes for one table, in the order they are written. *)
Definition gen (top : gmap string Z) (it : list (string * Z))
  : list (string * Z) :=
  let sorted := sortByValue it in
  let sorted :=
    if bool_decide (50 < length sorted)%nat then take 50 sorted else sorted in
  (λ key, (key, index top key)) <$> sorted.
End sortByValue.

(** A sorting routine that meets the contract: straight insertion, which
    keeps equal elements in the order it met them. *)
Fixpoint insert_by {A} (less : A → A → bool) (x : A) (l : list A) : list A :=
  match l with
  | [] => [x]
  | y :: l' => if less y x then y :: insert_by less x l' else x :: y :: l'
  end.

Definition insertion_sort {A} (less : A → A → bool) (l : list A) : list A :=
  foldr (insert_by less) [] l.

(** A counter mapping with a tie, and the two orders in which a run may
    range over it. *)
Definition two_ties : gmap string Z :=
  {[ "a.example" := 1; "b.example" := 1 ]}.
Definition two_ties_ab : list (string * Z) :=
  [("a.example", 1); ("b.example", 1)].
Definition two_ties_ba : list (string * Z) :=
  [("b.example", 1); ("a.example", 1)].

(** Fifty-one counters, one more than a table lists: the key [i] has been
    seen [i] times. *)
Definition fifty_one : list (string * Z) :=
  (λ i : nat, (pretty i, Z.of_nat i)) <$> seq 0 51.
Definition fifty_one_map : gmap string Z := list_to_map fifty_one.

End Stats.

(** ** Upstream resolver probe *)

Module Prober.

(** [net.IP]: a slice of octets, 4 or 16 of them for a well-formed address. *)
Definition IP : Type := list Byte.byte.

Definition IPv4len : nat := 4.
Definition IPv6len : nat := 16.

Definition v4InV6Prefix : IP :=
  [Byte.x00; Byte.x00; Byte.x00; Byte.x00; Byte.x00; Byte.x00;
   Byte.x00; Byte.x00; Byte.x00; Byte.x00; Byte.xff; Byte.xff].

(** [net.IPv4(a, b, c, d)]: the address in its 16-octet form. *)
Definition IPv4 (a b c d : Byte.byte) : IP := v4InV6Prefix ++ [a; b; c; d].

Definition bytesEqual (x y : IP) : bool :=
  bool_decide (Byte.to_N <$> x = Byte.to_N <$> y).

(** [net.IP.Equal]: an IPv4 address and the same address in IPv6 form are
    equal. *)
Definition IP_Equal (ip x : IP) : bool :=
  if bool_decide (length ip = length x) then bytesEqual ip x
  else if bool_decide (length ip = IPv4len) && bool_decide (length x = IPv6len)
  then bytesEqual (take 12 x) v4InV6Prefix && bytesEqual ip (drop 12 x)
  else if bool_decide (length ip = IPv6len) && bool_decide (length x = IPv4len)
  then bytesEqual (take 12 ip) v4InV6Prefix && bytesEqual (drop 12 ip) x
  else false.

(** A resource record of a reply, as far as [checkDNS] tells them apart:
    the type assertion to [dns.A] succeeds on [RR_A] only. *)
Inductive RR : Type :=
| RR_A (A : IP)
| RR_other (rrtype : Z) (rdata : string).

Record dns_Question : Type := { Name : string; Qtype : Z; Qclass : Z }.

Record Msg : Type := {
  Id : Z;
  RecursionDesired : bool;
  Question : list dns_Question;
  Answer : list RR
}.

Definition TypeA : Z := 1.
Definition ClassINET : Z := 1.

(** The request [req] that [checkDNS] builds: one recursive [A] question
    for the test host name. *)
Definition testQuery (id : Z) : Msg :=
  {| Id := id; RecursionDesired := true;
     Question := [ {| Name := "google-public-dns-a.google.com.";
                      Qtype := TypeA; Qclass := ClassINET |} ];
     Answer := [] |}.

(** The resolver-construction collaborator and the transport it returns. *)
Class UpstreamLib : Type := {
  Upstream : Type;
  AddressToUpstream : string → result Upstream;
  Exchange : Upstream → Msg → result Msg;
  IP_String : IP → string
}.

Section checkDNS.
Context `{UpstreamLib}.

(** [checkDNS]; [id] is the message id drawn by [dns.Id()]. *)
Definition checkDNS (id : Z) (input : string) : error :=
  match AddressToUpstream input with
  | Err err =>
      Some ("failed to choose upstream for " +:+ input +:+ ": " +:+ err)
  | Ok u =>
      let req := testQuery id in
      match Exchange u req with
      | Err err =>
          Some ("couldn't communicate with DNS server " +:+ input +:+ ": " +:+ err)
      | Ok reply =>
          if bool_decide (length (Answer reply) ≠ 1%nat)
          then Some ("DNS server " +:+ input +:+ " returned wrong answer")
          else
            match Answer reply !! 0%nat with
            | Some (RR_A A) =>
                if negb (IP_Equal (IPv4 Byte.x08 Byte.x08 Byte.x08 Byte.x08) A)
                then Some ("DNS server " +:+ input +:+ " returned wrong answer: "
                           +:+ IP_String A)
                else None
            | _ => None
            end
      end
  end.
End checkDNS.

(** A resolver collaborator for examples: every known address answers the
    test query with the records the table holds for it. *)
Definition TableLib (table : gmap string (list RR)) : UpstreamLib :=
  {| Upstream := string;
     AddressToUpstream := λ input,
       match table !! input with
       | Some _ => Ok input
       | None => Err "unsupported address"
       end;
     Exchange := λ u req,
       match table !! u with
       | Some answer =>
           Ok {| Id := Id req; RecursionDesired := RecursionDesired req;
                 Question := Question req; Answer := answer |}
       | None => Err "i/o timeout"
       end;
     IP_String := λ _, "?" |}.

Definition resolvers : gmap string (list RR) :=
  {[ "good.example" := [RR_A [Byte.x08; Byte.x08; Byte.x08; Byte.x08]];
     "silent.example" := [] ]}.

End Prober.

(** ** HTTP responses *)

Module Http.

Definition StatusOK : Z := 200.
Definition StatusBadRequest : Z := 400.
Definition StatusInternalServerError : Z := 500.

(** The line feed that ends every message. *)
Definition nl : string := String (Ascii.ascii_of_nat 10) "".

(** What a handler has sent through its [http.ResponseWriter]: the status
    line, fixed by the first write, and the body written so far.  Writes to
    the client are taken to succeed. *)
Record ResponseWriter : Type := { status : option Z; body : string }.

Definition fresh : ResponseWriter := {| status := None; body := "" |}.

Definition WriteHeader (w : ResponseWriter) (code : Z) : ResponseWriter :=
  {| status := Some (default code (status w)); body := body w |}.

Definition Write (w : ResponseWriter) (text : string) : ResponseWriter :=
  let w := WriteHeader w StatusOK in
  {| status := status w; body := body w +:+ text |}.

(** [http.Error]: the status code, then the message on a line of its own. *)
Definition Error (w : ResponseWriter) (text : string) (code : Z)
  : ResponseWriter :=
  Write (WriteHeader w code) (text +:+ nl).

(** [httpError] of control.go, after formatting: log the text, send it. *)
Definition httpError (w : ResponseWriter) (code : Z) (text : string)
  : ResponseWriter :=
  Error w text code.

(** [returnOK]. *)
Definition returnOK (w : ResponseWriter) : ResponseWriter :=
  Write w ("OK" +:+ nl).

End Http.

(** ** Filter lists *)

Module Filtering.
Import Http.

(** Modelled from the spec: the struct [filter] is declared outside
    control.go.  The specification gives a filter list a stable numeric ID, a
    source URL, an enabled flag, a derived rule count and content kept on
    disk under a path derived from the ID. *)
Record filter : Type := {
  ID : Z;
  URL : string;
  Enabled : bool;
  RulesCount : Z;
  Contents : string
}.

Definition set_ID (f : filter) (id : Z) : filter :=
  {| ID := id; URL := URL f; Enabled := Enabled f;
     RulesCount := RulesCount f; Contents := Contents f |}.

Definition set_Enabled (f : filter) (b : bool) : filter :=
  {| ID := ID f; URL := URL f; Enabled := b;
     RulesCount := RulesCount f; Contents := Contents f |}.

Definition set_fetched (f : filter) (n : Z) (c : string) : filter :=
  {| ID := ID f; URL := URL f; Enabled := Enabled f;
     RulesCount := n; Contents := c |}.

(** The mutable globals the handlers work on: [config.Filters] and the
    counter behind [assignUniqueFilterID]. *)
Record state : Type := { Filters : list filter; nextFilterID : Z }.

Definition set_Filters (st : state) (fs : list filter) : state :=
  {| Filters := fs; nextFilterID := nextFilterID st |}.

(** An error of package [os], as [os.IsNotExist] classifies it. *)
Inductive os_error : Type :=
| ErrNotExist (msg : string)
| ErrOther (msg : string).

Definition os_IsNotExist (e : os_error) : bool :=
  match e with ErrNotExist _ => true | ErrOther _ => false end.

Definition os_error_text (e : os_error) : string :=
  match e with ErrNotExist msg => msg | ErrOther msg => msg end.

(** The collaborators of the filter handlers: URL validation, the network,
    the disk, the configuration file and the DNS server. *)
Class Collaborators : Type := {
  (** [govalidator.IsRequestURL] *)
  IsRequestURL : string → bool;
  (** the outcome of downloading a list: whether it was updated, its rule
      count and its content *)
  Fetch : filter → bool → result (bool * Z * string);
  (** [filter.save]: writing the content file *)
  save : filter → error;
  (** [filter.Path]: the content file of a filter *)
  Path : filter → string;
  os_Remove : string → option os_error;
  writeAllConfigs : list filter → error;
  reconfigureDNSServer : list filter → error
}.

Section handlers.
Context `{Collaborators}.

(** Modelled from the spec: [assignUniqueFilterID] is defined outside
    control.go; it hands out the next unique integer ID. *)
Definition assignUniqueFilterID (st : state) : Z * state :=
  (nextFilterID st,
   {| Filters := Filters st; nextFilterID := nextFilterID st + 1 |}).

(** The filter of the request once [handleFilteringAddURL] has set its
    ID and enabled it. *)
Definition prepared (st : state) (f : filter) : filter :=
  set_Enabled (set_ID f (nextFilterID st)) true.

(** Modelled from the spec: [filter.update] is defined outside
    control.go; it fetches the content of the list over the network and
    records the content and the number of rules parsed from it. *)
Definition update (f : filter) (force : bool) : result (bool * filter) :=
  match Fetch f force with
  | Err err => Err err
  | Ok (ok, n, c) => Ok (ok, set_fetched f n c)
  end.

Definition writeAllConfigsAndReloadDNS (st : state) : error :=
  match writeAllConfigs (Filters st) with
  | Some err => Some err
  | None => reconfigureDNSServer (Filters st)
  end.

Definition httpUpdateConfigReloadDNSReturnOK
    (w : ResponseWriter) (st : state) : ResponseWriter :=
  match writeAllConfigsAndReloadDNS st with
  | Some err =>
      httpError w StatusInternalServerError
        ("Couldn't write config file: " +:+ err)
  | None => returnOK w
  end.

(** The duplicate check: the first filter whose URL is the new one. *)
Fixpoint duplicate (filters : list filter) (url : string) : bool :=
  match filters with
  | [] => false
  | g :: filters' =>
      if bool_decide (URL g = url) then true else duplicate filters' url
  end.

(** [handleFilteringAddURL]; [body] is the filter decoded from the JSON
    request body, or the decoding error. *)
Definition handleFilteringAddURL
    (body : result filter) (w : ResponseWriter) (st : state)
  : state * ResponseWriter :=
  match body with
  | Err err =>
      (st, httpError w StatusBadRequest
             ("Failed to parse request body json: " +:+ err))
  | Ok f =>
      if bool_decide (String.length (URL f) = 0%nat)
      then (st, Error w "URL parameter was not specified" 400)
      else if negb (IsRequestURL (URL f))
      then (st, Error w "URL parameter is not valid request URL" 400)
      else if duplicate (Filters st) (URL f)
      then (st, Error w ("Filter URL already added -- " +:+ URL f)
                  StatusBadRequest)
      else
        let '(id, st) := assignUniqueFilterID st in
        let f := set_ID f id in
        let f := set_Enabled f true in
        match update f true with
        | Err err =>
            (st, Error w ("Couldn't fetch filter from url " +:+ URL f
                          +:+ ": " +:+ err) StatusBadRequest)
        | Ok (ok, f) =>
            if bool_decide (RulesCount f = 0)
            then (st, Error w ("Filter at the url " +:+ URL f +:+
                    " has no rules (maybe it points to blank page?)")
                    StatusBadRequest)
            else if negb ok
            then (st, Error w ("Filter at the url " +:+ URL f +:+
                    " is invalid (maybe it points to blank page?)")
                    StatusBadRequest)
            else
              match save f with
              | Some err =>
                  (st, Error w ("Failed to save filter " +:+ pretty (ID f)
                                +:+ " due to " +:+ err) StatusBadRequest)
              | None =>
                  let st := set_Filters st (Filters st ++ [f]) in
                  match writeAllConfigs (Filters st) with
                  | Some err =>
                      (st, Error w ("Couldn't write config file: " +:+ err)
                             StatusInternalServerError)
                  | None =>
                      let w :=
                        match reconfigureDNSServer (Filters st) with
                        | Some err =>
                            Error w ("Couldn't reconfigure the DNS server: "
                                     +:+ err) StatusInternalServerError
                        | None => w
                        end in
                      (st, Write w ("OK " +:+ pretty (RulesCount f)
                                    +:+ " rules" +:+ nl))
                  end
              end
        end
  end.

(** The loop of [handleFilteringRemoveURL].  [newFilters] is
    [config.Filters[:0]]: it shares the backing array [arr] of
    [config.Filters], so appending to it overwrites [arr] at the position
    [n], the length [newFilters] has reached.  [idx] are the positions the
    [range] still has to visit.  The result is the array, the length of
    [newFilters], and the error that made the handler return. *)
Fixpoint removeLoop (url : string) (idx : list nat)
    (arr : list filter) (n : nat) : list filter * nat * option os_error :=
  match idx with
  | [] => (arr, n, None)
  | i :: idx' =>
      match arr !! i with
      | None => (arr, n, None)
      | Some filter =>
          if bool_decide (URL filter ≠ url)
          then removeLoop url idx' (<[n := filter]> arr) (S n)
          else
            match os_Remove (Path filter) with
            | Some err =>
                if negb (os_IsNotExist err)
                then (arr, n, Some err)
                else removeLoop url idx' arr n
            | None => removeLoop url idx' arr n
            end
      end
  end.

(** [handleFilteringRemoveURL]; [parameters] is what
    [parseParametersFromBody] made of the request body. *)
Definition handleFilteringRemoveURL
    (parameters : result (gmap string string))
    (w : ResponseWriter) (st : state) : state * ResponseWriter :=
  match parameters with
  | Err err =>
      (st, Error w ("failed to parse parameters from body: " +:+ err) 400)
  | Ok parameters =>
      match parameters !! "url" with
      | None => (st, Error w "URL parameter was not specified" 400)
      | Some url =>
          if negb (IsRequestURL url)
          then (st, Error w "URL parameter is not valid request URL" 400)
          else
            match removeLoop url (seq 0 (length (Filters st)))
                    (Filters st) 0 with
            | (arr, _, Some err) =>
                (set_Filters st arr,
                 Error w ("Couldn't remove the filter file: "
                          +:+ os_error_text err)
                   StatusInternalServerError)
            | (arr, n, None) =>
                let st := set_Filters st (take n arr) in
                (st, httpUpdateConfigReloadDNSReturnOK w st)
            end
      end
  end.

(** [handleFilteringEnableURL] and [handleFilteringDisableURL] share
    their loop: set the flag of every filter with the URL, and report
    whether there was one. *)
Fixpoint setEnabled (url : string) (b : bool) (filters : list filter)
  : list filter * bool :=
  match filters with
  | [] => ([], false)
  | filter :: filters' =>
      let '(rest, found) := setEnabled url b filters' in
      if bool_decide (URL filter = url)
      then (set_Enabled filter b :: rest, true)
      else (filter :: rest, found)
  end.

Definition handleFilteringDisableURL
    (parameters : result (gmap string string))
    (w : ResponseWriter) (st : state) : state * ResponseWriter :=
  match parameters with
  | Err err =>
      (st, Error w ("failed to parse parameters from body: " +:+ err) 400)
  | Ok parameters =>
      match parameters !! "url" with
      | None => (st, Error w "URL parameter was not specified" 400)
      | Some url =>
          if negb (IsRequestURL url)
          then (st, Error w "URL parameter is not valid request URL"
                      StatusBadRequest)
          else
            let '(filters, found) := setEnabled url false (Filters st) in
            let st := set_Filters st filters in
            if negb found
            then (st, Error w "URL parameter was not previously added"
                        StatusBadRequest)
            else (st, httpUpdateConfigReloadDNSReturnOK w st)
      end
  end.
End handlers.

(** Collaborators for examples: URLs have to start with [https://], every
    download yields 120 rules, the disk accepts every file, and writing the
    configuration ends with [write_err]. *)
Definition TestCollaborators (write_err : error) : Collaborators :=
  {| IsRequestURL := λ url, String.prefix "https://" url;
     Fetch := λ _ _, Ok (true, 120, "||ads.example^");
     save := λ _, None;
     Path := λ f, "filters/" +:+ pretty (ID f) +:+ ".txt";
     os_Remove := λ _, None;
     writeAllConfigs := λ _, write_err;
     reconfigureDNSServer := λ _, None |}.

Definition list_a : filter :=
  {| ID := 1; URL := "https://a.example/list.txt"; Enabled := true;
     RulesCount := 120; Contents := "||ads.example^" |}.

(** The filter of a request body that carries a URL and nothing else. *)
Definition request_for (url : string) : filter :=
  {| ID := 0; URL := url; Enabled := false; RulesCount := 0; Contents := "" |}.

Section removal.
Context `{Collaborators}.

(** Whether the loop of [handleFilteringRemoveURL] gets past the content
    file of a filter: [os.Remove] returns no error, or one that
    [os.IsNotExist] accepts. *)
Definition removable (f : filter) : bool :=
  match os_Remove (Path f) with
  | Some err => os_IsNotExist err
  | None => true
  end.
End removal.

(** Collaborators for examples whose disk refuses to remove one file. *)
Definition BrokenDisk (broken : string) : Collaborators :=
  {| IsRequestURL := λ url, String.prefix "https://" url;
     Fetch := λ _ _, Ok (true, 120, "||ads.example^");
     save := λ _, None;
     Path := λ f, "filters/" +:+ pretty (ID f) +:+ ".txt";
     os_Remove := λ path,
       if bool_decide (path = broken)
       then Some (ErrOther "permission denied") else None;
     writeAllConfigs := λ _, None;
     reconfigureDNSServer := λ _, None |}.

Definition list_b : filter :=
  {| ID := 2; URL := "https://b.example/list.txt"; Enabled := true;
     RulesCount := 7; Contents := "||tracker.example^" |}.

(** A second subscription to the URL of [list_a], as a configuration file
    written by hand may hold. *)
Definition list_a_again : filter :=
  {| ID := 3; URL := "https://a.example/list.txt"; Enabled := false;
     RulesCount := 120; Contents := "||ads.example^" |}.

(** Collaborators for examples that cannot reconfigure the DNS server. *)
Definition NoReload : Collaborators :=
  {| IsRequestURL := λ url, String.prefix "https://" url;
     Fetch := λ _ _, Ok (true, 120, "||ads.example^");
     save := λ _, None;
     Path := λ f, "filters/" +:+ pretty (ID f) +:+ ".txt";
     os_Remove := λ _, None;
     writeAllConfigs := λ _, None;
     reconfigureDNSServer := λ _, Some "listen udp :53: bind failed" |}.

End Filtering.

(** ** TLS certificate and key validation *)

Module TLS.

(** A byte slice. *)
Definition bytes : Type := list Byte.byte.

(** [time.Time], as seconds since the Unix epoch; the zero value is the
    first second of year 1. *)
Definition Time : Type := Z.
Definition Time_zero : Time := -62135596800.

Module pem.
(** [pem.Block]: the type of the armor line and the decoded content. *)
Record Block : Type := { Type_ : string; Bytes : bytes }.
End pem.

Module x509.
(** [x509.Certificate], the fields the validator reads; the two names
    are kept as [pkix.Name.String] renders them. *)
Record Certificate : Type := {
  Subject : string;
  Issuer : string;
  NotBefore : Time;
  NotAfter : Time;
  DNSNames : list string
}.

(** [x509.VerifyOptions]; [Intermediates] is [None] for a nil pool. *)
Record VerifyOptions : Type := {
  DNSName : string;
  Intermediates : option (list Certificate)
}.
End x509.

(** Modelled from the spec: the structs [tlsConfigSettings],
    [tlsConfigStatus] and [tlsConfig] are declared outside control.go.  The
    settings are the fields that affect listener setup: enable flag, strict
    SNI host, port, certificate chain and key.  The status is the report
    derived by validation: leaf subject, issuer, validity window, DNS names,
    the validity flags, the key type, the usable flag and the warning. *)
Record tlsConfigSettings : Type := {
  Enabled : bool;
  ServerName : string;
  PortHTTPS : Z;
  CertificateChain : string;
  PrivateKey : string
}.

Record tlsConfigStatus : Type := {
  ValidCert : bool;
  ValidChain : bool;
  Subject : string;
  Issuer : string;
  NotBefore : Time;
  NotAfter : Time;
  DNSNames : list string;
  ValidKey : bool;
  KeyType : string;
  usable : bool;
  WarningValidation : string
}.

Record tlsConfig : Type := {
  tlsConfigSettings_of : tlsConfigSettings;
  tlsConfigStatus_of : tlsConfigStatus
}.

(** The zero value [tlsConfigStatus{}]. *)
Definition tlsConfigStatus_zero : tlsConfigStatus :=
  {| ValidCert := false;
     ValidChain := false;
     Subject := "";
     Issuer := "";
     NotBefore := Time_zero;
     NotAfter := Time_zero;
     DNSNames := [];
     ValidKey := false;
     KeyType := "";
     usable := false;
     WarningValidation := "" |}.

Definition with_status (data : tlsConfig) (s : tlsConfigStatus) : tlsConfig :=
  {| tlsConfigSettings_of := tlsConfigSettings_of data;
     tlsConfigStatus_of := s |}.

Definition set_ValidCert (data : tlsConfig) (x : bool) : tlsConfig :=
  let s := tlsConfigStatus_of data in
  with_status data
    {| ValidCert := x;
       ValidChain := ValidChain s;
       Subject := Subject s;
       Issuer := Issuer s;
       NotBefore := NotBefore s;
       NotAfter := NotAfter s;
       DNSNames := DNSNames s;
       ValidKey := ValidKey s;
       KeyType := KeyType s;
       usable := usable s;
       WarningValidation := WarningValidation s |}.

Definition set_ValidChain (data : tlsConfig) (x : bool) : tlsConfig :=
  let s := tlsConfigStatus_of data in
  with_status data
    {| ValidCert := ValidCert s;
       ValidChain := x;
       Subject := Subject s;
       Issuer := Issuer s;
       NotBefore := NotBefore s;
       NotAfter := NotAfter s;
       DNSNames := DNSNames s;
       ValidKey := ValidKey s;
       KeyType := KeyType s;
       usable := usable s;
       WarningValidation := WarningValidation s |}.

Definition set_Subject (data : tlsConfig) (x : string) : tlsConfig :=
  let s := tlsConfigStatus_of data in
  with_status data
    {| ValidCert := ValidCert s;
       ValidChain := ValidChain s;
       Subject := x;
       Issuer := Issuer s;
       NotBefore := NotBefore s;
       NotAfter := NotAfter s;
       DNSNames := DNSNames s;
       ValidKey := ValidKey s;
       KeyType := KeyType s;
       usable := usable s;
       WarningValidation := WarningValidation s |}.

Definition set_Issuer (data : tlsConfig) (x : string) : tlsConfig :=
  let s := tlsConfigStatus_of data in
  with_status data
    {| ValidCert := ValidCert s;
       ValidChain := ValidChain s;
       Subject := Subject s;
       Issuer := x;
       NotBefore := NotBefore s;
       NotAfter := NotAfter s;
       DNSNames := DNSNames s;
       ValidKey := ValidKey s;
       KeyType := KeyType s;
       usable := usable s;
       WarningValidation := WarningValidation s |}.

Definition set_NotBefore (data : tlsConfig) (x : Time) : tlsConfig :=
  let s := tlsConfigStatus_of data in
  with_status data
    {| ValidCert := ValidCert s;
       ValidChain := ValidChain s;
       Subject := Subject s;
       Issuer := Issuer s;
       NotBefore := x;
       NotAfter := NotAfter s;
       DNSNames := DNSNames s;
       ValidKey := ValidKey s;
       KeyType := KeyType s;
       usable := usable s;
       WarningValidation := WarningValidation s |}.

Definition set_NotAfter (data : tlsConfig) (x : Time) : tlsConfig :=
  let s := tlsConfigStatus_of data in
  with_status data
    {| ValidCert := ValidCert s;
       ValidChain := ValidChain s;
       Subject := Subject s;
       Issuer := Issuer s;
       NotBefore := NotBefore s;
       NotAfter := x;
       DNSNames := DNSNames s;
       ValidKey := ValidKey s;
       KeyType := KeyType s;
       usable := usable s;
       WarningValidation := WarningValidation s |}.

Definition set_DNSNames (data : tlsConfig) (x : list string) : tlsConfig :=
  let s := tlsConfigStatus_of data in
  with_status data
    {| ValidCert := ValidCert s;
       ValidChain := ValidChain s;
       Subject := Subject s;
       Issuer := Issuer s;
       NotBefore := NotBefore s;
       NotAfter := NotAfter s;
       DNSNames := x;
       ValidKey := ValidKey s;
       KeyType := KeyType s;
       usable := usable s;
       WarningValidation := WarningValidation s |}.

Definition set_ValidKey (data : tlsConfig) (x : bool) : tlsConfig :=
  let s := tlsConfigStatus_of data in
  with_status data
    {| ValidCert := ValidCert s;
       ValidChain := ValidChain s;
       Subject := Subject s;
       Issuer := Issuer s;
       NotBefore := NotBefore s;
       NotAfter := NotAfter s;
       DNSNames := DNSNames s;
       ValidKey := x;
       KeyType := KeyType s;
       usable := usable s;
       WarningValidation := WarningValidation s |}.

Definition set_KeyType (data : tlsConfig) (x : string) : tlsConfig :=
  let s := tlsConfigStatus_of data in
  with_status data
    {| ValidCert := ValidCert s;
       ValidChain := ValidChain s;
       Subject := Subject s;
       Issuer := Issuer s;
       NotBefore := NotBefore s;
       NotAfter := NotAfter s;
       DNSNames := DNSNames s;
       ValidKey := ValidKey s;
       KeyType := x;
       usable := usable s;
       WarningValidation := WarningValidation s |}.

Definition set_usable (data : tlsConfig) (x : bool) : tlsConfig :=
  let s := tlsConfigStatus_of data in
  with_status data
    {| ValidCert := ValidCert s;
       ValidChain := ValidChain s;
       Subject := Subject s;
       Issuer := Issuer s;
       NotBefore := NotBefore s;
       NotAfter := NotAfter s;
       DNSNames := DNSNames s;
       ValidKey := ValidKey s;
       KeyType := KeyType s;
       usable := x;
       WarningValidation := WarningValidation s |}.

Definition set_WarningValidation (data : tlsConfig) (x : string) : tlsConfig :=
  let s := tlsConfigStatus_of data in
  with_status data
    {| ValidCert := ValidCert s;
       ValidChain := ValidChain s;
       Subject := Subject s;
       Issuer := Issuer s;
       NotBefore := NotBefore s;
       NotAfter := NotAfter s;
       DNSNames := DNSNames s;
       ValidKey := ValidKey s;
       KeyType := KeyType s;
       usable := usable s;
       WarningValidation := x |}.

(** The key types of [crypto/rsa], [crypto/ecdsa], and whatever else a
    PKCS#8 wrapping may hold. *)
Class KeyTypes : Type := {
  rsa_PrivateKey : Type;
  ecdsa_PrivateKey : Type;
  other_PrivateKey : Type
}.

(** [crypto.PrivateKey]: an empty interface, told apart by a type switch. *)
Inductive crypto_PrivateKey `{KeyTypes} : Type :=
| RSAKey (key : rsa_PrivateKey)
| ECDSAKey (key : ecdsa_PrivateKey)
| OtherKey (key : other_PrivateKey).

(** The standard library as the validator uses it.  [pem.Decode] returns
    the next block, if it finds one, and the rest of the input, which is
    then shorter than the input. *)
Class CryptoLib `{KeyTypes} : Type := {
  pem_Decode : bytes → option pem.Block * bytes;
  pem_Decode_rest : ∀ data p rest,
    pem_Decode data = (Some p, rest) → (length rest < length data)%nat;
  x509_ParseCertificate : bytes → result x509.Certificate;
  Certificate_Verify : x509.Certificate → x509.VerifyOptions → error;
  x509_ParsePKCS1PrivateKey : bytes → result rsa_PrivateKey;
  x509_ParsePKCS8PrivateKey : bytes → result crypto_PrivateKey;
  x509_ParseECPrivateKey : bytes → result ecdsa_PrivateKey;
  tls_X509KeyPair : bytes → bytes → error
}.

(** [strings.HasSuffix]. *)
Definition HasSuffix (s suffix : string) : bool :=
  bool_decide (String.length suffix ≤ String.length s)%nat
  && bool_decide
       (String.substring (String.length s - String.length suffix)
          (String.length suffix) s = suffix).

(** The conversion [[]byte(s)]. *)
Definition bytes_of (s : string) : bytes := String.list_byte_of_string s.

(** How a block of statements of [validateCertificates] ends: with
    [return data], or by falling through to the next block. *)
Inductive flow : Type :=
| Return (data : tlsConfig)
| Next (data : tlsConfig).

Definition flow_data (fl : flow) : tlsConfig :=
  match fl with Return data => data | Next data => data end.

(** What a bundle reports about the certificate chain, and about the key. *)
Definition chain_report (data : tlsConfig)
  : bool * bool * string * string * Time * Time * list string :=
  let s := tlsConfigStatus_of data in
  (ValidCert s, ValidChain s, Subject s, Issuer s, NotBefore s, NotAfter s,
   DNSNames s).

Definition key_report (data : tlsConfig) : bool * string :=
  let s := tlsConfigStatus_of data in (ValidKey s, KeyType s).

Section validateCertificates.
Context `{CryptoLib}.

(** [parsePrivateKey] *)
Definition parsePrivateKey (der : bytes) : result (crypto_PrivateKey * string) :=
  match x509_ParsePKCS1PrivateKey der with
  | Ok key => Ok (RSAKey key, "RSA")
  | Err _ =>
      match x509_ParsePKCS8PrivateKey der with
      | Ok key =>
          match key with
          | RSAKey key => Ok (RSAKey key, "RSA")
          | ECDSAKey key => Ok (ECDSAKey key, "ECDSA")
          | OtherKey _ =>
              Err "tls: found unknown private key type in PKCS#8 wrapping"
          end
      | Err _ =>
          match x509_ParseECPrivateKey der with
          | Ok key => Ok (ECDSAKey key, "ECDSA")
          | Err _ => Err "tls: failed to parse private key"
          end
      end
  end.

(** The first loop: decode block after block, keep the certificates.
    One unit of [fuel] is spent per call of [pem.Decode]; [None] means
    the fuel ran out before the loop ended. *)
Fixpoint decodeCertificates (fuel : nat) (pemblock : bytes)
    (certs : list pem.Block) (skippedBytes : list string)
  : option (list pem.Block * list string) :=
  match fuel with
  | O => None
  | S fuel =>
      match pem_Decode pemblock with
      | (None, _) => Some (certs, skippedBytes)
      | (Some decoded, pemblock) =>
          if bool_decide (pem.Type_ decoded = "CERTIFICATE")
          then decodeCertificates fuel pemblock (certs ++ [decoded])
                 skippedBytes
          else decodeCertificates fuel pemblock certs
                 (skippedBytes ++ [pem.Type_ decoded])
      end
  end.

(** The second loop: parse every certificate block, stop at the first
    that does not parse. *)
Fixpoint parseCertificates (certs : list pem.Block)
    (parsedCerts : list x509.Certificate) : result (list x509.Certificate) :=
  match certs with
  | [] => Ok parsedCerts
  | cert :: certs' =>
      match x509_ParseCertificate (pem.Bytes cert) with
      | Err err => Err err
      | Ok parsed => parseCertificates certs' (parsedCerts ++ [parsed])
      end
  end.

(** The intermediate pool: [AddCert] for every certificate after the
    first. *)
Definition intermediates (parsedCerts : list x509.Certificate)
  : list x509.Certificate :=
  foldl (λ pool cert, pool ++ [cert]) [] (drop 1 parsedCerts).

(** The block guarded by [data.CertificateChain != ""]. *)
Definition validateChain (data : tlsConfig) : option flow :=
  if bool_decide (CertificateChain (tlsConfigSettings_of data) ≠ "")
  then
    let pemblock := bytes_of (CertificateChain (tlsConfigSettings_of data)) in
    match decodeCertificates (S (length pemblock)) pemblock [] [] with
    | None => None
    | Some (certs, _) =>
        match parseCertificates certs [] with
        | Err err =>
            Some (Return (set_WarningValidation data
                            ("Failed to parse certificate: " +:+ err)))
        | Ok parsedCerts =>
            match parsedCerts with
            | [] =>
                Some (Return (set_WarningValidation data
                                "You have specified an empty certificate"))
            | mainCert :: _ =>
                let data := set_ValidCert data true in
                let opts :=
                  {| x509.DNSName := ServerName (tlsConfigSettings_of data);
                     x509.Intermediates :=
                       if bool_decide (1 < length parsedCerts)%nat
                       then Some (intermediates parsedCerts)
                       else None |} in
                let data :=
                  match Certificate_Verify mainCert opts with
                  | Some err =>
                      set_WarningValidation data
                        ("Your certificate does not verify: " +:+ err)
                  | None => set_ValidChain data true
                  end in
                let notAfter := x509.NotAfter mainCert in
                let data := set_Subject data (x509.Subject mainCert) in
                let data := set_Issuer data (x509.Issuer mainCert) in
                let data := set_NotAfter data notAfter in
                let data := set_NotBefore data (x509.NotBefore mainCert) in
                let data := set_DNSNames data (x509.DNSNames mainCert) in
                Some (Next data)
            end
        end
    end
  else Some (Next data).

(** The key loop: take the first block that holds a private key and drop
    the rest. *)
Fixpoint decodeKey (fuel : nat) (pemblock : bytes)
    (skippedBytes : list string) : option (option pem.Block) :=
  match fuel with
  | O => None
  | S fuel =>
      match pem_Decode pemblock with
      | (None, _) => Some None
      | (Some decoded, pemblock) =>
          if bool_decide (pem.Type_ decoded = "PRIVATE KEY")
             || HasSuffix (pem.Type_ decoded) " PRIVATE KEY"
          then Some (Some decoded)
          else decodeKey fuel pemblock (skippedBytes ++ [pem.Type_ decoded])
      end
  end.

(** The block guarded by [data.PrivateKey != ""]. *)
Definition validateKey (data : tlsConfig) : option flow :=
  if bool_decide (PrivateKey (tlsConfigSettings_of data) ≠ "")
  then
    let pemblock := bytes_of (PrivateKey (tlsConfigSettings_of data)) in
    match decodeKey (S (length pemblock)) pemblock [] with
    | None => None
    | Some None =>
        Some (Return (set_WarningValidation data "No valid keys were found"))
    | Some (Some key) =>
        match parsePrivateKey (pem.Bytes key) with
        | Err err =>
            Some (Return (set_WarningValidation data
                            ("Failed to parse private key: " +:+ err)))
        | Ok (_, keytype) =>
            let data := set_ValidKey data true in
            let data := set_KeyType data keytype in
            Some (Next data)
        end
    end
  else Some (Next data).

(** The last block: certificate and key in unison. *)
Definition validatePair (data : tlsConfig) : tlsConfig :=
  if bool_decide (PrivateKey (tlsConfigSettings_of data) ≠ "")
     && bool_decide (CertificateChain (tlsConfigSettings_of data) ≠ "")
  then
    match tls_X509KeyPair
            (bytes_of (CertificateChain (tlsConfigSettings_of data)))
            (bytes_of (PrivateKey (tlsConfigSettings_of data))) with
    | Some err =>
        set_WarningValidation data ("Invalid certificate or key: " +:+ err)
    | None => set_usable data true
    end
  else data.

(** [validateCertificates]; [None] only if a decoding loop ran out of
    fuel, which [validateCertificates_returns] excludes. *)
Definition validateCertificates (data : tlsConfig) : option tlsConfig :=
  let data := with_status data tlsConfigStatus_zero in
  match validateChain data with
  | None => None
  | Some (Return data) => Some data
  | Some (Next data) =>
      match validateKey data with
      | None => None
      | Some (Return data) => Some data
      | Some (Next data) => Some (validatePair data)
      end
  end.

(** The CERTIFICATE blocks of a chain text, as the first loop collects
    them. *)
Definition certificateBlocks (chain : string) : option (list pem.Block) :=
  fst <$> decodeCertificates (S (length (bytes_of chain))) (bytes_of chain)
            [] [].

(** The private-key block of a key text, as the key loop finds it. *)
Definition keyBlock (key : string) : option (option pem.Block) :=
  decodeKey (S (length (bytes_of key))) (bytes_of key) [].
End validateCertificates.

(** *** A miniature library for examples

    Every byte of a text stands for one PEM block: [C] a certificate, [X]
    a CERTIFICATE block whose content is no certificate, [R] a PKCS#1 RSA
    key, [P] and [O] PKCS#8 keys (ECDSA, and of an unknown type), [E] a SEC1
    EC key, [G] a PRIVATE KEY block whose content is no key, [D] a block of
    another type.  Any other byte ends the decoding. *)

Definition example_keys : KeyTypes :=
  {| rsa_PrivateKey := unit; ecdsa_PrivateKey := unit;
     other_PrivateKey := unit |}.

Definition example_blockType (b : Byte.byte) : option string :=
  match b with
  | Byte.x43 | Byte.x58 => Some "CERTIFICATE"
  | Byte.x52 => Some "RSA PRIVATE KEY"
  | Byte.x50 | Byte.x4f | Byte.x47 => Some "PRIVATE KEY"
  | Byte.x45 => Some "EC PRIVATE KEY"
  | Byte.x44 => Some "DH PARAMETERS"
  | _ => None
  end.

Definition example_Decode (data : bytes) : option pem.Block * bytes :=
  match data with
  | [] => (None, [])
  | b :: rest =>
      match example_blockType b with
      | Some type => (Some {| pem.Type_ := type; pem.Bytes := [b] |}, rest)
      | None => (None, data)
      end
  end.

Definition example_leaf : x509.Certificate :=
  {| x509.Subject := "CN=dns.example";
     x509.Issuer := "CN=dns.example";
     x509.NotBefore := 1546300800;
     x509.NotAfter := 1577836800;
     x509.DNSNames := ["dns.example"] |}.

Definition example_ParseCertificate (der : bytes) : result x509.Certificate :=
  match der with
  | [Byte.x43] => Ok example_leaf
  | _ => Err "asn1: structure error"
  end.

Definition example_ParsePKCS1 (der : bytes) : result unit :=
  match der with
  | [Byte.x52] => Ok ()
  | _ => Err "asn1: structure error"
  end.

Definition example_ParsePKCS8 (der : bytes)
  : result (@crypto_PrivateKey example_keys) :=
  match der with
  | [Byte.x50] => Ok (@ECDSAKey example_keys ())
  | [Byte.x4f] => Ok (@OtherKey example_keys ())
  | _ => Err "asn1: structure error"
  end.

Definition example_ParseEC (der : bytes) : result unit :=
  match der with
  | [Byte.x45] => Ok ()
  | _ => Err "asn1: structure error"
  end.

(** A request to validate a chain text and a key text. *)
Definition example_config (chain key : string) : tlsConfig :=
  {| tlsConfigSettings_of :=
       {| Enabled := true; ServerName := "dns.example"; PortHTTPS := 443;
          CertificateChain := chain; PrivateKey := key |};
     tlsConfigStatus_of := tlsConfigStatus_zero |}.

Definition example_KeyPair (chain key : bytes) : error :=
  match chain, key with
  | Byte.x43 :: _, (Byte.x52 | Byte.x50 | Byte.x45) :: _ => None
  | _, _ => Some "tls: failed to find any PEM data in key input"
  end.

End TLS.

(** ** Testing a list of upstream servers *)

Module Upstreams.

(** What the handlers take from the standard library to read a request
    body and to write a JSON object. *)
Class BodyLib : Type := {
  strings_Fields : string → list string;
  json_Marshal : gmap string string → result string
}.

Section handleTestUpstreamDNS.
Context `{Prober.UpstreamLib} `{BodyLib}.

(** The entry written for a host: [err.Error()], or [OK]. *)
Definition verdict (err : error) : string :=
  match err with Some text => text | None => "OK" end.

(** The loop of [handleTestUpstreamDNS] over the hosts that are left, the
    first of them being the [i]-th host of the request; [ids i] is the
    message id drawn for the [i]-th probe. *)
Fixpoint testLoop (ids : nat → Z) (hosts : list string) (i : nat)
    (result : gmap string string) : gmap string string :=
  match hosts with
  | [] => result
  | host :: hosts' =>
      testLoop ids hosts' (S i) (<[host := verdict (Prober.checkDNS (ids i) host)]> result)
  end.

(** [handleTestUpstreamDNS]; [body] is what [ioutil.ReadAll] made of the
    request body. *)
Definition handleTestUpstreamDNS (ids : nat → Z) (body : result string)
    (w : Http.ResponseWriter) : Http.ResponseWriter :=
  match body with
  | Err err =>
      Http.Error w ("Failed to read request body: " +:+ err) 400
  | Ok body =>
      let hosts := strings_Fields body in
      if bool_decide (length hosts = 0%nat)
      then Http.Error w "No servers specified" Http.StatusBadRequest
      else
        let result := testLoop ids hosts 0 ∅ in
        match json_Marshal result with
        | Err err =>
            Http.Error w ("Unable to marshal status json: " +:+ err)
              Http.StatusInternalServerError
        | Ok jsonVal => Http.Write w jsonVal
        end
  end.
End handleTestUpstreamDNS.

(** A body reader for examples: the body names one host; the JSON text
    is not spelled out. *)
Definition OneHost : BodyLib :=
  {| strings_Fields := λ body, if bool_decide (body = "") then [] else [body];
     json_Marshal := λ _, Ok "{}" |}.

End Upstreams.

(** ** TLS handlers *)

Module TLSHandlers.
Import Http TLS.

#[global] Instance tlsConfigSettings_eq_dec : EqDecision tlsConfigSettings.
Proof. solve_decision. Defined.

(** What the TLS handlers take from outside: base64 from the standard
    library (decoding undoes encoding, and only the empty text encodes to the
    empty text), error decoration, the JSON encoder, the check that a port
    can be bound, and writing the configuration and reloading the DNS
    server, which depend on the TLS configuration now in force. *)
Class Platform : Type := {
  base64_DecodeString : string → result string;
  base64_EncodeToString : string → string;
  base64_decode_encode : ∀ s, base64_DecodeString (base64_EncodeToString s) = Ok s;
  base64_encode_nonempty : ∀ s, s ≠ "" → base64_EncodeToString s ≠ "";
  errorx_Decorate : string → string → string;
  json_Encode : tlsConfig → result string;
  checkPortAvailable : string → Z → error;
  writeAllConfigsAndReloadDNS : tlsConfig → error
}.

Definition set_CertificateChain (data : tlsConfig) (x : string) : tlsConfig :=
  let s := tlsConfigSettings_of data in
  {| tlsConfigSettings_of :=
       {| Enabled := Enabled s; ServerName := ServerName s;
          PortHTTPS := PortHTTPS s; CertificateChain := x;
          PrivateKey := PrivateKey s |};
     tlsConfigStatus_of := tlsConfigStatus_of data |}.

Definition set_PrivateKey (data : tlsConfig) (x : string) : tlsConfig :=
  let s := tlsConfigSettings_of data in
  {| tlsConfigSettings_of :=
       {| Enabled := Enabled s; ServerName := ServerName s;
          PortHTTPS := PortHTTPS s; CertificateChain := CertificateChain s;
          PrivateKey := x |};
     tlsConfigStatus_of := tlsConfigStatus_of data |}.

(** The globals the handlers read and write: [config.TLS],
    [config.BindHost], and whether [httpsServer.server] is set. *)
Record state : Type := {
  config_TLS : tlsConfig;
  config_BindHost : string;
  httpsServer_running : bool
}.

Definition set_config_TLS (st : state) (data : tlsConfig) : state :=
  {| config_TLS := data; config_BindHost := config_BindHost st;
     httpsServer_running := httpsServer_running st |}.

Section handlers.
Context `{CryptoLib} `{Platform}.

(** [unmarshalTLS]; [body] is what the JSON decoder made of the request
    body.  The data returned beside an error is left out: no caller reads
    it. *)
Definition unmarshalTLS (body : result tlsConfig) : result tlsConfig :=
  match body with
  | Err err => Err (errorx_Decorate err "Failed to parse new TLS config json")
  | Ok data =>
      let chain :=
        if bool_decide (CertificateChain (tlsConfigSettings_of data) ≠ "")
        then
          match base64_DecodeString
                  (CertificateChain (tlsConfigSettings_of data)) with
          | Err err =>
              Err (errorx_Decorate err
                     "Failed to base64-decode certificate chain")
          | Ok certPEM => Ok (set_CertificateChain data certPEM)
          end
        else Ok data in
      match chain with
      | Err err => Err err
      | Ok data =>
          if bool_decide (PrivateKey (tlsConfigSettings_of data) ≠ "")
          then
            match base64_DecodeString
                    (PrivateKey (tlsConfigSettings_of data)) with
            | Err err =>
                Err (errorx_Decorate err "Failed to base64-decode private key")
            | Ok keyPEM => Ok (set_PrivateKey data keyPEM)
            end
          else Ok data
      end
  end.

(** The struct [marshalTLS] hands to the JSON encoder. *)
Definition marshalled (data : tlsConfig) : tlsConfig :=
  let data :=
    if bool_decide (CertificateChain (tlsConfigSettings_of data) ≠ "")
    then set_CertificateChain data
           (base64_EncodeToString (CertificateChain (tlsConfigSettings_of data)))
    else data in
  if bool_decide (PrivateKey (tlsConfigSettings_of data) ≠ "")
  then set_PrivateKey data
         (base64_EncodeToString (PrivateKey (tlsConfigSettings_of data)))
  else data.

(** [marshalTLS] *)
Definition marshalTLS (w : ResponseWriter) (data : tlsConfig)
  : ResponseWriter :=
  match json_Encode (marshalled data) with
  | Err err =>
      httpError w StatusInternalServerError
        ("Failed to marshal json with TLS status: " +:+ err)
  | Ok text => Write w text
  end.

(** The start of both handlers: decode the request, and check the port
    unless the HTTPS server is running already. *)
Definition accepted (body : result tlsConfig) (w : ResponseWriter)
    (st : state) : ResponseWriter + tlsConfig :=
  match unmarshalTLS body with
  | Err err =>
      inl (httpError w StatusBadRequest
             ("Failed to unmarshal TLS config: " +:+ err))
  | Ok data =>
      let alreadyRunning := httpsServer_running st in
      if negb alreadyRunning
      then
        match checkPortAvailable (config_BindHost st)
                (PortHTTPS (tlsConfigSettings_of data)) with
        | Some _ =>
            inl (httpError w StatusBadRequest
                   ("port " +:+ pretty (PortHTTPS (tlsConfigSettings_of data))
                    +:+ " is not available, cannot enable HTTPS on it"))
        | None => inr data
        end
      else inr data
  end.

(** [handleTLSValidate]; [None] only if validation ran out of fuel. *)
Definition handleTLSValidate (body : result tlsConfig) (w : ResponseWriter)
    (st : state) : option ResponseWriter :=
  match accepted body w st with
  | inl w => Some w
  | inr data =>
      match validateCertificates data with
      | None => None
      | Some data => Some (marshalTLS w data)
      end
  end.

(** [handleTLSConfigure]: the new globals, the response, and whether the
    task that shuts the HTTPS server down has been started. *)
Definition handleTLSConfigure (body : result tlsConfig) (w : ResponseWriter)
    (st : state) : option (state * ResponseWriter * bool) :=
  match accepted body w st with
  | inl w => Some (st, w, false)
  | inr data =>
      match validateCertificates data with
      | None => None
      | Some data =>
          let restartHTTPS :=
            bool_decide (tlsConfigSettings_of (config_TLS st)
                         ≠ tlsConfigSettings_of data) in
          let st := set_config_TLS st data in
          match writeAllConfigsAndReloadDNS (config_TLS st) with
          | Some err =>
              Some (st, httpError w StatusInternalServerError
                          ("Couldn't write config file: " +:+ err), false)
          | None => Some (st, marshalTLS w data, restartHTTPS)
          end
      end
  end.
End handlers.

(** A platform for examples: base64 is stood for by a marker in front of
    the text, ports are free, and the configuration is written. *)
Definition example_decode (s : string) : result string :=
  match s with
  | String (Ascii.Ascii true false true true true true false false) s' =>
      Ok s'
  | _ => Err "illegal base64 data"
  end.

End TLSHandlers.

(** ** Version check *)

Module Version.
Import Http.

Definition StatusBadGateway : Z := 502.

(** [time.Duration]: nanoseconds in 64 bits. *)
Definition minDuration : Z := - 2 ^ 63.
Definition maxDuration : Z := 2 ^ 63 - 1.
Definition Hour : Z := 3600 * 1000000000.

Definition versionCheckURL : string :=
  "https://adguardteam.github.io/AdGuardHome/version.json".
Definition versionCheckPeriod : Z := Hour * 8.

(** An instant, in nanoseconds on one clock.  [Time.Sub] gives the
    difference of two instants, or the largest or smallest duration when
    the difference does not fit. *)
Definition Time_Sub (t u : Z) : Z :=
  if bool_decide (t - u < minDuration) then minDuration
  else if bool_decide (maxDuration < t - u) then maxDuration
  else t - u.

(** The cache: [versionCheckJSON] and [versionCheckLastTime]. *)
Record state : Type := {
  versionCheckJSON : string;
  versionCheckLastTime : Z
}.

(** An error of [client.Get], with the name of its type for the verb
    [%T]. *)
Record get_error : Type := { error_type : string; error_text : string }.

(** The network: what [client.Get] returns for a URL, and inside it what
    reading the body to its end returns. *)
Class Network : Type := {
  client_Get : string → get_error + result string
}.

Section handleGetVersionJSON.
Context `{Network}.

(** [handleGetVersionJSON]; [now] is what [time.Now()] returned. *)
Definition handleGetVersionJSON (now : Z) (w : ResponseWriter) (st : state)
  : state * ResponseWriter :=
  if bool_decide (Time_Sub now (versionCheckLastTime st) ≤ versionCheckPeriod)
     && bool_decide (String.length (versionCheckJSON st) ≠ 0%nat)
  then (st, Write w (versionCheckJSON st))
  else
    match client_Get versionCheckURL with
    | inl err =>
        (st, Error w ("Couldn't get version check json from "
                      +:+ versionCheckURL +:+ ": " +:+ error_type err
                      +:+ " " +:+ error_text err +:+ nl)
               StatusBadGateway)
    | inr (Err err) =>
        (st, Error w ("Couldn't read response body from "
                      +:+ versionCheckURL +:+ ": " +:+ err)
               StatusBadGateway)
    | inr (Ok body) =>
        let w := Write w body in
        ({| versionCheckJSON := body; versionCheckLastTime := now |}, w)
    end.
End handleGetVersionJSON.

(** Networks for examples: one that answers, one that is down, and one
    whose answer breaks off while the body is read. *)
Definition Online (body : string) : Network :=
  {| client_Get := λ _, inr (Ok body) |}.
Definition Offline : Network :=
  {| client_Get := λ _,
       inl {| error_type := "*url.Error";
              error_text := "dial tcp: no route to host" |} |}.
Definition BrokenBody : Network :=
  {| client_Get := λ _, inr (Err "unexpected EOF") |}.

End Version.

(** ** Parental control *)

Module Parental.
Import Http.

(** A decimal digit of [strconv.Atoi]. *)
Definition digit (c : Ascii.ascii) : option Z :=
  let n := Z.of_nat (Ascii.nat_of_ascii c) in
  if bool_decide (48 ≤ n ≤ 57) then Some (n - 48) else None.

Fixpoint digits (s : string) (acc : Z) : option Z :=
  match s with
  | "" => Some acc
  | String c s' =>
      match digit c with
      | Some d => digits s' (acc * 10 + d)
      | None => None
      end
  end.

(** [strconv.Atoi] with a 64-bit [int]: an optional sign and at least one
    decimal digit, and a value that fits. *)
Definition Atoi (s : string) : result Z :=
  let syntax := "strconv.Atoi: parsing " +:+ s +:+ ": invalid syntax" in
  let range := "strconv.Atoi: parsing " +:+ s +:+ ": value out of range" in
  let '(neg, ds) :=
    match s with
    | String c s' =>
        if bool_decide (c = Ascii.ascii_of_nat 45) then (true, s')
        else if bool_decide (c = Ascii.ascii_of_nat 43) then (false, s')
        else (false, s)
    | "" => (false, s)
    end in
  if bool_decide (ds = "") then Err syntax
  else
    match digits ds 0 with
    | None => Err syntax
    | Some n =>
        let v := if neg : bool then - n else n in
        if bool_decide (- 2 ^ 63 ≤ v ≤ 2 ^ 63 - 1) then Ok v else Err range
    end.

(** The globals [config.DNS.ParentalSensitivity] and
    [config.DNS.ParentalEnabled]. *)
Record state : Type := {
  ParentalSensitivity : Z;
  ParentalEnabled : bool
}.

Class Persistence : Type := {
  writeAllConfigsAndReloadDNS : state → error
}.

Section handleParentalEnable.
Context `{Persistence}.

Definition httpUpdateConfigReloadDNSReturnOK (w : ResponseWriter)
    (st : state) : ResponseWriter :=
  match writeAllConfigsAndReloadDNS st with
  | Some err =>
      httpError w StatusInternalServerError
        ("Couldn't write config file: " +:+ err)
  | None => returnOK w
  end.

(** The [switch] of [handleParentalEnable]: the sensitivity as a numeral,
    or nothing for the default case. *)
Definition normalise (sensitivity : string) : option string :=
  if bool_decide (sensitivity = "3") then Some sensitivity
  else if bool_decide (sensitivity = "EARLY_CHILDHOOD") then Some "3"
  else if bool_decide (sensitivity = "10") then Some sensitivity
  else if bool_decide (sensitivity = "YOUNG") then Some "10"
  else if bool_decide (sensitivity = "13") then Some sensitivity
  else if bool_decide (sensitivity = "TEEN") then Some "13"
  else if bool_decide (sensitivity = "17") then Some sensitivity
  else if bool_decide (sensitivity = "MATURE") then Some "17"
  else None.

(** [handleParentalEnable]; [parameters] is what
    [parseParametersFromBody] made of the request body. *)
Definition handleParentalEnable (parameters : result (gmap string string))
    (w : ResponseWriter) (st : state) : state * ResponseWriter :=
  match parameters with
  | Err err =>
      (st, Error w ("failed to parse parameters from body: " +:+ err) 400)
  | Ok parameters =>
      match parameters !! "sensitivity" with
      | None => (st, Error w "URL parameter was not specified" 400)
      | Some sensitivity =>
          match normalise sensitivity with
          | None =>
              (st, Error w "Sensitivity must be set to valid value" 400)
          | Some sensitivity =>
              match Atoi sensitivity with
              | Err _ =>
                  (st, Error w "Sensitivity must be set to valid value" 400)
              | Ok i =>
                  let st := {| ParentalSensitivity := i;
                               ParentalEnabled := true |} in
                  (st, httpUpdateConfigReloadDNSReturnOK w st)
              end
          end
      end
  end.
End handleParentalEnable.

(** The sensitivities the handler accepts, and the number each stands
    for. *)
Definition levels : list (string * Z) :=
  [("3", 3); ("EARLY_CHILDHOOD", 3); ("10", 10); ("YOUNG", 10);
   ("13", 13); ("TEEN", 13); ("17", 17); ("MATURE", 17)].

Definition Saved : Persistence :=
  {| writeAllConfigsAndReloadDNS := λ _, None |}.

End Parental.

(** ** User rules *)

Module UserRules.
Import Http.

(** [strings.Split(s, "\n")] *)
Fixpoint splitLines (s : string) : list string :=
  match s with
  | "" => [""]
  | String c s' =>
      if bool_decide (c = Ascii.ascii_of_nat 10) then "" :: splitLines s'
      else
        match splitLines s' with
        | line :: lines => String c line :: lines
        | [] => [String c ""]
        end
  end.

Class Persistence : Type := {
  writeAllConfigsAndReloadDNS : list string → error
}.

Section handleFilteringSetRules.
Context `{Persistence}.

(** [handleFilteringSetRules], on [config.UserRules]; [body] is what
    [ioutil.ReadAll] made of the request body. *)
Definition handleFilteringSetRules (body : result string)
    (w : ResponseWriter) (userRules : list string)
  : list string * ResponseWriter :=
  match body with
  | Err err =>
      (userRules, Error w ("Failed to read request body: " +:+ err) 400)
  | Ok body =>
      let userRules := splitLines body in
      (userRules,
       match writeAllConfigsAndReloadDNS userRules with
       | Some err =>
           httpError w StatusInternalServerError
             ("Couldn't write config file: " +:+ err)
       | None => returnOK w
       end)
  end.
End handleFilteringSetRules.

(** A line holds no line feed. *)
Fixpoint one_line (s : string) : Prop :=
  match s with
  | "" => True
  | String c s' => c ≠ Ascii.ascii_of_nat 10 ∧ one_line s'
  end.

(** The rules written back one per line. *)
Fixpoint joinLines (lines : list string) : string :=
  match lines with
  | [] => ""
  | [line] => line
  | line :: lines' => line +:+ nl +:+ joinLines lines'
  end.

End UserRules.

(** ** First-run configuration *)

Module Install.
Import Http.

Record ipport : Type := { IP : string; Port : Z; Warning : string }.

(** [firstRunData], without the interface table that
    [handleInstallConfigure] does not read. *)
Record firstRunData : Type := {
  Web : ipport;
  DNS : ipport;
  Username : string;
  Password : string
}.

(** The globals [handleInstallConfigure] reads and writes. *)
Record configuration : Type := {
  firstRun : bool;
  BindHost : string;
  BindPort : Z;
  DNS_BindHost : string;
  DNS_Port : Z;
  AuthName : string;
  AuthPass : string
}.

Class Platform : Type := {
  checkPortAvailable : string → Z → error;
  checkPacketPortAvailable : string → Z → error;
  net_JoinHostPort : string → string → string;
  startDNSServer : configuration → error;
  writeAllConfigsAndReloadDNS : configuration → error
}.

Section handleInstallConfigure.
Context `{Platform}.

Definition httpUpdateConfigReloadDNSReturnOK (w : ResponseWriter)
    (config : configuration) : ResponseWriter :=
  match writeAllConfigsAndReloadDNS config with
  | Some err =>
      httpError w StatusInternalServerError
        ("Couldn't write config file: " +:+ err)
  | None => returnOK w
  end.

(** [handleInstallConfigure]: the new globals, the response, and whether
    the task that shuts the HTTP server down has been started; [body] is
    what the JSON decoder made of the request body. *)
Definition handleInstallConfigure (body : result firstRunData)
    (w : ResponseWriter) (config : configuration)
  : configuration * ResponseWriter * bool :=
  match body with
  | Err err =>
      (config, httpError w StatusBadRequest
                 ("Failed to parse new config json: " +:+ err), false)
  | Ok newSettings =>
      let restartHTTP :=
        negb (bool_decide (BindHost config = IP (Web newSettings))
              && bool_decide (BindPort config = Port (Web newSettings))) in
      match (if restartHTTP
             then checkPortAvailable (IP (Web newSettings))
                    (Port (Web newSettings))
             else None) with
      | Some err =>
          (config, httpError w StatusBadRequest
                     ("Impossible to listen on IP:port "
                      +:+ net_JoinHostPort (IP (Web newSettings))
                            (pretty (Port (Web newSettings)))
                      +:+ " due to " +:+ err), false)
      | None =>
          match checkPacketPortAvailable (IP (DNS newSettings))
                  (Port (DNS newSettings)) with
          | Some err =>
              (config, httpError w StatusBadRequest
                         ("Impossible to listen on IP:port "
                          +:+ net_JoinHostPort (IP (DNS newSettings))
                                (pretty (Port (DNS newSettings)))
                          +:+ " due to " +:+ err), false)
          | None =>
              let config :=
                {| firstRun := false;
                   BindHost := IP (Web newSettings);
                   BindPort := Port (Web newSettings);
                   DNS_BindHost := IP (DNS newSettings);
                   DNS_Port := Port (DNS newSettings);
                   AuthName := Username newSettings;
                   AuthPass := Password newSettings |} in
              match (if bool_decide (DNS_Port config ≠ 0)
                     then startDNSServer config else None) with
              | Some err =>
                  (config, httpError w StatusInternalServerError
                             ("Couldn't start DNS server: " +:+ err), false)
              | None =>
                  (config, httpUpdateConfigReloadDNSReturnOK w config,
                   restartHTTP)
              end
          end
      end
  end.
End handleInstallConfigure.

(** A platform for examples: every port is free, and writing the
    configuration ends with [write_err]. *)
Definition FreePorts (write_err : error) : Platform :=
  {| checkPortAvailable := λ _ _, None;
     checkPacketPortAvailable := λ _ _, None;
     net_JoinHostPort := λ host port, host +:+ ":" +:+ port;
     startDNSServer := λ _, None;
     writeAllConfigsAndReloadDNS := λ _, write_err |}.

Definition first_run : configuration :=
  {| firstRun := true; BindHost := "0.0.0.0"; BindPort := 3000;
     DNS_BindHost := "0.0.0.0"; DNS_Port := 53;
     AuthName := ""; AuthPass := "" |}.

End Install.

(** * Properties *)

(** ** Statistics *)

Section stats_facts.
Import Stats.

Lemma foldl_snoc_fmap {A B} (f : A → B) (l : list A) (acc : list B) :
  foldl (λ acc x, acc ++ [f x]) acc l = acc ++ (f <$> l).
Proof.
  revert acc. induction l as [|x l IH]; intros acc; simpl.
  - by rewrite app_nil_r.
  - rewrite IH. by rewrite <- app_assoc.
Qed.

Lemma less_v_swo : StrictWeakOrder less_v.
Proof.
  unfold less_v. split.
  - intros x. apply bool_decide_eq_false. lia.
  - intros x y z. rewrite !bool_decide_eq_true. lia.
  - intros x y z. rewrite !bool_decide_eq_false. lia.
Qed.

Lemma Sorted_take {A} (R : relation A) (n : nat) (l : list A) :
  Sorted R l → Sorted R (take n l).
Proof.
  intros Hs. revert n. induction Hs as [|x l Hs IH Hhd]; intros [|n]; simpl;
    try constructor.
  - apply IH.
  - destruct Hhd; destruct n; simpl; constructor. done.
Qed.

Lemma Sorted_mono {A} (R1 R2 : relation A) (l : list A) :
  (∀ a b, R1 a b → R2 a b) → Sorted R1 l → Sorted R2 l.
Proof.
  intros HR Hs. induction Hs as [|x l Hs IH Hhd]; constructor; [done|].
  destruct Hhd; constructor. by apply HR.
Qed.

(** Insertion sort meets the contract of [sort.Slice]. *)
Lemma insert_by_perm {A} (less : A → A → bool) x l :
  insert_by less x l ≡ₚ x :: l.
Proof.
  induction l as [|y l IH]; simpl; [done|].
  destruct (less y x); [|done].
  rewrite IH. apply perm_swap.
Qed.

Lemma insertion_sort_perm {A} (less : A → A → bool) l :
  insertion_sort less l ≡ₚ l.
Proof.
  induction l as [|x l IH]; simpl; [done|].
  unfold insertion_sort in *. simpl.
  by rewrite insert_by_perm, IH.
Qed.

Lemma insert_by_sorted {A} (less : A → A → bool) x l :
  (∀ a b, less a b = true → less b a = false) →
  Sorted (λ a b, less b a = false) l →
  Sorted (λ a b, less b a = false) (insert_by less x l).
Proof.
  intros Hasym Hs. induction Hs as [|y l Hs IH Hhd]; simpl.
  - repeat constructor.
  - destruct (less y x) eqn:Hyx.
    + constructor; [done|].
      destruct Hhd as [|z l Hz]; simpl.
      * constructor. by apply Hasym.
      * destruct (less z x); constructor; [done|by apply Hasym].
    + constructor; [by constructor|]. by constructor.
Qed.

Lemma insertion_sort_sorted {A} (less : A → A → bool) l :
  StrictWeakOrder less →
  Sorted (λ a b, less b a = false) (insertion_sort less l).
Proof.
  intros Hswo. induction l as [|x l IH]; simpl; [constructor|].
  apply insert_by_sorted; [|done].
  intros a b Hab. destruct (less b a) eqn:Hba; [|done].
  rewrite <- (swo_irrefl less Hswo a).
  symmetry. by apply (swo_trans less Hswo a b a).
Qed.
End stats_facts.

Definition InsertionSort : Stats.SortSlice := {|
  Stats.sort_Slice := @Stats.insertion_sort;
  Stats.sort_Slice_perm := @insertion_sort_perm;
  Stats.sort_Slice_sorted := @insertion_sort_sorted
|}.

Section topN.
Import Stats.
Context `{SortSlice}.

Lemma sortByValue_eq it : sortByValue it = k <$> sorted_kvs it.
Proof.
  unfold sortByValue, sorted_kvs.
  by rewrite !foldl_snoc_fmap.
Qed.

Lemma sorted_kvs_sorted it : Sorted (λ a b, v b ≤ v a) (sorted_kvs it).
Proof.
  unfold sorted_kvs.
  eapply Sorted_mono; [|apply sort_Slice_sorted, less_v_swo].
  intros a b. unfold less_v. rewrite bool_decide_eq_false. simpl. lia.
Qed.

Lemma sorted_kvs_perm it : sorted_kvs it ≡ₚ (λ e, KV e.1 e.2) <$> it.
Proof. apply sort_Slice_perm. Qed.

Lemma sorted_kvs_index top it :
  is_range top it →
  Forall (λ e, index top (k e) = v e) (sorted_kvs it).
Proof.
  intros Hr. rewrite sorted_kvs_perm. apply Forall_fmap, Forall_forall.
  intros [key val] Hin. simpl. unfold index.
  rewrite Hr in Hin. apply elem_of_map_to_list in Hin. by rewrite Hin.
Qed.

Lemma gen_eq top it :
  is_range top it →
  gen top it = (λ e, (k e, v e)) <$> take 50 (sorted_kvs it).
Proof.
  intros Hr. unfold gen.
  assert (Ht : (if bool_decide (50 < length (sortByValue it))%nat
                then take 50 (sortByValue it) else sortByValue it)
               = take 50 (sortByValue it)).
  { case_bool_decide; [done|]. symmetry. apply take_ge. lia. }
  rewrite Ht, sortByValue_eq, <- fmap_take, <- list_fmap_compose.
  apply Forall_fmap_ext. eapply Forall_impl.
  - apply Forall_take, sorted_kvs_index, Hr.
  - intros e He. simpl. by rewrite He.
Qed.

Lemma gen_length top it : (length (gen top it) ≤ 50)%nat.
Proof.
  unfold gen. rewrite length_fmap.
  case_bool_decide; [|lia]. rewrite length_take. lia.
Qed.

(** The counts of the rows, as a list. *)
Lemma gen_counts top it :
  is_range top it → (gen top it).*2 = take 50 (v <$> sorted_kvs it).
Proof.
  intros Hr. rewrite (gen_eq _ _ Hr), <- list_fmap_compose.
  by rewrite fmap_take.
Qed.
End topN.

Section topN_claims.
Import Stats.
Context `{SortSlice}.

(** C5: for every counter mapping, whatever order the map is ranged over,
    a top-N table has at most 50 rows, and every row's count is greater
    than or equal to the count of the row after it. *)
Theorem topN_at_most_50_sorted (top : gmap string Z) (it : list (string * Z)) :
  is_range top it →
  (length (gen top it) ≤ 50)%nat ∧
  Sorted (λ row next, next.2 ≤ row.2) (gen top it).
Proof.
  intros Hr. split; [apply gen_length|].
  rewrite (gen_eq _ _ Hr).
  apply Sorted_fmap with (R1 := λ a b, v b ≤ v a); [done|].
  apply Sorted_take, sorted_kvs_sorted.
Qed.

Local Instance ge_trans : Transitive (λ a b : Z, b ≤ a).
Proof. intros a b c; lia. Qed.
Local Instance ge_antisymm : AntiSymm (=) (λ a b : Z, b ≤ a).
Proof. intros a b; lia. Qed.

(** C6 (as amended): two runs over the same counter mapping, whatever
    order each ranges over the map in, write the same counts row by row;
    only the keys of rows with equal counts can change places. *)
Theorem topN_counts_deterministic (top : gmap string Z)
    (it1 it2 : list (string * Z)) :
  is_range top it1 → is_range top it2 →
  (gen top it1).*2 = (gen top it2).*2.
Proof.
  intros Hr1 Hr2. rewrite !gen_counts by done. f_equal.
  apply (Sorted_unique (λ a b : Z, b ≤ a)).
  - apply Sorted_fmap with (R1 := λ a b, v b ≤ v a); [done|].
    apply sorted_kvs_sorted.
  - apply Sorted_fmap with (R1 := λ a b, v b ≤ v a); [done|].
    apply sorted_kvs_sorted.
  - rewrite !sorted_kvs_perm. unfold is_range in *. by rewrite Hr1, Hr2.
Qed.
End topN_claims.

Lemma is_range_intro (top : gmap string Z) (it : list (string * Z)) :
  NoDup it.*1 → list_to_map it = top → Stats.is_range top it.
Proof.
  intros Hnd <-. unfold Stats.is_range. symmetry. by apply map_to_list_to_map.
Qed.

Lemma two_ties_ab_range : Stats.is_range Stats.two_ties Stats.two_ties_ab.
Proof. apply is_range_intro; [|reflexivity]. by apply (bool_decide_unpack _). Qed.

Lemma two_ties_ba_range : Stats.is_range Stats.two_ties Stats.two_ties_ba.
Proof. apply is_range_intro; [|reflexivity]. by apply (bool_decide_unpack _). Qed.

Lemma topN_at_most_50_sorted_witness :
  Stats.is_range Stats.two_ties Stats.two_ties_ab ∧
  (length (@Stats.gen InsertionSort Stats.two_ties Stats.two_ties_ab) ≤ 50)%nat ∧
  Sorted (λ row next : string * Z, next.2 ≤ row.2)
    (@Stats.gen InsertionSort Stats.two_ties Stats.two_ties_ab).
Proof.
  split; [exact two_ties_ab_range|].
  exact (topN_at_most_50_sorted Stats.two_ties Stats.two_ties_ab two_ties_ab_range).
Defined.

(** C6 (as stated) fails: the two counters of [two_ties] are equal, and
    the table lists them in the order the run happened to range over the
    map, so two runs on the same mapping give two different tables. *)
Lemma topN_order_not_deterministic :
  Stats.is_range Stats.two_ties Stats.two_ties_ab ∧
  Stats.is_range Stats.two_ties Stats.two_ties_ba ∧
  @Stats.gen InsertionSort Stats.two_ties Stats.two_ties_ab
    = [("a.example", 1); ("b.example", 1)] ∧
  @Stats.gen InsertionSort Stats.two_ties Stats.two_ties_ba
    = [("b.example", 1); ("a.example", 1)] ∧
  @Stats.gen InsertionSort Stats.two_ties Stats.two_ties_ab
    ≠ @Stats.gen InsertionSort Stats.two_ties Stats.two_ties_ba.
Proof.
  split; [exact two_ties_ab_range|]. split; [exact two_ties_ba_range|].
  split; [by vm_compute|]. split; [by vm_compute|].
  vm_compute. discriminate.
Qed.

Lemma topN_counts_deterministic_witness :
  Stats.is_range Stats.two_ties Stats.two_ties_ab ∧ Stats.is_range Stats.two_ties Stats.two_ties_ba ∧
  (@Stats.gen InsertionSort Stats.two_ties Stats.two_ties_ab).*2
  = (@Stats.gen InsertionSort Stats.two_ties Stats.two_ties_ba).*2.
Proof.
  split; [exact two_ties_ab_range|]. split; [exact two_ties_ba_range|].
  exact (topN_counts_deterministic Stats.two_ties Stats.two_ties_ab Stats.two_ties_ba
           two_ties_ab_range two_ties_ba_range).
Defined.

(** ** Upstream resolver probe *)

Section prober_facts.
Import Prober.

Lemma to_N_inj (x y : Byte.byte) : Byte.to_N x = Byte.to_N y → x = y.
Proof.
  intros Heq. pose proof (Byte.of_to_N x) as Hx.
  rewrite Heq, Byte.of_to_N in Hx. congruence.
Qed.

Lemma bytesEqual_true (x y : IP) : bytesEqual x y = true ↔ x = y.
Proof.
  unfold bytesEqual. rewrite bool_decide_eq_true. split; [|by intros ->].
  revert y. induction x as [|a x IH]; intros [|b y] Heq; simpl in *;
    try done.
  injection Heq as Hab Hxy. f_equal; [by apply to_N_inj|by apply IH].
Qed.

(** The addresses [net.IPv4(8, 8, 8, 8).Equal] accepts: 8.8.8.8 as four
    octets, or in its sixteen-octet form. *)
Lemma IP_Equal_8888 (A : IP) :
  IP_Equal (IPv4 Byte.x08 Byte.x08 Byte.x08 Byte.x08) A = true ↔
  A = [Byte.x08; Byte.x08; Byte.x08; Byte.x08] ∨
  A = IPv4 Byte.x08 Byte.x08 Byte.x08 Byte.x08.
Proof.
  unfold IP_Equal.
  set (ip := IPv4 Byte.x08 Byte.x08 Byte.x08 Byte.x08).
  case_bool_decide as Hlen.
  - rewrite bytesEqual_true. split; [intros <-; by right|].
    intros [->| ->]; [done|done].
  - change (length ip) with 16%nat in *.
    change (bool_decide (16%nat = IPv4len)) with false. simpl andb.
    change (bool_decide (16%nat = IPv6len)) with true. simpl andb.
    case_bool_decide as Hlen4; simpl.
    + rewrite bytesEqual_true. split; [intros <-; by left|].
      intros [->| ->]; [done|done].
    + split; [done|]. intros [->| ->]; [by destruct Hlen4|by destruct Hlen].
Qed.
End prober_facts.

Section prober_claims.
Import Prober.
Context `{UpstreamLib}.

(** C7: when the test query completes, a reply with no answer record or
    with more than one makes the probe fail with an error; a reply whose
    only answer is an A record passes exactly when its address is 8.8.8.8
    (in four or in sixteen octets) and fails with an error otherwise; a
    reply whose only answer is of another type passes unchecked. *)
Theorem checkDNS_classifies (id : Z) (input : string) (u : Upstream)
    (reply : Msg) :
  AddressToUpstream input = Ok u →
  Exchange u (testQuery id) = Ok reply →
  (length (Answer reply) ≠ 1%nat →
     checkDNS id input
     = Some ("DNS server " +:+ input +:+ " returned wrong answer")) ∧
  (∀ A, Answer reply = [RR_A A] →
     (checkDNS id input = None ↔
        A = [Byte.x08; Byte.x08; Byte.x08; Byte.x08] ∨
        A = IPv4 Byte.x08 Byte.x08 Byte.x08 Byte.x08) ∧
     (checkDNS id input = None ∨
      checkDNS id input
      = Some ("DNS server " +:+ input +:+ " returned wrong answer: "
              +:+ IP_String A))) ∧
  (∀ rrtype rdata, Answer reply = [RR_other rrtype rdata] →
     checkDNS id input = None).
Proof.
  intros Hu Hx. unfold checkDNS. rewrite Hu, Hx.
  split; [|split].
  - intros Hlen. by rewrite bool_decide_eq_true_2.
  - intros A HA. rewrite HA. simpl.
    rewrite <- IP_Equal_8888.
    destruct (IP_Equal _ A); simpl; split; try done; auto.
  - intros rrtype rdata HA. by rewrite HA.
Qed.
End prober_claims.

Lemma checkDNS_classifies_witness :
  let L := Prober.TableLib Prober.resolvers in
  let reply := {| Prober.Id := 7; Prober.RecursionDesired := true;
                  Prober.Question := Prober.Question (Prober.testQuery 7);
                  Prober.Answer :=
                    [Prober.RR_A [Byte.x08; Byte.x08; Byte.x08; Byte.x08]] |} in
  @Prober.AddressToUpstream L "good.example" = Ok "good.example" ∧
  @Prober.Exchange L "good.example" (Prober.testQuery 7) = Ok reply ∧
  @Prober.checkDNS L 7 "good.example" = None.
Proof.
  intros L reply.
  split; [reflexivity|]. split; [reflexivity|].
  destruct (@checkDNS_classifies L 7 "good.example" "good.example" reply
              eq_refl eq_refl) as (_ & HA & _).
  destruct (HA [Byte.x08; Byte.x08; Byte.x08; Byte.x08] eq_refl) as [Hiff _].
  apply Hiff. by left.
Defined.

(** ** Filter lists *)

Section filtering_facts.
Import Http Filtering.
Context `{Collaborators}.

Lemma duplicate_true (filters : list filter) (url : string) :
  duplicate filters url = true ↔ ∃ g, g ∈ filters ∧ URL g = url.
Proof.
  induction filters as [|g filters IH]; simpl.
  - split; [done|]. intros (g & Hg & _). by apply elem_of_nil in Hg.
  - case_bool_decide as Hg.
    + split; [|done]. intros _. exists g. split; [left|done].
    + rewrite IH. split.
      * intros (g' & Hin & Hurl). exists g'. split; [by right|done].
      * intros (g' & Hin & Hurl). apply elem_of_cons in Hin as [->|Hin];
          [done|]. by exists g'.
Qed.

(** With no filter of that URL, the loop copies every element onto
    itself and keeps them all. *)
Lemma removeLoop_no_match (url : string) (filters : list filter) (m i : nat) :
  Forall (λ f, URL f ≠ url) filters →
  (i + m)%nat = length filters →
  removeLoop url (seq i m) filters i = (filters, length filters, None).
Proof.
  intros Hall. revert i. induction m as [|m IH]; intros i Hlen; simpl.
  - repeat f_equal. lia.
  - destruct (lookup_lt_is_Some_2 filters i) as [f Hf]; [lia|].
    rewrite Hf. rewrite bool_decide_eq_true_2.
    + rewrite list_insert_id by done. apply IH. lia.
    + eapply Forall_lookup_1 in Hall; [|exact Hf]. done.
Qed.

Lemma status_Error (text : string) (code : Z) :
  status (Error fresh text code) = Some code.
Proof. reflexivity. Qed.

Lemma set_Filters_same (st : state) : set_Filters st (Filters st) = st.
Proof. by destruct st. Qed.
End filtering_facts.

Section remove_claims.
Import Http Filtering.
Context `{Collaborators}.

Lemma setEnabled_no_match (url : string) (b : bool) (filters : list filter) :
  Forall (λ f, URL f ≠ url) filters →
  setEnabled url b filters = (filters, false).
Proof.
  induction 1 as [|f filters Hf _ IH]; simpl; [done|].
  rewrite IH. by rewrite bool_decide_eq_false_2.
Qed.

(** C3 (what the code does): a Remove request whose URL is well-formed
    but is the URL of no filter is not rejected.  The collection is left
    as it was, the configuration is written and the DNS server reloaded,
    and the answer is [OK] with status 200.  The handler that disables a
    filter rejects the same request with status 400. *)
Theorem handleFilteringRemoveURL_unknown_url (parameters : gmap string string)
    (url : string) (st : state) :
  parameters !! "url" = Some url →
  IsRequestURL url = true →
  Forall (λ f, URL f ≠ url) (Filters st) →
  writeAllConfigs (Filters st) = None →
  reconfigureDNSServer (Filters st) = None →
  handleFilteringRemoveURL (Ok parameters) fresh st
    = (st, {| status := Some StatusOK; body := "OK" +:+ nl |}) ∧
  handleFilteringDisableURL (Ok parameters) fresh st
    = (st, {| status := Some StatusBadRequest;
              body := "URL parameter was not previously added" +:+ nl |}).
Proof.
  intros Hurl Hvalid Hnone Hwrite Hreload. split.
  - unfold handleFilteringRemoveURL. rewrite Hurl, Hvalid. simpl.
    rewrite (removeLoop_no_match url (Filters st) (length (Filters st)) 0)
      by (done || lia).
    rewrite firstn_all, set_Filters_same.
    unfold httpUpdateConfigReloadDNSReturnOK, writeAllConfigsAndReloadDNS.
    by rewrite Hwrite, Hreload.
  - unfold handleFilteringDisableURL. rewrite Hurl, Hvalid. simpl.
    rewrite setEnabled_no_match by done. simpl.
    by rewrite set_Filters_same.
Qed.
End remove_claims.

Lemma handleFilteringRemoveURL_unknown_url_witness :
  let C := Filtering.TestCollaborators None in
  let st := {| Filtering.Filters := [Filtering.list_a];
               Filtering.nextFilterID := 2 |} in
  let parameters : gmap string string :=
    {[ "url" := "https://b.example/other.txt" ]} in
  @Filtering.handleFilteringRemoveURL C (Ok parameters) Http.fresh st
    = (st, {| Http.status := Some 200; Http.body := "OK" +:+ Http.nl |}).
Proof.
  intros C st parameters.
  refine (proj1 (@handleFilteringRemoveURL_unknown_url C parameters
                   "https://b.example/other.txt" st eq_refl eq_refl _
                   eq_refl eq_refl)).
  repeat constructor. simpl. discriminate.
Defined.

Section add_claims.
Import Http Filtering.
Context `{Collaborators}.

(** The two ways [handleFilteringAddURL] can end: with the collection
    as before and status 400; or with the collection longer by one
    enabled filter that carries the requested URL and a fresh ID, and
    status 200 or 500. *)
Lemma handleFilteringAddURL_outcomes (body : result filter) (st : state) :
  let st' := (handleFilteringAddURL body fresh st).1 in
  let w' := (handleFilteringAddURL body fresh st).2 in
  (Filters st' = Filters st ∧ status w' = Some StatusBadRequest) ∨
  (∃ f f', body = Ok f ∧
     duplicate (Filters st) (URL f) = false ∧
     Filters st' = Filters st ++ [f'] ∧
     URL f' = URL f ∧ Enabled f' = true ∧ ID f' = nextFilterID st ∧
     save f' = None ∧
     (status w' = Some StatusOK ∨ status w' = Some StatusInternalServerError)).
Proof.
  unfold handleFilteringAddURL. destruct body as [f|err]; [|by left].
  case_bool_decide; [by left|].
  destruct (IsRequestURL (URL f)); simpl; [|by left].
  destruct (duplicate (Filters st) (URL f)) eqn:Hdup; [by left|].
  unfold update. simpl.
  destruct (Fetch _ true) as [[[ok n] c]|err]; [|by left].
  simpl. case_bool_decide; [by left|].
  destruct ok; simpl; [|by left].
  destruct (save _) eqn:Hsave; [by left|].
  right. eexists f, _. split; [done|]. split; [done|].
  destruct (writeAllConfigs _); simpl.
  - repeat split; try done. by right.
  - destruct (reconfigureDNSServer _); simpl; repeat split; try done;
      [by right|by left].
Qed.

(** C4 (as amended): an Add whose URL is the URL of a filter already in
    the collection is answered with status 400, with the duplicate
    message when the URL is well-formed, and leaves the collection as it
    was.  Every Add answered with status 400 leaves the collection as it
    was, and that is the answer to an unreadable body, a missing or
    malformed URL, a failed download, a list without rules, a list that
    was not updated, and a content file that could not be saved. *)
Theorem handleFilteringAddURL_rejected (body : result filter) (st : state) :
  let st' := (handleFilteringAddURL body fresh st).1 in
  let w' := (handleFilteringAddURL body fresh st).2 in
  (∀ f g, body = Ok f → g ∈ Filters st → URL g = URL f →
     status w' = Some StatusBadRequest ∧ Filters st' = Filters st ∧
     (URL f ≠ "" → IsRequestURL (URL f) = true →
      Http.body w' = "Filter URL already added -- " +:+ URL f +:+ nl)) ∧
  (status w' = Some StatusBadRequest → Filters st' = Filters st) ∧
  ((∃ err, body = Err err) ∨
   (∃ f, body = Ok f ∧
      (URL f = "" ∨ IsRequestURL (URL f) = false ∨
       (∃ err, update (prepared st f) true = Err err) ∨
       (∃ ok f', update (prepared st f) true = Ok (ok, f') ∧
          (RulesCount f' = 0 ∨ ok = false ∨ ∃ err, save f' = Some err)))) →
   status w' = Some StatusBadRequest).
Proof.
  intros st' w'. split; [|split].
  - intros f g -> Hg Hurl.
    assert (Hdup : duplicate (Filters st) (URL f) = true)
      by (apply duplicate_true; eauto).
    subst st' w'. unfold handleFilteringAddURL.
    case_bool_decide as Hlen; [|destruct (IsRequestURL (URL f)) eqn:Hv];
      simpl; rewrite ?Hdup; simpl.
    + split; [done|]. split; [done|]. intros Hne.
      by destruct (URL f).
    + repeat split; done.
    + split; [done|]. split; [done|]. intros _ Hv'. done.
  - intros Hst.
    destruct (handleFilteringAddURL_outcomes body st)
      as [[Hsame _]|(f & f' & _ & _ & _ & _ & _ & _ & _ & [Hs|Hs])];
      [done| |]; fold w' in Hs; rewrite Hs in Hst; done.
  - subst st' w'. unfold handleFilteringAddURL, prepared.
    intros [[err ->]|(f & -> & Hcause)]; [done|].
    case_bool_decide as Hlen; [done|].
    destruct (IsRequestURL (URL f)) eqn:Hv; simpl; [|done].
    destruct (duplicate (Filters st) (URL f)); [done|]. simpl.
    destruct Hcause as [Hempty|[Hbad|[[err Hup]|(ok & f' & Hup & Hcause)]]].
    + rewrite Hempty in Hlen. by destruct Hlen.
    + done.
    + by rewrite Hup.
    + rewrite Hup. case_bool_decide as Hrules; [done|].
      destruct Hcause as [Hzero|[->|[err Hsave]]]; [done|done|].
      destruct ok; simpl; [|done]. by rewrite Hsave.
Qed.

(** C10: when an Add is answered with status 200, or changes the
    collection at all, the collection is the old one followed by one new
    filter; that filter carries the requested URL and is enabled, whatever
    flag the request carried, and it is the only filter of the collection
    with that URL. *)
Theorem handleFilteringAddURL_stores_enabled (body : result filter)
    (st : state) :
  let st' := (handleFilteringAddURL body fresh st).1 in
  let w' := (handleFilteringAddURL body fresh st).2 in
  status w' = Some StatusOK ∨ Filters st' ≠ Filters st →
  ∃ f f', body = Ok f ∧ Filters st' = Filters st ++ [f'] ∧
    URL f' = URL f ∧ Enabled f' = true ∧
    (∀ g, g ∈ Filters st' → URL g = URL f → g = f').
Proof.
  intros st' w' Hok.
  destruct (handleFilteringAddURL_outcomes body st)
    as [[Hsame Hs]|(f & f' & -> & Hdup & Happ & Hurl & Hen & _)].
  - fold st' in Hsame. fold w' in Hs. rewrite Hs in Hok.
    by destruct Hok.
  - exists f, f'. fold st' in Happ. repeat split; try done.
    intros g Hg Hgurl. rewrite Happ in Hg.
    apply elem_of_app in Hg as [Hg|Hg].
    + assert (duplicate (Filters st) (URL f) = true)
        by (apply duplicate_true; eauto).
      congruence.
    + by apply list_elem_of_singleton in Hg.
Qed.
End add_claims.

Lemma handleFilteringAddURL_rejected_witness :
  let C := Filtering.TestCollaborators None in
  let st := {| Filtering.Filters := [Filtering.list_a];
               Filtering.nextFilterID := 2 |} in
  let body := Ok (Filtering.request_for "https://a.example/list.txt") in
  Filtering.list_a ∈ Filtering.Filters st ∧
  Http.status (@Filtering.handleFilteringAddURL C body Http.fresh st).2
    = Some 400 ∧
  Filtering.Filters (@Filtering.handleFilteringAddURL C body Http.fresh st).1
    = [Filtering.list_a].
Proof.
  intros C st body.
  assert (Hin : Filtering.list_a ∈ Filtering.Filters st) by (simpl; left).
  split; [exact Hin|].
  destruct (proj1 (@handleFilteringAddURL_rejected C body st)
              (Filtering.request_for "https://a.example/list.txt")
              Filtering.list_a eq_refl Hin eq_refl) as (Hs & Hf & _).
  split; [exact Hs|exact Hf].
Defined.

(** C4 (as stated) fails: the filter is appended before the configuration
    is written, so an Add that fails at that point is answered with status
    500 and leaves the collection one filter longer. *)
Lemma handleFilteringAddURL_failing_add_keeps_filter :
  let C := Filtering.TestCollaborators (Some "disk full") in
  let st := {| Filtering.Filters := []; Filtering.nextFilterID := 1 |} in
  let body := Ok (Filtering.request_for "https://example.test/list.txt") in
  let out := @Filtering.handleFilteringAddURL C body Http.fresh st in
  Http.status out.2 = Some 500 ∧
  Http.body out.2 = "Couldn't write config file: disk full" +:+ Http.nl ∧
  Filtering.Filters out.1
    = [ {| Filtering.ID := 1;
           Filtering.URL := "https://example.test/list.txt";
           Filtering.Enabled := true;
           Filtering.RulesCount := 120;
           Filtering.Contents := "||ads.example^" |} ] ∧
  Filtering.Filters out.1 ≠ Filtering.Filters st.
Proof.
  intros C st body out.
  split; [by vm_compute|]. split; [by vm_compute|]. split; [by vm_compute|].
  vm_compute. discriminate.
Qed.

Lemma handleFilteringAddURL_stores_enabled_witness :
  let C := Filtering.TestCollaborators None in
  let st := {| Filtering.Filters := [Filtering.list_a];
               Filtering.nextFilterID := 2 |} in
  let body := Ok (Filtering.request_for "https://b.example/list.txt") in
  let out := @Filtering.handleFilteringAddURL C body Http.fresh st in
  Http.status out.2 = Some 200 ∧
  ∃ f', Filtering.Filters out.1 = [Filtering.list_a; f'] ∧
        Filtering.Enabled f' = true.
Proof.
  intros C st body out.
  assert (Hs : Http.status out.2 = Some 200) by reflexivity.
  split; [exact Hs|].
  destruct (@handleFilteringAddURL_stores_enabled C body st (or_introl Hs))
    as (f & f' & _ & Happ & _ & Hen & _).
  exists f'. split; [exact Happ|exact Hen].
Defined.

(** ** TLS certificate and key validation *)

Lemma example_Decode_rest (data : TLS.bytes) (p : TLS.pem.Block)
    (rest : TLS.bytes) :
  TLS.example_Decode data = (Some p, rest) → (length rest < length data)%nat.
Proof.
  destruct data as [|b data]; simpl; [done|].
  destruct (TLS.example_blockType b); [|done].
  intros [= _ <-]. lia.
Qed.

Definition ExampleLib : @TLS.CryptoLib TLS.example_keys :=
  @TLS.Build_CryptoLib TLS.example_keys
    TLS.example_Decode
    example_Decode_rest
    TLS.example_ParseCertificate
    (λ _ _, Some "x509: certificate signed by unknown authority")
    TLS.example_ParsePKCS1
    TLS.example_ParsePKCS8
    TLS.example_ParseEC
    TLS.example_KeyPair.

Section tls_facts.
Import TLS.
Context `{CryptoLib}.

Lemma decodeCertificates_enough (fuel : nat) (pemblock : bytes)
    (certs : list pem.Block) (skippedBytes : list string) :
  (length pemblock < fuel)%nat →
  is_Some (decodeCertificates fuel pemblock certs skippedBytes).
Proof.
  revert pemblock certs skippedBytes.
  induction fuel as [|fuel IH]; intros pemblock certs skippedBytes Hlen;
    [lia|].
  simpl. destruct (pem_Decode pemblock) as [[decoded|] rest] eqn:Hd; [|done].
  apply pem_Decode_rest in Hd.
  case_bool_decide; apply IH; lia.
Qed.

Lemma decodeKey_enough (fuel : nat) (pemblock : bytes)
    (skippedBytes : list string) :
  (length pemblock < fuel)%nat →
  is_Some (decodeKey fuel pemblock skippedBytes).
Proof.
  revert pemblock skippedBytes.
  induction fuel as [|fuel IH]; intros pemblock skippedBytes Hlen; [lia|].
  simpl. destruct (pem_Decode pemblock) as [[decoded|] rest] eqn:Hd; [|done].
  apply pem_Decode_rest in Hd.
  destruct (_ || _); [done|]. apply IH. lia.
Qed.

Lemma certificateBlocks_is_Some (chain : string) :
  is_Some (certificateBlocks chain).
Proof.
  unfold certificateBlocks. apply fmap_is_Some, decodeCertificates_enough.
  lia.
Qed.

Lemma keyBlock_is_Some (key : string) : is_Some (keyBlock key).
Proof. apply decodeKey_enough. lia. Qed.

(** An empty text holds no block. *)
Lemma certificateBlocks_empty : certificateBlocks "" = Some [].
Proof.
  unfold certificateBlocks. change (bytes_of "") with (@nil Byte.byte).
  simpl.
  destruct (pem_Decode []) as [[decoded|] rest] eqn:Hd; [|done].
  apply pem_Decode_rest in Hd. simpl in Hd. lia.
Qed.

Lemma parseCertificates_all (certs : list pem.Block)
    (parsedCerts : list x509.Certificate) :
  Forall (λ b, ∃ c, x509_ParseCertificate (pem.Bytes b) = Ok c) certs →
  ∃ more, parseCertificates certs parsedCerts = Ok (parsedCerts ++ more).
Proof.
  intros Hall. revert parsedCerts.
  induction Hall as [|b certs [c Hc] _ IH]; intros parsedCerts; simpl.
  - exists []. by rewrite app_nil_r.
  - rewrite Hc. destruct (IH (parsedCerts ++ [c])) as [more ->].
    exists (c :: more). by rewrite <- app_assoc.
Qed.

Lemma parseCertificates_some_fails (certs : list pem.Block)
    (parsedCerts : list x509.Certificate) :
  Exists (λ b, ∃ err, x509_ParseCertificate (pem.Bytes b) = Err err) certs →
  ∃ err, parseCertificates certs parsedCerts = Err err.
Proof.
  intros Hex. revert parsedCerts.
  induction Hex as [b certs [err Hb]|b certs _ IH]; intros parsedCerts;
    simpl.
  - rewrite Hb. by exists err.
  - destruct (x509_ParseCertificate (pem.Bytes b)); [apply IH|by eexists].
Qed.
End tls_facts.

Section tls_stages.
Import TLS.
Context `{CryptoLib}.

(** Closes the frame conditions of a block once its outcome is known. *)
Ltac frame_done :=
  repeat split; try done; try (intros ? [= <-] ?; done).

(** The chain block always ends; it leaves the settings, the key report
    and the usable flag alone, and falls through with a non-empty chain
    text only after setting [ValidCert]. *)
Lemma validateChain_frame (data : tlsConfig) :
  ∃ fl, validateChain data = Some fl ∧
    tlsConfigSettings_of (flow_data fl) = tlsConfigSettings_of data ∧
    key_report (flow_data fl) = key_report data ∧
    usable (tlsConfigStatus_of (flow_data fl))
      = usable (tlsConfigStatus_of data) ∧
    (∀ data', fl = Next data' →
       CertificateChain (tlsConfigSettings_of data) ≠ "" →
       ValidCert (tlsConfigStatus_of data') = true).
Proof.
  unfold validateChain. case_bool_decide as Hchain.
  - destruct (decodeCertificates_enough
                (S (length (bytes_of (CertificateChain
                                        (tlsConfigSettings_of data)))))
                (bytes_of (CertificateChain (tlsConfigSettings_of data)))
                [] []) as [[certs skipped] ->]; [lia|].
    destruct (parseCertificates certs []) as [[|mainCert rest]|err].
    + eexists. split; [done|]. frame_done.
    + eexists. split; [done|]. simpl.
      destruct (Certificate_Verify _ _); frame_done.
    + eexists. split; [done|]. frame_done.
  - eexists. split; [done|]. frame_done.
Qed.

(** The key block always ends; it leaves the settings, the chain report
    and the usable flag alone, and falls through with a non-empty key
    text only after setting [ValidKey]. *)
Lemma validateKey_frame (data : tlsConfig) :
  ∃ fl, validateKey data = Some fl ∧
    tlsConfigSettings_of (flow_data fl) = tlsConfigSettings_of data ∧
    chain_report (flow_data fl) = chain_report data ∧
    usable (tlsConfigStatus_of (flow_data fl))
      = usable (tlsConfigStatus_of data) ∧
    (∀ data', fl = Next data' →
       PrivateKey (tlsConfigSettings_of data) ≠ "" →
       ValidKey (tlsConfigStatus_of data') = true).
Proof.
  unfold validateKey. case_bool_decide as Hkey.
  - destruct (decodeKey_enough
                (S (length (bytes_of (PrivateKey
                                        (tlsConfigSettings_of data)))))
                (bytes_of (PrivateKey (tlsConfigSettings_of data))) [])
      as [[key|] ->]; [lia| |].
    + destruct (parsePrivateKey (pem.Bytes key)) as [[? keytype]|err].
      * eexists. split; [done|]. frame_done.
      * eexists. split; [done|]. frame_done.
    + eexists. split; [done|]. frame_done.
  - eexists. split; [done|]. frame_done.
Qed.

(** The last block leaves the settings and both reports alone, and sets
    the usable flag only after [tls.X509KeyPair] accepted the two texts. *)
Lemma validatePair_frame (data : tlsConfig) :
  tlsConfigSettings_of (validatePair data) = tlsConfigSettings_of data ∧
  chain_report (validatePair data) = chain_report data ∧
  key_report (validatePair data) = key_report data ∧
  (usable (tlsConfigStatus_of (validatePair data)) = true →
   usable (tlsConfigStatus_of data) = true ∨
   (PrivateKey (tlsConfigSettings_of data) ≠ "" ∧
    CertificateChain (tlsConfigSettings_of data) ≠ "" ∧
    tls_X509KeyPair
      (bytes_of (CertificateChain (tlsConfigSettings_of data)))
      (bytes_of (PrivateKey (tlsConfigSettings_of data))) = None)).
Proof.
  unfold validatePair.
  case_bool_decide as Hkey; case_bool_decide as Hchain; simpl;
    try (repeat split; try done; by left).
  destruct (tls_X509KeyPair _ _) eqn:Hpair; simpl.
  - repeat split; try done. by left.
  - repeat split; try done. intros _. by right.
Qed.

(** [validateCertificates] always returns a bundle. *)
Lemma validateCertificates_returns (data : tlsConfig) :
  is_Some (validateCertificates data).
Proof.
  unfold validateCertificates.
  destruct (validateChain_frame (with_status data tlsConfigStatus_zero))
    as ([d1|d1] & -> & _); [done|].
  destruct (validateKey_frame d1) as ([d2|d2] & -> & _); done.
Qed.
End tls_stages.

Section tls_claims.
Import TLS.
Context `{CryptoLib}.

(** What the chain block does with a chain text whose certificate blocks
    all parse. *)
Lemma validateChain_parsed (data : tlsConfig) (first : pem.Block)
    (others : list pem.Block) (mainCert : x509.Certificate) :
  certificateBlocks (CertificateChain (tlsConfigSettings_of data))
    = Some (first :: others) →
  x509_ParseCertificate (pem.Bytes first) = Ok mainCert →
  Forall (λ b, ∃ c, x509_ParseCertificate (pem.Bytes b) = Ok c) others →
  ∃ data' validChain, validateChain data = Some (Next data') ∧
    chain_report data'
    = (true, validChain, x509.Subject mainCert, x509.Issuer mainCert,
       x509.NotBefore mainCert, x509.NotAfter mainCert,
       x509.DNSNames mainCert).
Proof.
  intros Hblocks Hfirst Hothers. unfold validateChain.
  case_bool_decide as Hchain.
  - unfold certificateBlocks in Hblocks.
    destruct (decodeCertificates _ _ _ _) as [[certs skipped]|];
      [|done].
    injection Hblocks as ->. simpl. rewrite Hfirst.
    destruct (parseCertificates_all others [mainCert] Hothers)
      as [more ->].
    simpl. destruct (Certificate_Verify _ _); eexists _, _; split; done.
  - simpl in Hchain. rewrite Hchain in Hblocks.
    by rewrite certificateBlocks_empty in Hblocks.
Qed.

(** C1 (as amended): when the chain text holds at least one CERTIFICATE
    block and every CERTIFICATE block in it parses, the bundle returned has
    [ValidCert] set and carries the subject, issuer, validity window and
    DNS names of the first certificate, whether or not the chain verifies
    and whatever becomes of the key. *)
Theorem validateCertificates_parsed_chain (data : tlsConfig)
    (first : pem.Block) (others : list pem.Block)
    (mainCert : x509.Certificate) :
  certificateBlocks (CertificateChain (tlsConfigSettings_of data))
    = Some (first :: others) →
  x509_ParseCertificate (pem.Bytes first) = Ok mainCert →
  Forall (λ b, ∃ c, x509_ParseCertificate (pem.Bytes b) = Ok c) others →
  ∃ bundle, validateCertificates data = Some bundle ∧
    ValidCert (tlsConfigStatus_of bundle) = true ∧
    Subject (tlsConfigStatus_of bundle) = x509.Subject mainCert ∧
    Issuer (tlsConfigStatus_of bundle) = x509.Issuer mainCert ∧
    NotBefore (tlsConfigStatus_of bundle) = x509.NotBefore mainCert ∧
    NotAfter (tlsConfigStatus_of bundle) = x509.NotAfter mainCert ∧
    DNSNames (tlsConfigStatus_of bundle) = x509.DNSNames mainCert.
Proof.
  intros Hblocks Hfirst Hothers. unfold validateCertificates.
  destruct (validateChain_parsed (with_status data tlsConfigStatus_zero)
              first others mainCert Hblocks Hfirst Hothers)
    as (d1 & validChain & -> & Hrep).
  assert (Hgoal : ∀ bundle, chain_report bundle = chain_report d1 →
    ValidCert (tlsConfigStatus_of bundle) = true ∧
    Subject (tlsConfigStatus_of bundle) = x509.Subject mainCert ∧
    Issuer (tlsConfigStatus_of bundle) = x509.Issuer mainCert ∧
    NotBefore (tlsConfigStatus_of bundle) = x509.NotBefore mainCert ∧
    NotAfter (tlsConfigStatus_of bundle) = x509.NotAfter mainCert ∧
    DNSNames (tlsConfigStatus_of bundle) = x509.DNSNames mainCert).
  { intros bundle Hsame. rewrite Hrep in Hsame. unfold chain_report in Hsame.
    by injection Hsame as -> _ -> -> -> -> ->. }
  destruct (validateKey_frame d1) as ([d2|d2] & -> & _ & Hkeep & _).
  - eexists. split; [done|]. by apply Hgoal.
  - eexists. split; [done|]. apply Hgoal.
    destruct (validatePair_frame d2) as (_ & -> & _). done.
Qed.

(** C2: the bundle returned has the usable flag set only if [ValidCert]
    and [ValidKey] are set too and [tls.X509KeyPair] accepted the chain
    text together with the key text. *)
Theorem validateCertificates_usable (data : tlsConfig) :
  ∃ bundle, validateCertificates data = Some bundle ∧
    (usable (tlsConfigStatus_of bundle) = true →
     ValidCert (tlsConfigStatus_of bundle) = true ∧
     ValidKey (tlsConfigStatus_of bundle) = true ∧
     tls_X509KeyPair
       (bytes_of (CertificateChain (tlsConfigSettings_of data)))
       (bytes_of (PrivateKey (tlsConfigSettings_of data))) = None).
Proof.
  unfold validateCertificates.
  destruct (validateChain_frame (with_status data tlsConfigStatus_zero))
    as (fl1 & -> & Hset1 & _ & Hus1 & Hcert).
  destruct fl1 as [d1|d1]; simpl in *.
  { eexists. split; [done|]. intros Hus. congruence. }
  specialize (Hcert d1 eq_refl).
  destruct (validateKey_frame d1) as (fl2 & -> & Hset2 & Hrep2 & Hus2 & Hkey).
  destruct fl2 as [d2|d2]; simpl in *.
  { eexists. split; [done|]. intros Hus. congruence. }
  specialize (Hkey d2 eq_refl).
  eexists. split; [done|].
  destruct (validatePair_frame d2) as (_ & Hrep3 & Hkrep3 & Hpair).
  intros Hus. destruct (Hpair Hus) as [Hold|(Hk & Hc & Hok)]; [congruence|].
  rewrite Hset2, Hset1 in Hk, Hc, Hok.
  rewrite Hset1 in Hkey.
  unfold chain_report in Hrep2, Hrep3. unfold key_report in Hkrep3.
  injection Hrep3 as -> _. injection Hrep2 as -> _.
  injection Hkrep3 as -> _.
  split; [by apply Hcert|]. split; [by apply Hkey|done].
Qed.
End tls_claims.

Section tls_key_claims.
Import TLS.
Context `{CryptoLib}.

(** C9 (as amended): when a CERTIFICATE block of the chain text does not
    parse, or a non-empty chain text holds no CERTIFICATE block at all, the
    bundle returned is the input with a status that is zero except for the
    warning: the key text is not looked at, so [ValidKey], [KeyType] and the
    usable flag keep their zero values whatever the key text is. *)
Theorem validateCertificates_bad_chain (data : tlsConfig)
    (certs : list pem.Block) :
  certificateBlocks (CertificateChain (tlsConfigSettings_of data))
    = Some certs →
  Exists (λ b, ∃ err, x509_ParseCertificate (pem.Bytes b) = Err err) certs ∨
  (certs = [] ∧ CertificateChain (tlsConfigSettings_of data) ≠ "") →
  ∃ bundle warning, validateCertificates data = Some bundle ∧
    bundle = set_WarningValidation (with_status data tlsConfigStatus_zero)
               warning ∧
    warning ≠ "" ∧
    ValidKey (tlsConfigStatus_of bundle) = false ∧
    KeyType (tlsConfigStatus_of bundle) = "" ∧
    usable (tlsConfigStatus_of bundle) = false.
Proof.
  intros Hblocks Hbad.
  assert (Hchain : CertificateChain (tlsConfigSettings_of data) ≠ "").
  { destruct Hbad as [Hbad|[_ Hne]]; [|done].
    intros Hempty. rewrite Hempty, certificateBlocks_empty in Hblocks.
    injection Hblocks as <-. by apply Exists_nil in Hbad. }
  unfold validateCertificates, validateChain.
  change (tlsConfigSettings_of (with_status data tlsConfigStatus_zero))
    with (tlsConfigSettings_of data).
  rewrite bool_decide_eq_true_2 by done.
  unfold certificateBlocks in Hblocks.
  destruct (decodeCertificates _ _ _ _) as [[certs' skipped]|]; [|done].
  injection Hblocks as ->.
  destruct Hbad as [Hbad|[-> _]].
  - destruct (parseCertificates_some_fails certs [] Hbad) as [err ->].
    eexists _, _. split; [done|]. by split.
  - cbn [parseCertificates]. eexists _, _. split; [done|]. by split.
Qed.

(** With a chain text that is empty, or whose CERTIFICATE blocks are
    there and all parse, the chain block falls through with the settings
    and the key report as they were. *)
Lemma validateChain_falls_through (data : tlsConfig) :
  CertificateChain (tlsConfigSettings_of data) = "" ∨
  (∃ certs,
     certificateBlocks (CertificateChain (tlsConfigSettings_of data))
       = Some certs ∧ certs ≠ [] ∧
     Forall (λ b, ∃ c, x509_ParseCertificate (pem.Bytes b) = Ok c) certs) →
  ∃ data', validateChain data = Some (Next data') ∧
    tlsConfigSettings_of data' = tlsConfigSettings_of data ∧
    key_report data' = key_report data.
Proof.
  intros Hchain.
  destruct (validateChain_frame data) as (fl & Hfl & Hset & Hkey & _).
  assert (Hnext : ∃ data', validateChain data = Some (Next data')).
  { destruct Hchain as [Hempty|(certs & Hblocks & Hne & Hall)].
    - exists data. unfold validateChain.
      by rewrite bool_decide_eq_false_2 by (intros Hne; by apply Hne).
    - destruct certs as [|first others]; [done|].
      apply Forall_cons in Hall as [[mainCert Hfirst] Hothers].
      destruct (validateChain_parsed data first others mainCert
                  Hblocks Hfirst Hothers) as (data' & ? & Hnext & _).
      by exists data'. }
  destruct Hnext as [data' Hnext]. exists data'.
  rewrite Hnext in Hfl. injection Hfl as <-. done.
Qed.

(** When the key block is reached and finds a private-key block, the
    bundle reports what [parsePrivateKey] says of that block: its key type
    with [ValidKey] set, or its error in the warning with the key report
    left at zero. *)
Lemma validateCertificates_key_examined (data : tlsConfig) (key : pem.Block) :
  PrivateKey (tlsConfigSettings_of data) ≠ "" →
  keyBlock (PrivateKey (tlsConfigSettings_of data)) = Some (Some key) →
  CertificateChain (tlsConfigSettings_of data) = "" ∨
  (∃ certs,
     certificateBlocks (CertificateChain (tlsConfigSettings_of data))
       = Some certs ∧ certs ≠ [] ∧
     Forall (λ b, ∃ c, x509_ParseCertificate (pem.Bytes b) = Ok c) certs) →
  ∃ bundle, validateCertificates data = Some bundle ∧
    match parsePrivateKey (pem.Bytes key) with
    | Ok (_, keytype) => key_report bundle = (true, keytype)
    | Err err =>
        key_report bundle = (false, "") ∧
        WarningValidation (tlsConfigStatus_of bundle)
        = "Failed to parse private key: " +:+ err
    end.
Proof.
  intros Hkey Hblock Hchain. unfold validateCertificates.
  destruct (validateChain_falls_through
              (with_status data tlsConfigStatus_zero) Hchain)
    as (d1 & -> & Hset & Hrep).
  change (tlsConfigSettings_of (with_status data tlsConfigStatus_zero))
    with (tlsConfigSettings_of data) in Hset.
  change (key_report (with_status data tlsConfigStatus_zero))
    with (false, "") in Hrep.
  unfold validateKey. rewrite Hset.
  rewrite bool_decide_eq_true_2 by done.
  unfold keyBlock in Hblock. rewrite Hblock.
  destruct (parsePrivateKey (pem.Bytes key)) as [[parsed keytype]|err].
  - eexists. split; [done|].
    destruct (validatePair_frame (set_KeyType (set_ValidKey d1 true) keytype))
      as (_ & _ & -> & _).
    done.
  - eexists. split; [done|]. split; [exact Hrep|done].
Qed.

(** C8: [parsePrivateKey] tries PKCS#1, then PKCS#8, then SEC1 EC, and
    the first format that parses decides: a PKCS#1 key is reported as RSA; a
    PKCS#8 key as RSA or ECDSA by the type of the key inside, and as an error
    if that is of another type, without SEC1 being tried; a SEC1 key as
    ECDSA.  When none parses the error is
    [tls: failed to parse private key], and the key block of
    [validateCertificates] returns with it in the warning.  The bundle
    returned by [validateCertificates] reports the same: whenever the key
    block is reached (the chain text is empty, or its CERTIFICATE blocks are
    there and all parse) and finds a private-key block, [KeyType] is the type
    given by the first format that parses, with [ValidKey] set; when
    [parsePrivateKey] fails, [ValidKey] and [KeyType] stay zero and the
    warning carries its error. *)
Theorem parsePrivateKey_order (der : bytes) :
  ((∀ key, x509_ParsePKCS1PrivateKey der = Ok key →
     parsePrivateKey der = Ok (RSAKey key, "RSA")) ∧
  (∀ e1, x509_ParsePKCS1PrivateKey der = Err e1 →
     (∀ key, x509_ParsePKCS8PrivateKey der = Ok (RSAKey key) →
        parsePrivateKey der = Ok (RSAKey key, "RSA")) ∧
     (∀ key, x509_ParsePKCS8PrivateKey der = Ok (ECDSAKey key) →
        parsePrivateKey der = Ok (ECDSAKey key, "ECDSA")) ∧
     (∀ key, x509_ParsePKCS8PrivateKey der = Ok (OtherKey key) →
        parsePrivateKey der
        = Err "tls: found unknown private key type in PKCS#8 wrapping") ∧
     (∀ e2, x509_ParsePKCS8PrivateKey der = Err e2 →
        (∀ key, x509_ParseECPrivateKey der = Ok key →
           parsePrivateKey der = Ok (ECDSAKey key, "ECDSA")) ∧
        (∀ e3, x509_ParseECPrivateKey der = Err e3 →
           parsePrivateKey der = Err "tls: failed to parse private key" ∧
           ∀ data key,
             PrivateKey (tlsConfigSettings_of data) ≠ "" →
             keyBlock (PrivateKey (tlsConfigSettings_of data))
               = Some (Some key) →
             pem.Bytes key = der →
             validateKey data
             = Some (Return (set_WarningValidation data
                 "Failed to parse private key: tls: failed to parse private key")))))) ∧
  (∀ data key,
     PrivateKey (tlsConfigSettings_of data) ≠ "" →
     keyBlock (PrivateKey (tlsConfigSettings_of data)) = Some (Some key) →
     pem.Bytes key = der →
     CertificateChain (tlsConfigSettings_of data) = "" ∨
     (∃ certs,
        certificateBlocks (CertificateChain (tlsConfigSettings_of data))
          = Some certs ∧ certs ≠ [] ∧
        Forall (λ b, ∃ c, x509_ParseCertificate (pem.Bytes b) = Ok c) certs) →
     ∃ bundle, validateCertificates data = Some bundle ∧
       (∀ k, x509_ParsePKCS1PrivateKey der = Ok k →
          key_report bundle = (true, "RSA")) ∧
       (∀ e1, x509_ParsePKCS1PrivateKey der = Err e1 →
          (∀ k, x509_ParsePKCS8PrivateKey der = Ok (RSAKey k) →
             key_report bundle = (true, "RSA")) ∧
          (∀ k, x509_ParsePKCS8PrivateKey der = Ok (ECDSAKey k) →
             key_report bundle = (true, "ECDSA")) ∧
          (∀ k, x509_ParsePKCS8PrivateKey der = Ok (OtherKey k) →
             key_report bundle = (false, "") ∧
             WarningValidation (tlsConfigStatus_of bundle)
             = "Failed to parse private key: tls: found unknown private key type in PKCS#8 wrapping") ∧
          (∀ e2, x509_ParsePKCS8PrivateKey der = Err e2 →
             (∀ k, x509_ParseECPrivateKey der = Ok k →
                key_report bundle = (true, "ECDSA")) ∧
             (∀ e3, x509_ParseECPrivateKey der = Err e3 →
                key_report bundle = (false, "") ∧
                WarningValidation (tlsConfigStatus_of bundle)
                = "Failed to parse private key: tls: failed to parse private key")))).
Proof.
  split.
  - split.
    + intros key Hk. unfold parsePrivateKey. by rewrite Hk.
    + intros e1 H1.
      split; [intros key H2; unfold parsePrivateKey; by rewrite H1, H2|].
      split; [intros key H2; unfold parsePrivateKey; by rewrite H1, H2|].
      split; [intros key H2; unfold parsePrivateKey; by rewrite H1, H2|].
      intros e2 H2.
      split; [intros key H3; unfold parsePrivateKey; by rewrite H1, H2, H3|].
      intros e3 H3.
      assert (Hfail : parsePrivateKey der
                      = Err "tls: failed to parse private key")
        by (unfold parsePrivateKey; by rewrite H1, H2, H3).
      split; [exact Hfail|].
      intros data key Hkey Hblock Hder. unfold validateKey.
      rewrite bool_decide_eq_true_2 by done.
      unfold keyBlock in Hblock. rewrite Hblock, Hder, Hfail. done.
  - intros data key Hkey Hblock Hder Hchain.
    destruct (validateCertificates_key_examined data key Hkey Hblock Hchain)
      as (bundle & Hret & Hrep).
    rewrite Hder in Hrep. exists bundle. split; [exact Hret|].
    unfold parsePrivateKey in Hrep.
    split.
    + intros k H1. by rewrite H1 in Hrep.
    + intros e1 H1. rewrite H1 in Hrep.
      split; [intros k H2; by rewrite H2 in Hrep|].
      split; [intros k H2; by rewrite H2 in Hrep|].
      split; [intros k H2; by rewrite H2 in Hrep|].
      intros e2 H2. rewrite H2 in Hrep.
      split; intros ? H3; by rewrite H3 in Hrep.
Qed.
End tls_key_claims.

(** C1 (as stated) fails: the chain text [CX] holds a CERTIFICATE block
    that parses, followed by one that does not; the bundle returned carries
    the parse error as its warning, [ValidCert] is not set and nothing of the
    first certificate is reported. *)
Lemma validateCertificates_one_bad_block :
  let data := TLS.example_config "CX" "" in
  let good := {| TLS.pem.Type_ := "CERTIFICATE"; TLS.pem.Bytes := [Byte.x43] |} in
  let bad := {| TLS.pem.Type_ := "CERTIFICATE"; TLS.pem.Bytes := [Byte.x58] |} in
  @TLS.certificateBlocks _ ExampleLib "CX" = Some [good; bad] ∧
  @TLS.x509_ParseCertificate _ ExampleLib (TLS.pem.Bytes good)
    = Ok TLS.example_leaf ∧
  @TLS.validateCertificates _ ExampleLib data
    = Some (TLS.set_WarningValidation data
              "Failed to parse certificate: asn1: structure error") ∧
  ¬ (∃ bundle, @TLS.validateCertificates _ ExampleLib data = Some bundle ∧
       TLS.ValidCert (TLS.tlsConfigStatus_of bundle) = true).
Proof.
  intros data good bad.
  split; [by vm_compute|]. split; [by vm_compute|]. split; [by vm_compute|].
  intros (bundle & Hret & Hvalid). vm_compute in Hret.
  injection Hret as <-. vm_compute in Hvalid. discriminate Hvalid.
Qed.

(** C9 (as stated) fails: an empty chain text decodes to zero CERTIFICATE
    blocks, as it does with every library ([certificateBlocks_empty]), but
    the chain block is guarded by [data.CertificateChain != ""] and is
    skipped.  The key text [R] is examined: the bundle returned has
    [ValidKey] set, reports the key type RSA and carries no warning. *)
Lemma validateCertificates_empty_chain_examines_key :
  let data := TLS.example_config "" "R" in
  @TLS.certificateBlocks _ ExampleLib
    (TLS.CertificateChain (TLS.tlsConfigSettings_of data)) = Some [] ∧
  (∃ bundle, @TLS.validateCertificates _ ExampleLib data = Some bundle ∧
     TLS.ValidKey (TLS.tlsConfigStatus_of bundle) = true ∧
     TLS.KeyType (TLS.tlsConfigStatus_of bundle) = "RSA" ∧
     TLS.WarningValidation (TLS.tlsConfigStatus_of bundle) = "") ∧
  ¬ (∃ bundle warning,
       @TLS.validateCertificates _ ExampleLib data = Some bundle ∧
       bundle = TLS.set_WarningValidation
                  (TLS.with_status data TLS.tlsConfigStatus_zero) warning ∧
       warning ≠ "" ∧
       TLS.ValidKey (TLS.tlsConfigStatus_of bundle) = false ∧
       TLS.KeyType (TLS.tlsConfigStatus_of bundle) = "" ∧
       TLS.usable (TLS.tlsConfigStatus_of bundle) = false).
Proof.
  intros data.
  split; [by vm_compute|].
  split.
  - eexists. split; [by vm_compute|]. by vm_compute.
  - intros (bundle & warning & Hret & _ & _ & Hkey & _).
    vm_compute in Hret. injection Hret as <-. vm_compute in Hkey.
    discriminate Hkey.
Qed.

Lemma validateCertificates_parsed_chain_witness :
  let data := TLS.example_config "DCC" "G" in
  ∃ bundle, @TLS.validateCertificates _ ExampleLib data = Some bundle ∧
    TLS.ValidCert (TLS.tlsConfigStatus_of bundle) = true ∧
    TLS.Subject (TLS.tlsConfigStatus_of bundle) = "CN=dns.example".
Proof.
  intros data.
  destruct (@validateCertificates_parsed_chain _ ExampleLib data
              {| TLS.pem.Type_ := "CERTIFICATE"; TLS.pem.Bytes := [Byte.x43] |}
              [ {| TLS.pem.Type_ := "CERTIFICATE"; TLS.pem.Bytes := [Byte.x43] |} ]
              TLS.example_leaf eq_refl eq_refl)
    as (bundle & Hret & Hvalid & Hsubject & _).
  - repeat constructor. by exists TLS.example_leaf.
  - exists bundle. split; [exact Hret|]. split; [exact Hvalid|exact Hsubject].
Defined.

Lemma validateCertificates_usable_witness :
  let data := TLS.example_config "C" "R" in
  ∃ bundle, @TLS.validateCertificates _ ExampleLib data = Some bundle ∧
    TLS.usable (TLS.tlsConfigStatus_of bundle) = true ∧
    TLS.ValidCert (TLS.tlsConfigStatus_of bundle) = true ∧
    TLS.ValidKey (TLS.tlsConfigStatus_of bundle) = true.
Proof.
  intros data.
  destruct (@validateCertificates_usable _ ExampleLib data)
    as (bundle & Hret & Himp).
  assert (Hus : TLS.usable (TLS.tlsConfigStatus_of bundle) = true).
  { vm_compute in Hret. injection Hret as <-. reflexivity. }
  destruct (Himp Hus) as (Hc & Hk & _).
  exists bundle. split; [exact Hret|]. split; [exact Hus|].
  split; [exact Hc|exact Hk].
Defined.

Lemma validateCertificates_bad_chain_witness :
  let data := TLS.example_config "X" "R" in
  ∃ bundle, @TLS.validateCertificates _ ExampleLib data = Some bundle ∧
    TLS.ValidKey (TLS.tlsConfigStatus_of bundle) = false ∧
    TLS.KeyType (TLS.tlsConfigStatus_of bundle) = "" ∧
    TLS.usable (TLS.tlsConfigStatus_of bundle) = false.
Proof.
  intros data.
  destruct (@validateCertificates_bad_chain _ ExampleLib data
              [ {| TLS.pem.Type_ := "CERTIFICATE"; TLS.pem.Bytes := [Byte.x58] |} ])
    as (bundle & warning & Hret & _ & _ & Hk & Ht & Hu).
  - reflexivity.
  - left. constructor. by exists "asn1: structure error".
  - exists bundle. split; [exact Hret|]. split; [exact Hk|].
    split; [exact Ht|exact Hu].
Defined.

Lemma parsePrivateKey_order_witness :
  (@TLS.parsePrivateKey _ ExampleLib [Byte.x47]
     = Err "tls: failed to parse private key" ∧
   @TLS.validateKey _ ExampleLib (TLS.example_config "" "G")
     = Some (TLS.Return
               (TLS.set_WarningValidation (TLS.example_config "" "G")
                  "Failed to parse private key: tls: failed to parse private key"))) ∧
  ∃ bundle,
    @TLS.validateCertificates _ ExampleLib (TLS.example_config "C" "P")
      = Some bundle ∧
    TLS.key_report bundle = (true, "ECDSA").
Proof.
  split.
  - destruct (proj2 (proj1 (@parsePrivateKey_order _ ExampleLib [Byte.x47]))
                "asn1: structure error" eq_refl) as (_ & _ & _ & Hlast).
    destruct (Hlast "asn1: structure error" eq_refl) as (_ & Hec).
    destruct (Hec "asn1: structure error" eq_refl) as (Hfail & Hwarn).
    split; [exact Hfail|].
    apply (Hwarn (TLS.example_config "" "G")
             {| TLS.pem.Type_ := "PRIVATE KEY"; TLS.pem.Bytes := [Byte.x47] |}).
    + discriminate.
    + reflexivity.
    + reflexivity.
  - destruct (proj2 (@parsePrivateKey_order _ ExampleLib [Byte.x50])
                (TLS.example_config "C" "P")
                {| TLS.pem.Type_ := "PRIVATE KEY"; TLS.pem.Bytes := [Byte.x50] |})
      as (bundle & Hret & _ & Hrest).
    + discriminate.
    + reflexivity.
    + reflexivity.
    + right.
      exists [ {| TLS.pem.Type_ := "CERTIFICATE"; TLS.pem.Bytes := [Byte.x43] |} ].
      split; [reflexivity|]. split; [discriminate|].
      constructor; [by exists TLS.example_leaf|constructor].
    + exists bundle. split; [exact Hret|].
      destruct (Hrest "asn1: structure error" eq_refl) as (_ & Hecdsa & _).
      exact (Hecdsa () eq_refl).
Defined.

(** ** Filter lists: removing, disabling, adding again *)

Section filtering_more.
Import Http Filtering.
Context `{Collaborators}.

(** [newFilters] shares the array of [config.Filters]: while it holds the
    filters [kept], the array is [kept] followed by what the collection had
    from that position on. *)
Lemma shared_lookup (kept fs : list filter) (i : nat) :
  (length kept ≤ i)%nat →
  (kept ++ drop (length kept) fs) !! i = fs !! i.
Proof.
  intros Hle. rewrite lookup_app_r by lia. rewrite lookup_drop.
  f_equal. lia.
Qed.

Lemma shared_write (kept fs : list filter) (f : filter) :
  (length kept < length fs)%nat →
  <[length kept := f]> (kept ++ drop (length kept) fs)
  = (kept ++ [f]) ++ drop (length (kept ++ [f])) fs.
Proof.
  intros Hlt. destruct (lookup_lt_is_Some_2 fs (length kept) Hlt) as [x Hx].
  rewrite insert_app_r_alt by lia. rewrite Nat.sub_diag.
  rewrite (drop_S _ _ _ Hx). simpl.
  rewrite length_app. simpl. rewrite Nat.add_1_r.
  by rewrite <- app_assoc.
Qed.

Lemma removeLoop_all_removable (url : string) (fs : list filter)
    (m i : nat) (kept : list filter) :
  (i + m)%nat = length fs → (length kept ≤ i)%nat →
  Forall (λ f, URL f = url → removable f = true) (drop i fs) →
  removeLoop url (seq i m) (kept ++ drop (length kept) fs) (length kept)
  = ((kept ++ base.filter (λ f, URL f ≠ url) (drop i fs))
       ++ drop (length (kept ++ base.filter (λ f, URL f ≠ url) (drop i fs))) fs,
     length (kept ++ base.filter (λ f, URL f ≠ url) (drop i fs)), None).
Proof.
  revert i kept. induction m as [|m IH]; intros i kept Hlen Hkept Hall.
  - simpl. rewrite (drop_ge fs i) by lia. simpl. by rewrite app_nil_r.
  - destruct (lookup_lt_is_Some_2 fs i) as [f Hf]; [lia|].
    rewrite (drop_S _ _ _ Hf) in Hall |- *.
    apply Forall_cons in Hall as [Hf_ok Hall].
    cbn [seq removeLoop]. rewrite shared_lookup, Hf by done.
    case_bool_decide as Hurl.
    + rewrite shared_write by lia.
      replace (S (length kept)) with (length (kept ++ [f]))
        by (rewrite length_app; simpl; lia).
      rewrite (IH (S i) (kept ++ [f])); [|lia|rewrite length_app; simpl; lia|done].
      rewrite filter_cons_True by done.
      by rewrite <- !(app_assoc kept [f]).
    + simpl in Hurl. specialize (Hf_ok Hurl).
      unfold removable in Hf_ok.
      rewrite filter_cons_False by (intros Hne; by apply Hne).
      destruct (os_Remove (Path f)) as [err|].
      * rewrite Hf_ok. simpl. apply IH; [lia|lia|done].
      * apply IH; [lia|lia|done].
Qed.

Lemma removeLoop_first_failure (url : string) (fs before : list filter)
    (f : filter) (after : list filter) (err : os_error)
    (m i : nat) (kept : list filter) :
  (i + m)%nat = length fs → (length kept ≤ i)%nat →
  drop i fs = before ++ f :: after →
  Forall (λ g, URL g = url → removable g = true) before →
  URL f = url → os_Remove (Path f) = Some err → os_IsNotExist err = false →
  removeLoop url (seq i m) (kept ++ drop (length kept) fs) (length kept)
  = ((kept ++ base.filter (λ g, URL g ≠ url) before)
       ++ drop (length (kept ++ base.filter (λ g, URL g ≠ url) before)) fs,
     length (kept ++ base.filter (λ g, URL g ≠ url) before), Some err).
Proof.
  intros Hlen Hkept Hdrop Hall Hf Hrm Hne.
  revert m i kept Hlen Hkept Hdrop.
  induction Hall as [|g before Hg _ IH]; intros m i kept Hlen Hkept Hdrop.
  - assert (Hi : fs !! i = Some f).
    { rewrite <- (Nat.add_0_r i), <- lookup_drop, Hdrop. done. }
    destruct m as [|m]; [apply lookup_lt_Some in Hi; lia|].
    cbn [seq removeLoop]. rewrite shared_lookup, Hi by done.
    rewrite bool_decide_eq_false_2 by (intros Hn; by apply Hn).
    rewrite Hrm, Hne. simpl. by rewrite app_nil_r.
  - assert (Hi : fs !! i = Some g).
    { rewrite <- (Nat.add_0_r i), <- lookup_drop, Hdrop. done. }
    destruct m as [|m]; [apply lookup_lt_Some in Hi; lia|].
    assert (Hdrop' : drop (S i) fs = before ++ f :: after).
    { rewrite (drop_S _ _ _ Hi) in Hdrop. by injection Hdrop. }
    cbn [seq removeLoop]. rewrite shared_lookup, Hi by done.
    case_bool_decide as Hurl.
    + rewrite shared_write by lia.
      replace (S (length kept)) with (length (kept ++ [g]))
        by (rewrite length_app; simpl; lia).
      rewrite (IH m (S i) (kept ++ [g]));
        [|lia|rewrite length_app; simpl; lia|done].
      rewrite filter_cons_True by done.
      by rewrite <- !(app_assoc kept [g]).
    + simpl in Hurl. specialize (Hg Hurl).
      unfold removable in Hg.
      rewrite filter_cons_False by (intros Hn; by apply Hn).
      destruct (os_Remove (Path g)) as [err'|].
      * rewrite Hg. simpl. apply IH; [lia|lia|done].
      * apply IH; [lia|lia|done].
Qed.

Lemma filter_other_urls (url : string) (fs : list filter) :
  Forall (λ f, URL f ≠ url) fs → base.filter (λ f, URL f ≠ url) fs = fs.
Proof.
  induction 1 as [|f fs Hf _ IH]; [done|].
  by rewrite filter_cons_True, IH.
Qed.
End filtering_more.

Section filtering_extras.
Import Http Filtering.
Context `{Collaborators}.

(** What Remove computes when no file removal fails. *)
Lemma handleFilteringRemoveURL_filter (parameters : gmap string string)
    (url : string) (st : state) :
  parameters !! "url" = Some url →
  IsRequestURL url = true →
  Forall (λ f, URL f = url → removable f = true) (Filters st) →
  handleFilteringRemoveURL (Ok parameters) fresh st
  = (set_Filters st (base.filter (λ f, URL f ≠ url) (Filters st)),
     httpUpdateConfigReloadDNSReturnOK fresh
       (set_Filters st (base.filter (λ f, URL f ≠ url) (Filters st)))).
Proof.
  intros Hurl Hvalid Hall.
  unfold handleFilteringRemoveURL. rewrite Hurl, Hvalid. simpl negb.
  cbv iota.
  pose proof (removeLoop_all_removable url (Filters st)
                (length (Filters st)) 0 [] eq_refl (Nat.le_0_l _)) as Hloop.
  simpl in Hloop. rewrite !drop_0 in Hloop. rewrite Hloop by done.
  by rewrite take_app_length.
Qed.

(** When the content file of every filter with the URL can be removed (or
    is already gone), Remove leaves exactly the filters with another URL,
    in the order they had, and goes on to write the configuration. *)
Theorem handleFilteringRemoveURL_removes (parameters : gmap string string)
    (url : string) (st : state) :
  parameters !! "url" = Some url →
  IsRequestURL url = true →
  Forall (λ f, URL f = url → removable f = true) (Filters st) →
  let st' := set_Filters st (base.filter (λ f, URL f ≠ url) (Filters st)) in
  handleFilteringRemoveURL (Ok parameters) fresh st
    = (st', httpUpdateConfigReloadDNSReturnOK fresh st') ∧
  Forall (λ f, URL f ≠ url) (Filters st') ∧
  (∀ f, f ∈ Filters st → URL f ≠ url → f ∈ Filters st').
Proof.
  intros Hurl Hvalid Hall st'. split; [|split].
  - by apply handleFilteringRemoveURL_filter.
  - subst st'. simpl. apply Forall_forall. intros f Hf.
    by apply list_elem_of_filter in Hf as [Hf _].
  - intros f Hf Hne. subst st'. simpl. by apply list_elem_of_filter.
Qed.

(** When the content file of a filter with the URL cannot be removed,
    Remove answers with status 500 and does not write the configuration.
    The collection keeps its length, but it is not always left as it was:
    the filters kept so far have been moved to its front, over the filters
    that were there. *)
Theorem handleFilteringRemoveURL_aborted (parameters : gmap string string)
    (url : string) (st : state) (before : list filter) (f : filter)
    (after : list filter) (err : os_error) :
  parameters !! "url" = Some url →
  IsRequestURL url = true →
  Filters st = before ++ f :: after →
  Forall (λ g, URL g = url → removable g = true) before →
  URL f = url → os_Remove (Path f) = Some err → os_IsNotExist err = false →
  let kept := base.filter (λ g, URL g ≠ url) before in
  let st' := set_Filters st (kept ++ drop (length kept) (Filters st)) in
  handleFilteringRemoveURL (Ok parameters) fresh st
    = (st', Error fresh ("Couldn't remove the filter file: "
                         +:+ os_error_text err) StatusInternalServerError) ∧
  length (Filters st') = length (Filters st) ∧
  drop (length before) (Filters st') = f :: after.
Proof.
  intros Hurl Hvalid Hfs Hall Hf Hrm Hne kept st'.
  assert (Hkept : (length kept ≤ length before)%nat)
    by apply length_filter.
  split; [|split].
  - unfold handleFilteringRemoveURL. rewrite Hurl, Hvalid. simpl negb.
    cbv iota.
    pose proof (removeLoop_first_failure url (Filters st) before f after err
                  (length (Filters st)) 0 [] eq_refl (Nat.le_0_l _) Hfs
                  Hall Hf Hrm Hne) as Hloop.
    simpl in Hloop. rewrite !drop_0 in Hloop. by rewrite Hloop.
  - subst st'. simpl. rewrite length_app, length_drop, Hfs, length_app. lia.
  - subst st'. simpl. rewrite drop_app_ge by lia. rewrite drop_drop.
    replace (length kept + (length before - length kept))%nat
      with (length before) by lia.
    rewrite Hfs. by rewrite drop_app_length.
Qed.

(** The loop shared by the enable and disable handlers, as a map. *)
Lemma setEnabled_eq (url : string) (b : bool) (filters : list filter) :
  setEnabled url b filters
  = ((λ f, if bool_decide (URL f = url) then set_Enabled f b else f)
       <$> filters,
     bool_decide (Exists (λ f, URL f = url) filters)).
Proof.
  induction filters as [|f filters IH]; simpl.
  - f_equal; try (symmetry; apply bool_decide_eq_false; by intros ?%Exists_nil).
  - rewrite IH. destruct (decide (URL f = url)) as [Hf|Hf].
    + rewrite (bool_decide_eq_true_2 (URL f = url)) by done.
      by rewrite (bool_decide_eq_true_2 (Exists _ (f :: filters)))
        by (by left).
    + rewrite (bool_decide_eq_false_2 (URL f = url)) by done.
      f_equal. apply bool_decide_ext. rewrite Exists_cons. tauto.
Qed.

(** Disabling a URL that some filter has clears the flag of every filter
    with that URL and touches nothing else: the collection keeps its
    length, every filter keeps its ID, URL, rule count and content, and the
    filters with another URL are as they were. *)
Theorem handleFilteringDisableURL_disables (parameters : gmap string string)
    (url : string) (st : state) :
  parameters !! "url" = Some url →
  IsRequestURL url = true →
  Exists (λ f, URL f = url) (Filters st) →
  ∃ st', handleFilteringDisableURL (Ok parameters) fresh st
           = (st', httpUpdateConfigReloadDNSReturnOK fresh st') ∧
    nextFilterID st' = nextFilterID st ∧
    Forall2 (λ f f', ID f' = ID f ∧ URL f' = URL f ∧
                     RulesCount f' = RulesCount f ∧
                     Contents f' = Contents f ∧
                     Enabled f' = (if bool_decide (URL f = url) then false
                                   else Enabled f))
      (Filters st) (Filters st').
Proof.
  intros Hurl Hvalid Hex. unfold handleFilteringDisableURL.
  rewrite Hurl, Hvalid, setEnabled_eq. simpl negb. cbv iota beta.
  rewrite bool_decide_eq_true_2 by done. simpl negb. cbv iota.
  eexists. split; [reflexivity|]. split; [reflexivity|]. simpl.
  apply Forall2_fmap_r, Forall_Forall2_diag, Forall_forall.
  intros f _. unfold compose. cbv beta.
  case_bool_decide; by repeat split.
Qed.

(** What [handleFilteringAddURL] has checked and done once it has stored a
    filter. *)
Lemma handleFilteringAddURL_stored (body : result filter) (st : state) :
  let st' := (handleFilteringAddURL body fresh st).1 in
  let w' := (handleFilteringAddURL body fresh st).2 in
  status w' = Some StatusOK ∨ Filters st' ≠ Filters st →
  ∃ f f', body = Ok f ∧ URL f ≠ "" ∧ IsRequestURL (URL f) = true ∧
    duplicate (Filters st) (URL f) = false ∧
    Filters st' = Filters st ++ [f'] ∧ URL f' = URL f ∧
    ID f' = nextFilterID st ∧ nextFilterID st' = nextFilterID st + 1.
Proof.
  unfold handleFilteringAddURL. destruct body as [f|err]; simpl;
    [|intros [?|?]; done].
  case_bool_decide as Hlen; [intros [?|?]; done|].
  destruct (IsRequestURL (URL f)) eqn:Hv; simpl; [|intros [?|?]; done].
  destruct (duplicate (Filters st) (URL f)) eqn:Hdup; [intros [?|?]; done|].
  unfold update. simpl.
  destruct (Fetch _ true) as [[[ok n] c]|err]; [|intros [?|?]; done].
  simpl. case_bool_decide; [intros [?|?]; done|].
  destruct ok; simpl; [|intros [?|?]; done].
  destruct (save _) eqn:Hsave; [intros [?|?]; done|].
  intros _.
  assert (Hne : URL f ≠ "") by (intros Hempty; by rewrite Hempty in Hlen).
  destruct (writeAllConfigs _); [|destruct (reconfigureDNSServer _)]; simpl;
    exists f; eexists; repeat split; done.
Qed.

(** No Add, accepted or rejected, makes two filters share a URL. *)
Theorem handleFilteringAddURL_keeps_urls_unique (body : result filter)
    (st : state) :
  NoDup (URL <$> Filters st) →
  NoDup (URL <$> Filters (handleFilteringAddURL body fresh st).1).
Proof.
  intros Hnd.
  destruct (handleFilteringAddURL_outcomes body st)
    as [[-> _]|(f & f' & _ & Hdup & -> & Hurl & _)]; [done|].
  rewrite fmap_app. simpl. apply NoDup_app. split; [done|].
  split; [|apply NoDup_singleton].
  intros u Hu Hu'. apply list_elem_of_singleton in Hu' as ->.
  apply list_elem_of_fmap in Hu as (g & Hg & Hin).
  assert (duplicate (Filters st) (URL f) = true)
    by (apply duplicate_true; exists g; split; [done|congruence]).
  congruence.
Qed.

(** An Add that stored its filter cannot be repeated: the same request,
    or any request for the same URL, is then rejected as a duplicate and
    changes nothing. *)
Theorem handleFilteringAddURL_twice (body : result filter) (again : filter)
    (st : state) :
  let st' := (handleFilteringAddURL body fresh st).1 in
  let w' := (handleFilteringAddURL body fresh st).2 in
  status w' = Some StatusOK ∨ Filters st' ≠ Filters st →
  (∀ f, body = Ok f → URL again = URL f) →
  handleFilteringAddURL (Ok again) fresh st'
  = (st', Error fresh ("Filter URL already added -- " +:+ URL again)
            StatusBadRequest).
Proof.
  intros st' w' Hstored Hsame.
  destruct (handleFilteringAddURL_stored body st Hstored)
    as (f & f' & Hbody & Hne & Hvalid & _ & Happ & Hurl & _).
  fold st' in Happ. rewrite (Hsame f Hbody).
  assert (Hdup : duplicate (Filters st') (URL f) = true).
  { apply duplicate_true. exists f'. split; [|done].
    rewrite Happ. apply elem_of_app. right. by left. }
  unfold handleFilteringAddURL. rewrite (Hsame f Hbody).
  rewrite bool_decide_eq_false_2; [|by destruct (URL f)].
  by rewrite Hvalid, Hdup.
Qed.

(** Add followed by Remove of the same URL gives back the collection as it
    was before the Add (the ID handed out is not reused). *)
Theorem handleFilteringAddURL_then_remove (body : result filter)
    (parameters : gmap string string) (url : string) (st : state) :
  let st' := (handleFilteringAddURL body fresh st).1 in
  let w' := (handleFilteringAddURL body fresh st).2 in
  status w' = Some StatusOK ∨ Filters st' ≠ Filters st →
  (∀ f, body = Ok f → URL f = url) →
  parameters !! "url" = Some url →
  Forall (λ f, URL f = url → removable f = true) (Filters st') →
  let st'' := (handleFilteringRemoveURL (Ok parameters) fresh st').1 in
  Filters st'' = Filters st ∧ nextFilterID st'' = nextFilterID st + 1.
Proof.
  intros st' w' Hstored Hsame Hparam Hrm st''.
  destruct (handleFilteringAddURL_stored body st Hstored)
    as (f & f' & Hbody & _ & Hvalid & Hdup & Happ & Hurl & _ & Hnext).
  fold st' in Happ, Hnext. rewrite (Hsame f Hbody) in Hvalid, Hdup, Hurl.
  pose proof (handleFilteringRemoveURL_filter parameters url st' Hparam
                Hvalid Hrm) as Heq.
  subst st''. rewrite Heq. simpl. split; [|done].
  rewrite Happ, filter_app, filter_cons_False, filter_nil, app_nil_r
    by (intros Hn; by apply Hn).
  apply filter_other_urls. apply Forall_forall. intros g Hg Hgu.
  assert (duplicate (Filters st) url = true)
    by (apply duplicate_true; eauto).
  congruence.
Qed.

(** Remove can be repeated: after a Remove that got past every file
    removal, a second Remove of the same URL is not refused and leaves the
    collection as the first one left it. *)
Theorem handleFilteringRemoveURL_twice (parameters : gmap string string)
    (url : string) (st : state) :
  parameters !! "url" = Some url →
  IsRequestURL url = true →
  Forall (λ f, URL f = url → removable f = true) (Filters st) →
  let st' := (handleFilteringRemoveURL (Ok parameters) fresh st).1 in
  handleFilteringRemoveURL (Ok parameters) fresh st'
  = (st', httpUpdateConfigReloadDNSReturnOK fresh st').
Proof.
  intros Hurl Hvalid Hall st'. subst st'.
  rewrite (handleFilteringRemoveURL_filter _ _ _ Hurl Hvalid Hall).
  cbn [fst].
  set (kept := base.filter (λ f, URL f ≠ url) (Filters st)).
  assert (Hkept : Forall (λ f, URL f ≠ url) kept).
  { apply Forall_forall. intros f Hf.
    by apply list_elem_of_filter in Hf as [Hf _]. }
  rewrite (handleFilteringRemoveURL_filter _ url (set_Filters st kept));
    [|done|done|].
  - simpl. by rewrite (filter_other_urls url kept Hkept).
  - simpl. eapply Forall_impl; [exact Hkept|]. by intros f Hne Heq.
Qed.

(** When everything about an Add succeeds except reconfiguring the DNS
    server, the handler does not return after reporting the failure: the
    answer has status 500 and carries the error line followed by the
    success line, and the filter is in the collection. *)
Theorem handleFilteringAddURL_reload_fails (f : filter) (st : state)
    (n : Z) (c : string) (err : string) :
  URL f ≠ "" → IsRequestURL (URL f) = true →
  duplicate (Filters st) (URL f) = false →
  Fetch (prepared st f) true = Ok (true, n, c) → n ≠ 0 →
  save (set_fetched (prepared st f) n c) = None →
  writeAllConfigs (Filters st ++ [set_fetched (prepared st f) n c]) = None →
  reconfigureDNSServer (Filters st ++ [set_fetched (prepared st f) n c])
    = Some err →
  handleFilteringAddURL (Ok f) fresh st
  = ({| Filters := Filters st ++ [set_fetched (prepared st f) n c];
        nextFilterID := nextFilterID st + 1 |},
     {| status := Some StatusInternalServerError;
        body := ("Couldn't reconfigure the DNS server: " +:+ err +:+ nl)
                +:+ "OK " +:+ pretty n +:+ " rules" +:+ nl |}).
Proof.
  intros Hne Hvalid Hdup Hfetch Hn Hsave Hwrite Hreload.
  unfold handleFilteringAddURL.
  rewrite bool_decide_eq_false_2 by (by destruct (URL f)).
  rewrite Hvalid, Hdup. simpl. unfold update. fold (prepared st f).
  rewrite Hfetch. simpl. rewrite bool_decide_eq_false_2 by done. simpl.
  rewrite Hsave. simpl. rewrite Hwrite, Hreload. reflexivity.
Qed.
End filtering_extras.

Lemma handleFilteringRemoveURL_removes_witness :
  let C := Filtering.TestCollaborators None in
  let st := {| Filtering.Filters :=
                 [Filtering.list_a; Filtering.list_b; Filtering.list_a_again];
               Filtering.nextFilterID := 4 |} in
  let parameters : gmap string string :=
    {[ "url" := "https://a.example/list.txt" ]} in
  @Filtering.handleFilteringRemoveURL C (Ok parameters) Http.fresh st
  = ({| Filtering.Filters := [Filtering.list_b];
        Filtering.nextFilterID := 4 |},
     {| Http.status := Some 200; Http.body := "OK" +:+ Http.nl |}).
Proof.
  intros C st parameters.
  refine (proj1 (@handleFilteringRemoveURL_removes C parameters
                   "https://a.example/list.txt" st eq_refl eq_refl _)).
  repeat constructor.
Defined.

Lemma handleFilteringRemoveURL_aborted_witness :
  let C := Filtering.BrokenDisk "filters/3.txt" in
  let st := {| Filtering.Filters :=
                 [Filtering.list_a; Filtering.list_b; Filtering.list_a_again];
               Filtering.nextFilterID := 4 |} in
  let parameters : gmap string string :=
    {[ "url" := "https://a.example/list.txt" ]} in
  @Filtering.handleFilteringRemoveURL C (Ok parameters) Http.fresh st
  = ({| Filtering.Filters :=
          [Filtering.list_b; Filtering.list_b; Filtering.list_a_again];
        Filtering.nextFilterID := 4 |},
     {| Http.status := Some 500;
        Http.body := "Couldn't remove the filter file: permission denied"
                     +:+ Http.nl |}).
Proof.
  intros C st parameters.
  refine (proj1 (@handleFilteringRemoveURL_aborted C parameters
                   "https://a.example/list.txt" st
                   [Filtering.list_a; Filtering.list_b] Filtering.list_a_again
                   [] (Filtering.ErrOther "permission denied")
                   eq_refl eq_refl eq_refl _ eq_refl eq_refl eq_refl)).
  repeat constructor.
Defined.

Lemma handleFilteringDisableURL_disables_witness :
  let C := Filtering.TestCollaborators None in
  let st := {| Filtering.Filters := [Filtering.list_a; Filtering.list_b];
               Filtering.nextFilterID := 3 |} in
  let parameters : gmap string string :=
    {[ "url" := "https://a.example/list.txt" ]} in
  ∃ st', (@Filtering.handleFilteringDisableURL C (Ok parameters) Http.fresh st).1
         = st' ∧
    Filtering.Enabled <$> Filtering.Filters st' = [false; true].
Proof.
  intros C st parameters.
  destruct (@handleFilteringDisableURL_disables C parameters
              "https://a.example/list.txt" st eq_refl eq_refl)
    as (st' & Heq & _).
  - left. reflexivity.
  - exists st'. split; [by rewrite Heq|].
    vm_compute in Heq. injection Heq as <-. reflexivity.
Defined.

Lemma handleFilteringAddURL_keeps_urls_unique_witness :
  let C := Filtering.TestCollaborators None in
  let st := {| Filtering.Filters := [Filtering.list_a; Filtering.list_b];
               Filtering.nextFilterID := 3 |} in
  let body := Ok (Filtering.request_for "https://c.example/list.txt") in
  NoDup (Filtering.URL <$> Filtering.Filters st) ∧
  NoDup (Filtering.URL <$>
           Filtering.Filters
             (@Filtering.handleFilteringAddURL C body Http.fresh st).1).
Proof.
  intros C st body.
  assert (Hnd : NoDup (Filtering.URL <$> Filtering.Filters st))
    by (by apply (bool_decide_unpack _)).
  split; [exact Hnd|].
  exact (@handleFilteringAddURL_keeps_urls_unique C body st Hnd).
Defined.

Lemma handleFilteringAddURL_twice_witness :
  let C := Filtering.TestCollaborators None in
  let st := {| Filtering.Filters := [Filtering.list_a];
               Filtering.nextFilterID := 2 |} in
  let body := Ok (Filtering.request_for "https://b.example/list.txt") in
  let st' := (@Filtering.handleFilteringAddURL C body Http.fresh st).1 in
  @Filtering.handleFilteringAddURL C body Http.fresh st'
  = (st', {| Http.status := Some 400;
             Http.body := "Filter URL already added -- https://b.example/list.txt"
                          +:+ Http.nl |}).
Proof.
  intros C st body st'.
  refine (@handleFilteringAddURL_twice C body
            (Filtering.request_for "https://b.example/list.txt") st
            (or_introl eq_refl) _).
  intros f [= <-]. reflexivity.
Defined.

Lemma handleFilteringAddURL_then_remove_witness :
  let C := Filtering.TestCollaborators None in
  let st := {| Filtering.Filters := [Filtering.list_a];
               Filtering.nextFilterID := 2 |} in
  let body := Ok (Filtering.request_for "https://b.example/list.txt") in
  let parameters : gmap string string :=
    {[ "url" := "https://b.example/list.txt" ]} in
  let st' := (@Filtering.handleFilteringAddURL C body Http.fresh st).1 in
  Filtering.Filters
    (@Filtering.handleFilteringRemoveURL C (Ok parameters) Http.fresh st').1
  = [Filtering.list_a].
Proof.
  intros C st body parameters st'.
  refine (proj1 (@handleFilteringAddURL_then_remove C body parameters
                   "https://b.example/list.txt" st (or_introl eq_refl) _
                   eq_refl _)).
  - intros f [= <-]. reflexivity.
  - repeat constructor.
Defined.

(** ** Statistics: what a top-N table lists *)

Section topN_extras.
Import Stats.
Context `{SortSlice}.

(** The sorted slice, read as pairs again, is the range reordered. *)
Lemma sorted_kvs_pairs (it : list (string * Z)) :
  (λ e, (k e, v e)) <$> sorted_kvs it ≡ₚ it.
Proof.
  rewrite sorted_kvs_perm, <- list_fmap_compose.
  induction it as [|[key val] it IH]; [done|].
  simpl. by rewrite IH.
Qed.

(** [sortByValue] returns every key of the map, once. *)
Theorem sortByValue_keys (top : gmap string Z) (it : list (string * Z)) :
  is_range top it →
  NoDup (sortByValue it) ∧
  length (sortByValue it) = size top ∧
  ∀ key, key ∈ sortByValue it ↔ is_Some (top !! key).
Proof.
  intros Hr.
  assert (Hkeys : sortByValue it ≡ₚ (map_to_list top).*1).
  { rewrite sortByValue_eq.
    transitivity (((λ e, (k e, v e)) <$> sorted_kvs it).*1);
      [by rewrite <- list_fmap_compose|].
    rewrite sorted_kvs_pairs. unfold is_range in Hr. by rewrite Hr. }
  split; [|split].
  - rewrite Hkeys. apply NoDup_fst_map_to_list.
  - by rewrite Hkeys, length_fmap, length_map_to_list.
  - intros key. rewrite Hkeys, list_elem_of_fmap. split.
    + intros ([key' val] & -> & Hin). apply elem_of_map_to_list in Hin.
      by exists val.
    + intros [val Hval]. exists (key, val). split; [done|].
      by apply elem_of_map_to_list.
Qed.

(** Every row of a table is an entry of the map with its count, no key is
    listed twice, and the table has [min 50 (size top)] rows: a map of at
    most 50 entries is listed in full. *)
Theorem gen_rows (top : gmap string Z) (it : list (string * Z)) :
  is_range top it →
  Forall (λ row, top !! row.1 = Some row.2) (gen top it) ∧
  NoDup (gen top it).*1 ∧
  length (gen top it) = (50 `min` size top)%nat ∧
  ((size top ≤ 50)%nat → gen top it ≡ₚ map_to_list top).
Proof.
  intros Hr. rewrite (gen_eq _ _ Hr), fmap_take.
  assert (Hp : (λ e, (k e, v e)) <$> sorted_kvs it ≡ₚ map_to_list top)
    by (etrans; [apply sorted_kvs_pairs|exact Hr]).
  split; [|split; [|split]].
  - apply Forall_take. rewrite Hp. apply Forall_forall.
    intros [key val] Hin. by apply elem_of_map_to_list.
  - rewrite fmap_take.
    eapply sublist_NoDup; [|apply sublist_take].
    rewrite Hp. apply NoDup_fst_map_to_list.
  - by rewrite length_take, Hp, length_map_to_list.
  - intros Hsize. rewrite take_ge; [done|].
    by rewrite Hp, length_map_to_list.
Qed.

Local Instance count_ge_trans : Transitive (λ a b : string * Z, b.2 ≤ a.2).
Proof. intros a b c; lia. Qed.

(** A table lists the largest counts: no entry left out of it has a count
    greater than the count of a listed row. *)
Theorem gen_lists_largest (top : gmap string Z) (it : list (string * Z))
    (row : string * Z) (key : string) (count : Z) :
  is_range top it →
  row ∈ gen top it →
  top !! key = Some count →
  key ∉ (gen top it).*1 →
  count ≤ row.2.
Proof.
  intros Hr Hrow Hkey Hout. rewrite (gen_eq _ _ Hr), fmap_take in Hrow, Hout.
  set (rows := (λ e, (k e, v e)) <$> sorted_kvs it) in *.
  assert (Hsorted : StronglySorted (λ a b : string * Z, b.2 ≤ a.2) rows).
  { apply Sorted_StronglySorted; [apply _|].
    apply Sorted_fmap with (R1 := λ a b, v b ≤ v a); [done|].
    apply sorted_kvs_sorted. }
  assert (Hin : (key, count) ∈ rows).
  { unfold rows. rewrite sorted_kvs_pairs. unfold is_range in Hr.
    rewrite Hr. by apply elem_of_map_to_list. }
  rewrite <- (take_drop 50 rows) in Hsorted, Hin.
  apply elem_of_app in Hin as [Hin|Hin].
  - destruct Hout. apply list_elem_of_fmap. by exists (key, count).
  - apply (StronglySorted_app_1_elem_of _ _ _ row (key, count) Hsorted Hrow Hin).
Qed.
End topN_extras.

Lemma sortByValue_keys_witness :
  Stats.is_range Stats.two_ties Stats.two_ties_ba ∧
  length (@Stats.sortByValue InsertionSort Stats.two_ties_ba) = 2%nat.
Proof.
  split; [exact two_ties_ba_range|].
  exact (proj1 (proj2 (@sortByValue_keys InsertionSort Stats.two_ties
                         Stats.two_ties_ba two_ties_ba_range))).
Defined.

Lemma gen_rows_witness :
  Stats.is_range Stats.two_ties Stats.two_ties_ba ∧
  length (@Stats.gen InsertionSort Stats.two_ties Stats.two_ties_ba) = 2%nat.
Proof.
  split; [exact two_ties_ba_range|].
  exact (proj1 (proj2 (proj2 (@gen_rows InsertionSort Stats.two_ties
                                Stats.two_ties_ba two_ties_ba_range)))).
Defined.

Lemma fifty_one_range : Stats.is_range Stats.fifty_one_map Stats.fifty_one.
Proof.
  apply is_range_intro; [|reflexivity].
  apply (bool_decide_unpack _). vm_compute. exact I.
Qed.

Lemma gen_lists_largest_witness :
  Stats.is_range Stats.fifty_one_map Stats.fifty_one ∧
  ("50", 50)
    ∈ (@Stats.gen InsertionSort Stats.fifty_one_map Stats.fifty_one) ∧
  Stats.fifty_one_map !! "0" = Some 0 ∧
  ("0" ∉ (@Stats.gen InsertionSort Stats.fifty_one_map Stats.fifty_one).*1) ∧
  0 ≤ 50.
Proof.
  assert (Hrow : ("50", 50)
                 ∈ (@Stats.gen InsertionSort Stats.fifty_one_map
                      Stats.fifty_one))
    by (apply (bool_decide_unpack _); vm_compute; exact I).
  assert (Hkey : Stats.fifty_one_map !! "0" = Some 0)
    by (vm_compute; reflexivity).
  assert (Hout : "0" ∉ (@Stats.gen InsertionSort Stats.fifty_one_map
                          Stats.fifty_one).*1)
    by (apply (bool_decide_unpack _); vm_compute; exact I).
  split; [exact fifty_one_range|]. split; [exact Hrow|].
  split; [exact Hkey|]. split; [exact Hout|].
  exact (@gen_lists_largest InsertionSort Stats.fifty_one_map Stats.fifty_one
           ("50", 50) "0" 0 fifty_one_range Hrow Hkey Hout).
Defined.

(** ** Upstream resolver probe: when a server passes *)

Section prober_extras.
Import Prober.
Context `{UpstreamLib}.

(** The probe reports no error only if a transport could be chosen, the
    exchange succeeded, and the reply holds exactly one answer which, if it
    is an A record, carries 8.8.8.8. *)
Theorem checkDNS_ok_only_if (id : Z) (input : string) :
  checkDNS id input = None →
  ∃ u reply rr,
    AddressToUpstream input = Ok u ∧
    Exchange u (testQuery id) = Ok reply ∧
    Answer reply = [rr] ∧
    ∀ A, rr = RR_A A →
         A = [Byte.x08; Byte.x08; Byte.x08; Byte.x08] ∨
         A = IPv4 Byte.x08 Byte.x08 Byte.x08 Byte.x08.
Proof.
  unfold checkDNS.
  destruct (AddressToUpstream input) as [u|err] eqn:Hu; [|done].
  destruct (Exchange u (testQuery id)) as [reply|err] eqn:Hx; [|done].
  case_bool_decide as Hlen; [done|]. simpl in Hlen.
  destruct (Answer reply) as [|rr [|rr' answers]] eqn:Hanswer; try done.
  simpl. intros Hok. exists u, reply, rr. repeat split; try done.
  intros A ->. apply IP_Equal_8888.
  by destruct (IP_Equal _ A).
Qed.
End prober_extras.

Lemma checkDNS_ok_only_if_witness :
  let L := Prober.TableLib Prober.resolvers in
  @Prober.checkDNS L 7 "good.example" = None ∧
  ∃ reply, @Prober.Exchange L "good.example" (Prober.testQuery 7) = Ok reply ∧
    length (Prober.Answer reply) = 1%nat.
Proof.
  intros L.
  assert (Hok : @Prober.checkDNS L 7 "good.example" = None) by reflexivity.
  split; [exact Hok|].
  destruct (@checkDNS_ok_only_if L 7 "good.example" Hok)
    as (u & reply & rr & Hu & Hx & Hanswer & _).
  injection Hu as <-. exists reply. split; [exact Hx|].
  by rewrite Hanswer.
Defined.

Section upstreams_extras.
Import Prober Upstreams.
Context `{UpstreamLib} `{BodyLib}.

(** What the loop leaves in the result map for a host: the verdict of the
    probe of its last occurrence among the hosts still to test, or what the
    map held if it is not among them. *)
Lemma testLoop_lookup (ids : nat → Z) (hosts : list string) (i : nat)
    (result : gmap string string) (host : string) :
  (host ∉ hosts → testLoop ids hosts i result !! host = result !! host) ∧
  (∀ j, hosts !! j = Some host →
        (∀ j', (j < j')%nat → hosts !! j' ≠ Some host) →
        testLoop ids hosts i result !! host
        = Some (verdict (checkDNS (ids (i + j)%nat) host))).
Proof.
  revert i result. induction hosts as [|h hosts IH]; intros i result.
  - split; [done|]. intros j Hj. done.
  - simpl. destruct (IH (S i) (<[h:=verdict (checkDNS (ids i) h)]> result))
      as [IHout IHin].
    split.
    + intros Hout. apply not_elem_of_cons in Hout as [Hne Hout].
      rewrite (IHout Hout). by rewrite lookup_insert_ne.
    + intros [|j] Hj Hlast; simpl in Hj.
      * injection Hj as ->.
        assert (Hout : host ∉ hosts).
        { intros Hin. apply list_elem_of_lookup in Hin as [j' Hj'].
          apply (Hlast (S j')); [lia|done]. }
        rewrite (IHout Hout), lookup_insert_eq. by rewrite Nat.add_0_r.
      * rewrite (IHin j Hj).
        -- by replace (S i + j)%nat with (i + S j)%nat by lia.
        -- intros j' Hlt. apply (Hlast (S j')). lia.
Qed.

(** Testing a list of servers gives every host named in the request a
    verdict, and no other entry; the verdict is [OK] or the error of a probe
    of that very host (the last one, if the host is named more than once).
    A failing host does not keep the others from being tested. *)
Theorem testLoop_verdicts (ids : nat → Z) (hosts : list string) :
  let result := testLoop ids hosts 0 ∅ in
  (∀ host, is_Some (result !! host) ↔ host ∈ hosts) ∧
  (∀ j host, hosts !! j = Some host →
     (∀ j', (j < j')%nat → hosts !! j' ≠ Some host) →
     result !! host = Some (verdict (checkDNS (ids j) host))).
Proof.
  intros result. split.
  - intros host. split.
    + intros Hsome. destruct (decide (host ∈ hosts)) as [|Hout]; [done|].
      destruct (testLoop_lookup ids hosts 0 ∅ host) as [Hnot _].
      subst result. rewrite (Hnot Hout), lookup_empty in Hsome.
      by destruct Hsome.
    + intros Hin.
      assert (Hlast : ∃ j, hosts !! j = Some host ∧
                ∀ j', (j < j')%nat → hosts !! j' ≠ Some host).
      { clear result. induction hosts as [|h hosts IH];
          [by apply elem_of_nil in Hin|].
        destruct (decide (host ∈ hosts)) as [Hin'|Hout].
        - destruct (IH Hin') as (j & Hj & Hlast). exists (S j).
          split; [done|]. intros [|j'] Hlt; [lia|]. apply Hlast. lia.
        - apply elem_of_cons in Hin as [->|]; [|done]. exists 0%nat.
          split; [done|]. intros [|j'] Hlt Hj'; [lia|].
          apply Hout. apply list_elem_of_lookup. by exists j'. }
      destruct Hlast as (j & Hj & Hlast).
      destruct (testLoop_lookup ids hosts 0 ∅ host) as [_ Hin'].
      subst result. by rewrite (Hin' j Hj Hlast).
  - intros j host Hj Hlast.
    destruct (testLoop_lookup ids hosts 0 ∅ host) as [_ Hin].
    subst result. by rewrite (Hin j Hj Hlast).
Qed.

(** A request that names no server is refused with status 400; any other
    readable request is answered with the verdicts of all its hosts, or
    with status 500 if they cannot be written as JSON. *)
Theorem handleTestUpstreamDNS_answers (ids : nat → Z) (body : string) :
  let w := handleTestUpstreamDNS ids (Ok body) Http.fresh in
  (strings_Fields body = [] →
     w = Http.Error Http.fresh "No servers specified" 400) ∧
  (strings_Fields body ≠ [] →
     ∀ text, json_Marshal (testLoop ids (strings_Fields body) 0 ∅) = Ok text →
       w = {| Http.status := Some 200; Http.body := text |}).
Proof.
  intros w. subst w. unfold handleTestUpstreamDNS. split.
  - by intros ->.
  - intros Hne text Hjson.
    rewrite bool_decide_eq_false_2 by (by destruct (strings_Fields body)).
    by rewrite Hjson.
Qed.
End upstreams_extras.

Lemma testLoop_verdicts_witness :
  let L := Prober.TableLib Prober.resolvers in
  @Upstreams.testLoop L (λ _, 7) ["good.example"; "silent.example"] 0 ∅
    !! "silent.example"
  = Some "DNS server silent.example returned wrong answer".
Proof.
  intros L.
  refine (proj2 (@testLoop_verdicts L (λ _, 7)
                   ["good.example"; "silent.example"])
            1%nat "silent.example" eq_refl _).
  intros [|[|[|j']]] Hlt; (lia || discriminate).
Defined.

(** ** TLS validation: what the report says *)

Section tls_extras.
Import TLS.
Context `{CryptoLib}.

(** The pool of intermediates is what follows the first certificate. *)
Lemma intermediates_rest (mainCert : x509.Certificate)
    (rest : list x509.Certificate) :
  intermediates (mainCert :: rest) = rest.
Proof.
  unfold intermediates. simpl. rewrite drop_0.
  rewrite (foldl_snoc_fmap id). simpl. by rewrite list_fmap_id.
Qed.

(** How the chain block can fall through to the key block. *)
Lemma validateChain_next (data data' : tlsConfig) :
  validateChain data = Some (Next data') →
  (CertificateChain (tlsConfigSettings_of data) = "" ∧ data' = data) ∨
  (CertificateChain (tlsConfigSettings_of data) ≠ "" ∧
   ∃ certs mainCert rest,
     certificateBlocks (CertificateChain (tlsConfigSettings_of data))
       = Some certs ∧
     parseCertificates certs [] = Ok (mainCert :: rest) ∧
     ((Certificate_Verify mainCert
         {| x509.DNSName := ServerName (tlsConfigSettings_of data);
            x509.Intermediates :=
              match rest with [] => None | _ => Some rest end |} = None ∧
       ValidChain (tlsConfigStatus_of data') = true ∧
       WarningValidation (tlsConfigStatus_of data')
         = WarningValidation (tlsConfigStatus_of data)) ∨
      (∃ err,
         Certificate_Verify mainCert
           {| x509.DNSName := ServerName (tlsConfigSettings_of data);
              x509.Intermediates :=
                match rest with [] => None | _ => Some rest end |}
           = Some err ∧
         ValidChain (tlsConfigStatus_of data')
           = ValidChain (tlsConfigStatus_of data) ∧
         WarningValidation (tlsConfigStatus_of data')
           = "Your certificate does not verify: " +:+ err))).
Proof.
  unfold validateChain, certificateBlocks.
  case_bool_decide as Hchain; [|intros [= <-]; by left].
  destruct (decodeCertificates _ _ _ _) as [[certs skipped]|]; [|done].
  destruct (parseCertificates certs []) as [[|mainCert rest]|err] eqn:Hparse;
    [done| |done].
  intros Hnext. right. split; [done|].
  exists certs, mainCert, rest. split; [done|]. split; [done|].
  rewrite intermediates_rest in Hnext.
  assert (Hpool : (if bool_decide (1 < length (mainCert :: rest))%nat
                   then Some rest else None)
                  = match rest with [] => None | _ => Some rest end)
    by (by destruct rest).
  rewrite Hpool in Hnext. simpl in Hnext.
  destruct (Certificate_Verify mainCert _) as [err|] eqn:Hverify;
    injection Hnext as <-.
  - right. by exists err.
  - by left.
Qed.

(** Falling through the key block changes the key report only. *)
Lemma validateKey_next (data data' : tlsConfig) :
  validateKey data = Some (Next data') →
  WarningValidation (tlsConfigStatus_of data')
    = WarningValidation (tlsConfigStatus_of data) ∧
  (key_report data' = key_report data ∨
   ValidKey (tlsConfigStatus_of data') = true ∧
   (KeyType (tlsConfigStatus_of data') = "RSA" ∨
    KeyType (tlsConfigStatus_of data') = "ECDSA")).
Proof.
  unfold validateKey. case_bool_decide as Hkey; [|intros [= <-]; by split; [|left]].
  destruct (decodeKey _ _ _) as [[key|]|]; [|done|done].
  unfold parsePrivateKey.
  destruct (x509_ParsePKCS1PrivateKey _);
    [|destruct (x509_ParsePKCS8PrivateKey _) as [[]|];
      [| | |destruct (x509_ParseECPrivateKey _)]];
    try done; intros [= <-]; (split; [done|]); right; split; try done;
    (by left) || (by right).
Qed.

Lemma validateCertificates_settings (data bundle : tlsConfig) :
  validateCertificates data = Some bundle →
  tlsConfigSettings_of bundle = tlsConfigSettings_of data.
Proof.
  revert bundle. unfold validateCertificates.
  destruct (validateChain_frame (with_status data tlsConfigStatus_zero))
    as (fl1 & -> & Hset1 & _).
  destruct fl1 as [d1|d1]; simpl in Hset1; [by intros bundle [= <-]|].
  destruct (validateKey_frame d1) as (fl2 & -> & Hset2 & _).
  destruct fl2 as [d2|d2]; simpl in Hset2; intros bundle [= <-];
    [congruence|].
  destruct (validatePair_frame d2) as (-> & _). congruence.
Qed.

(** The bundle returned has the settings of the request, and its status
    does not depend on the status the request came with. *)
Theorem validateCertificates_fresh_status (data : tlsConfig)
    (stale : tlsConfigStatus) :
  validateCertificates (with_status data stale) = validateCertificates data ∧
  ∀ bundle, validateCertificates data = Some bundle →
            tlsConfigSettings_of bundle = tlsConfigSettings_of data.
Proof.
  split; [done|]. intros bundle. apply validateCertificates_settings.
Qed.

(** [ValidChain] is reported only if the certificates of the chain text
    all parsed and the first of them verified for the configured server
    name, with the certificates after it as intermediates; [ValidCert] is
    then reported too. *)
Theorem validateCertificates_valid_chain (data bundle : tlsConfig) :
  validateCertificates data = Some bundle →
  ValidChain (tlsConfigStatus_of bundle) = true →
  ValidCert (tlsConfigStatus_of bundle) = true ∧
  ∃ certs mainCert rest,
    certificateBlocks (CertificateChain (tlsConfigSettings_of data))
      = Some certs ∧
    parseCertificates certs [] = Ok (mainCert :: rest) ∧
    Certificate_Verify mainCert
      {| x509.DNSName := ServerName (tlsConfigSettings_of data);
         x509.Intermediates :=
           match rest with [] => None | _ => Some rest end |} = None.
Proof.
  unfold validateCertificates. intros Hret Hvalid.
  destruct (validateChain_frame (with_status data tlsConfigStatus_zero))
    as (fl1 & Hchain & _ & _ & _ & Hcert).
  rewrite Hchain in Hret.
  destruct fl1 as [d1|d1].
  { injection Hret as <-. revert Hchain Hvalid. clear.
    unfold validateChain. case_bool_decide; [|done].
    destruct (decodeCertificates _ _ _ _) as [[certs skipped]|]; [|done].
    destruct (parseCertificates certs []) as [[|mainCert rest]|err];
      [|done|]; by intros [= <-]. }
  assert (Hrep : chain_report bundle = chain_report d1).
  { destruct (validateKey_frame d1) as (fl2 & Hkey & _ & Hrep2 & _).
    rewrite Hkey in Hret. destruct fl2 as [d2|d2]; injection Hret as <-;
      [done|].
    destruct (validatePair_frame d2) as (_ & -> & _). done. }
  unfold chain_report in Hrep. injection Hrep as Hvc Hvch _.
  rewrite Hvch in Hvalid.
  destruct (validateChain_next _ _ Hchain)
    as [[_ ->]|(Hne & certs & mainCert & rest & Hblocks & Hparse & Hver)];
    [done|].
  split; [rewrite Hvc; by apply (Hcert d1)|].
  exists certs, mainCert, rest. split; [done|]. split; [done|].
  destruct Hver as [(Hok & _)|(err & _ & Hsame & _)]; [done|].
  simpl in Hsame. congruence.
Qed.

(** A usable bundle comes from a chain text and a key text that are both
    given, and its warning is about chain verification only: it is empty
    when the chain verified, and says that the certificate does not verify
    when it did not. *)
Theorem validateCertificates_usable_warning (data bundle : tlsConfig) :
  validateCertificates data = Some bundle →
  usable (tlsConfigStatus_of bundle) = true →
  CertificateChain (tlsConfigSettings_of data) ≠ "" ∧
  PrivateKey (tlsConfigSettings_of data) ≠ "" ∧
  ((ValidChain (tlsConfigStatus_of bundle) = true ∧
    WarningValidation (tlsConfigStatus_of bundle) = "") ∨
   (ValidChain (tlsConfigStatus_of bundle) = false ∧
    ∃ err, WarningValidation (tlsConfigStatus_of bundle)
           = "Your certificate does not verify: " +:+ err)).
Proof.
  unfold validateCertificates. intros Hret Hus.
  destruct (validateChain_frame (with_status data tlsConfigStatus_zero))
    as (fl1 & Hchain & Hset1 & _ & Hus1 & _).
  rewrite Hchain in Hret. destruct fl1 as [d1|d1]; simpl in *.
  { injection Hret as <-. congruence. }
  destruct (validateKey_frame d1) as (fl2 & Hkey & Hset2 & Hrep2 & Hus2 & _).
  rewrite Hkey in Hret. destruct fl2 as [d2|d2]; simpl in *;
    injection Hret as <-; [congruence|].
  destruct (validatePair_frame d2) as (_ & Hrep3 & _ & Hpair).
  destruct (Hpair Hus) as [Hold|(Hk & Hc & Hok)]; [congruence|].
  rewrite Hset2, Hset1 in Hk, Hc. split; [done|]. split; [done|].
  assert (Hwarn : WarningValidation (tlsConfigStatus_of (validatePair d2))
                  = WarningValidation (tlsConfigStatus_of d1)).
  { destruct (validateKey_next _ _ Hkey) as [<- _].
    unfold validatePair in Hus |- *.
    destruct (_ && _); [|done].
    destruct (tls_X509KeyPair _ _); [|done].
    simpl in Hus. congruence. }
  unfold chain_report in Hrep2, Hrep3.
  injection Hrep3 as _ Hvch3 _. injection Hrep2 as _ Hvch2 _.
  rewrite Hwarn, Hvch3, Hvch2.
  destruct (validateChain_next _ _ Hchain)
    as [[Hempty _]|(_ & certs & mainCert & rest & _ & _ & Hver)]; [done|].
  destruct Hver as [(_ & -> & ->)|(err & _ & -> & ->)].
  - by left.
  - right. split; [done|]. by exists err.
Qed.

(** The key type reported is RSA or ECDSA when [ValidKey] is reported, and
    empty when it is not. *)
Theorem validateCertificates_key_type (data bundle : tlsConfig) :
  validateCertificates data = Some bundle →
  (ValidKey (tlsConfigStatus_of bundle) = true ∧
   (KeyType (tlsConfigStatus_of bundle) = "RSA" ∨
    KeyType (tlsConfigStatus_of bundle) = "ECDSA")) ∨
  (ValidKey (tlsConfigStatus_of bundle) = false ∧
   KeyType (tlsConfigStatus_of bundle) = "").
Proof.
  unfold validateCertificates. intros Hret.
  destruct (validateChain_frame (with_status data tlsConfigStatus_zero))
    as (fl1 & Hchain & _ & Hkrep1 & _).
  rewrite Hchain in Hret. unfold key_report in Hkrep1. simpl in Hkrep1.
  injection Hkrep1 as Hvk1 Hkt1.
  destruct fl1 as [d1|d1]; simpl in *.
  { injection Hret as <-. by right. }
  destruct (validateKey d1) as [[d2|d2]|] eqn:Hkey; [| |done];
    injection Hret as <-.
  - right. revert Hkey. unfold validateKey.
    case_bool_decide; [|done].
    destruct (decodeKey _ _ _) as [[key|]|]; [|by intros [= <-]|done].
    destruct (parsePrivateKey _) as [[? ?]|]; [done|by intros [= <-]].
  - destruct (validatePair_frame d2) as (_ & _ & Hkrep3 & _).
    unfold key_report in Hkrep3. injection Hkrep3 as -> ->.
    destruct (validateKey_next _ _ Hkey) as [_ [Hsame|Hset]].
    + unfold key_report in Hsame. injection Hsame as -> ->. by right.
    + by left.
Qed.
End tls_extras.

(** The library of the examples, with a trust store that knows the issuer
    of the example certificate. *)
Definition TrustedLib : @TLS.CryptoLib TLS.example_keys :=
  @TLS.Build_CryptoLib TLS.example_keys
    TLS.example_Decode
    example_Decode_rest
    TLS.example_ParseCertificate
    (λ _ _, None)
    TLS.example_ParsePKCS1
    TLS.example_ParsePKCS8
    TLS.example_ParseEC
    TLS.example_KeyPair.

Lemma validateCertificates_fresh_status_witness :
  let data := TLS.example_config "C" "R" in
  ∃ bundle, @TLS.validateCertificates _ ExampleLib data = Some bundle ∧
    TLS.tlsConfigSettings_of bundle = TLS.tlsConfigSettings_of data.
Proof.
  intros data.
  destruct (@validateCertificates_returns _ ExampleLib data) as [bundle Hret].
  exists bundle. split; [exact Hret|].
  exact (proj2 (@validateCertificates_fresh_status _ ExampleLib data
                  TLS.tlsConfigStatus_zero) bundle Hret).
Defined.

Lemma validateCertificates_valid_chain_witness :
  let data := TLS.example_config "CC" "" in
  ∃ bundle, @TLS.validateCertificates _ TrustedLib data = Some bundle ∧
    TLS.ValidChain (TLS.tlsConfigStatus_of bundle) = true ∧
    TLS.ValidCert (TLS.tlsConfigStatus_of bundle) = true.
Proof.
  intros data.
  destruct (@validateCertificates_returns _ TrustedLib data) as [bundle Hret].
  assert (Hvalid : TLS.ValidChain (TLS.tlsConfigStatus_of bundle) = true).
  { vm_compute in Hret. injection Hret as <-. reflexivity. }
  exists bundle. split; [exact Hret|]. split; [exact Hvalid|].
  exact (proj1 (@validateCertificates_valid_chain _ TrustedLib data bundle
                  Hret Hvalid)).
Defined.

Lemma validateCertificates_usable_warning_witness :
  let data := TLS.example_config "C" "R" in
  ∃ bundle, @TLS.validateCertificates _ ExampleLib data = Some bundle ∧
    TLS.usable (TLS.tlsConfigStatus_of bundle) = true ∧
    TLS.ValidChain (TLS.tlsConfigStatus_of bundle) = false ∧
    TLS.WarningValidation (TLS.tlsConfigStatus_of bundle) ≠ "".
Proof.
  intros data.
  destruct (@validateCertificates_returns _ ExampleLib data) as [bundle Hret].
  assert (Hus : TLS.usable (TLS.tlsConfigStatus_of bundle) = true).
  { vm_compute in Hret. injection Hret as <-. reflexivity. }
  assert (Hch : TLS.ValidChain (TLS.tlsConfigStatus_of bundle) = false).
  { vm_compute in Hret. injection Hret as <-. reflexivity. }
  exists bundle. split; [exact Hret|]. split; [exact Hus|].
  split; [exact Hch|].
  destruct (@validateCertificates_usable_warning _ ExampleLib data bundle
              Hret Hus) as (_ & _ & [[Hv _]|[_ [err ->]]]).
  - rewrite Hch in Hv. discriminate Hv.
  - discriminate.
Defined.

Lemma validateCertificates_key_type_witness :
  let data := TLS.example_config "" "E" in
  ∃ bundle, @TLS.validateCertificates _ ExampleLib data = Some bundle ∧
    TLS.ValidKey (TLS.tlsConfigStatus_of bundle) = true ∧
    (TLS.KeyType (TLS.tlsConfigStatus_of bundle) = "RSA" ∨
     TLS.KeyType (TLS.tlsConfigStatus_of bundle) = "ECDSA").
Proof.
  intros data.
  destruct (@validateCertificates_returns _ ExampleLib data) as [bundle Hret].
  assert (Hvk : TLS.ValidKey (TLS.tlsConfigStatus_of bundle) = true).
  { vm_compute in Hret. injection Hret as <-. reflexivity. }
  exists bundle. split; [exact Hret|]. split; [exact Hvk|].
  destruct (@validateCertificates_key_type _ ExampleLib data bundle Hret)
    as [[_ Hkt]|[Hno _]]; [exact Hkt|].
  rewrite Hvk in Hno. discriminate Hno.
Defined.

(** ** TLS handlers *)

Lemma example_decode_encode (s : string) :
  TLSHandlers.example_decode ("=" +:+ s) = Ok s.
Proof. reflexivity. Qed.

Lemma example_encode_nonempty (s : string) : s ≠ "" → "=" +:+ s ≠ "".
Proof. intros _. discriminate. Qed.

Definition ExamplePlatform (write_err : error) : TLSHandlers.Platform :=
  {| TLSHandlers.base64_DecodeString := TLSHandlers.example_decode;
     TLSHandlers.base64_EncodeToString := λ s, "=" +:+ s;
     TLSHandlers.base64_decode_encode := example_decode_encode;
     TLSHandlers.base64_encode_nonempty := example_encode_nonempty;
     TLSHandlers.errorx_Decorate := λ err text, text +:+ ", cause: " +:+ err;
     TLSHandlers.json_Encode := λ _, Ok "{}";
     TLSHandlers.checkPortAvailable := λ _ port,
       if bool_decide (port = 443) then None
       else Some "bind: address already in use";
     TLSHandlers.writeAllConfigsAndReloadDNS := λ _, write_err |}.

Section tls_handlers.
Import Http TLS TLSHandlers.
Context `{CryptoLib} `{Platform}.

(** What [marshalTLS] sends can be posted back: decoding the struct it
    encodes gives the data it was given. *)
Theorem unmarshalTLS_marshalled (data : tlsConfig) :
  unmarshalTLS (Ok (marshalled data)) = Ok data.
Proof.
  destruct data as [[enabled name port chain key] status].
  unfold unmarshalTLS, marshalled. simpl.
  destruct (decide (chain = "")) as [->|Hchain];
    destruct (decide (key = "")) as [->|Hkey]; simpl.
  - done.
  - rewrite (bool_decide_eq_true_2 (key ≠ "")) by done. simpl.
    rewrite bool_decide_eq_true_2 by (by apply base64_encode_nonempty).
    by rewrite base64_decode_encode.
  - rewrite (bool_decide_eq_true_2 (chain ≠ "")) by done. simpl.
    rewrite bool_decide_eq_true_2 by (by apply base64_encode_nonempty).
    by rewrite base64_decode_encode.
  - rewrite (bool_decide_eq_true_2 (chain ≠ "")) by done. simpl.
    rewrite (bool_decide_eq_true_2 (key ≠ "")) by done. simpl.
    rewrite bool_decide_eq_true_2 by (by apply base64_encode_nonempty).
    rewrite base64_decode_encode. simpl.
    rewrite bool_decide_eq_true_2 by (by apply base64_encode_nonempty).
    by rewrite base64_decode_encode.
Qed.

(** A configure request answered with status 400 (unreadable body, bad
    base64, port not available) changes nothing and restarts nothing. *)
Theorem handleTLSConfigure_rejected (body : result tlsConfig) (st st' : state)
    (w' : ResponseWriter) (restart : bool) :
  handleTLSConfigure body fresh st = Some (st', w', restart) →
  status w' = Some StatusBadRequest →
  st' = st ∧ restart = false.
Proof.
  unfold handleTLSConfigure.
  destruct (accepted body fresh st) as [w|data]; [by intros [= <- <- <-]|].
  destruct (validateCertificates data) as [bundle|]; [|done].
  destruct (writeAllConfigsAndReloadDNS _); [by intros [= <- <- <-]|].
  unfold marshalTLS.
  destruct (json_Encode _); by intros [= <- <- <-].
Qed.

(** A configure request that gets past decoding and the port check stores
    the validated bundle as the active configuration, whatever the
    validation found; the HTTPS server restart is started exactly when the
    posted settings differ from the active ones and the configuration was
    written. *)
Theorem handleTLSConfigure_restart (body : result tlsConfig)
    (data : tlsConfig) (st : state) :
  unmarshalTLS body = Ok data →
  httpsServer_running st = true ∨
  checkPortAvailable (config_BindHost st)
    (PortHTTPS (tlsConfigSettings_of data)) = None →
  ∃ bundle w' restart,
    validateCertificates data = Some bundle ∧
    handleTLSConfigure body fresh st
      = Some (set_config_TLS st bundle, w', restart) ∧
    (restart = true ↔
       tlsConfigSettings_of data ≠ tlsConfigSettings_of (config_TLS st) ∧
       writeAllConfigsAndReloadDNS bundle = None).
Proof.
  intros Hbody Hport.
  destruct (validateCertificates_returns data) as [bundle Hret].
  pose proof (validateCertificates_settings data bundle Hret) as Hset.
  assert (Hacc : accepted body fresh st = inr data).
  { unfold accepted. rewrite Hbody.
    destruct Hport as [->| ->]; [done|]. by destruct (httpsServer_running st). }
  unfold handleTLSConfigure. rewrite Hacc, Hret. simpl.
  destruct (writeAllConfigsAndReloadDNS bundle) as [err|] eqn:Hwrite.
  - eexists bundle, _, false. split; [done|]. split; [reflexivity|].
    split; [done|]. intros [_ Hw]. congruence.
  - eexists bundle, _, _. split; [done|]. split; [reflexivity|].
    rewrite bool_decide_eq_true, Hset. split.
    + intros Hne. split; [|done]. by intros Heq.
    + intros [Hne _] Heq. by apply Hne.
Qed.

(** Validating a request answers what configuring it answers, unless the
    configuration cannot be written. *)
Theorem handleTLSValidate_as_configure (body : result tlsConfig) (st : state)
    (w : ResponseWriter) :
  handleTLSValidate body fresh st = Some w →
  ∃ st' w' restart,
    handleTLSConfigure body fresh st = Some (st', w', restart) ∧
    (w' = w ∨
     ∃ err, writeAllConfigsAndReloadDNS (config_TLS st') = Some err ∧
            w' = httpError fresh StatusInternalServerError
                   ("Couldn't write config file: " +:+ err)).
Proof.
  unfold handleTLSValidate, handleTLSConfigure.
  destruct (accepted body fresh st) as [w0|data].
  - intros [= <-]. eexists _, _, _. split; [reflexivity|]. by left.
  - destruct (validateCertificates data) as [bundle|]; [|done].
    intros [= <-]. simpl.
    destruct (writeAllConfigsAndReloadDNS bundle) as [err|] eqn:Hwrite.
    + eexists _, _, _. split; [reflexivity|]. right. by exists err.
    + eexists _, _, _. split; [reflexivity|]. by left.
Qed.
End tls_handlers.

Lemma handleTLSConfigure_rejected_witness :
  let st := {| TLSHandlers.config_TLS := TLS.example_config "" "";
               TLSHandlers.config_BindHost := "0.0.0.0";
               TLSHandlers.httpsServer_running := false |} in
  let body := Ok (TLS.example_config "not base64" "") in
  ∃ st' w' restart,
    @TLSHandlers.handleTLSConfigure _ ExampleLib (ExamplePlatform None)
      body Http.fresh st = Some (st', w', restart) ∧
    Http.status w' = Some 400 ∧ st' = st ∧ restart = false.
Proof.
  intros st body.
  destruct (@TLSHandlers.handleTLSConfigure _ ExampleLib (ExamplePlatform None)
              body Http.fresh st) as [[[st' w'] restart]|] eqn:Hret;
    [|vm_compute in Hret; discriminate Hret].
  assert (Hstatus : Http.status w' = Some 400).
  { vm_compute in Hret. injection Hret as <- <- <-. reflexivity. }
  exists st', w', restart. split; [reflexivity|]. split; [exact Hstatus|].
  exact (@handleTLSConfigure_rejected _ ExampleLib (ExamplePlatform None)
           body st st' w' restart Hret Hstatus).
Defined.

Lemma handleTLSConfigure_restart_witness :
  let st := {| TLSHandlers.config_TLS := TLS.example_config "" "";
               TLSHandlers.config_BindHost := "0.0.0.0";
               TLSHandlers.httpsServer_running := false |} in
  let body := Ok (TLS.example_config "=C" "=R") in
  ∃ bundle w',
    @TLSHandlers.handleTLSConfigure _ ExampleLib (ExamplePlatform None)
      body Http.fresh st
    = Some (TLSHandlers.set_config_TLS st bundle, w', true).
Proof.
  intros st body.
  destruct (@handleTLSConfigure_restart _ ExampleLib (ExamplePlatform None)
              body (TLS.example_config "C" "R") st eq_refl
              (or_intror eq_refl))
    as (bundle & w' & restart & _ & Hret & Hiff).
  assert (Hrestart : restart = true).
  { apply Hiff. split; [discriminate|reflexivity]. }
  rewrite Hrestart in Hret. by exists bundle, w'.
Defined.

Lemma handleTLSValidate_as_configure_witness :
  let st := {| TLSHandlers.config_TLS := TLS.example_config "" "";
               TLSHandlers.config_BindHost := "0.0.0.0";
               TLSHandlers.httpsServer_running := false |} in
  let body := Ok (TLS.example_config "=C" "=R") in
  ∃ st' w restart,
    @TLSHandlers.handleTLSValidate _ ExampleLib (ExamplePlatform None)
      body Http.fresh st = Some w ∧
    @TLSHandlers.handleTLSConfigure _ ExampleLib (ExamplePlatform None)
      body Http.fresh st = Some (st', w, restart).
Proof.
  intros st body.
  assert (Hv : @TLSHandlers.handleTLSValidate _ ExampleLib
                 (ExamplePlatform None) body Http.fresh st
               = Some {| Http.status := Some 200; Http.body := "{}" |})
    by reflexivity.
  destruct (@handleTLSValidate_as_configure _ ExampleLib (ExamplePlatform None)
              body st _ Hv) as (st' & w' & restart & Hc & [->|[err [Hw _]]]).
  - by exists st', {| Http.status := Some 200; Http.body := "{}" |}, restart.
  - discriminate Hw.
Defined.

(** ** Version check *)

Section version_extras.
Import Http Version.

(** A difference of at most the check period is what [Sub] returns or
    less. *)
Lemma Time_Sub_within (now last : Z) :
  now - last ≤ versionCheckPeriod → Time_Sub now last ≤ versionCheckPeriod.
Proof.
  unfold Time_Sub, versionCheckPeriod, Hour, minDuration, maxDuration.
  intros Hle. repeat case_bool_decide; lia.
Qed.

(** The cached copy is passed over when it is empty or older than the
    check period.  Then a request whose fetch fails, or whose body cannot be
    read, is answered with status 502, and these are the only requests
    answered so; such a request leaves the cache as it was.  The cache
    changes only when a body was read, and then it holds that body and the
    time of the request.  An empty cached body is never served: the network
    is asked again. *)
Theorem handleGetVersionJSON_cache `{Network} (now : Z) (st : state) :
  let st' := (handleGetVersionJSON now fresh st).1 in
  let w' := (handleGetVersionJSON now fresh st).2 in
  let passed_over :=
    versionCheckJSON st = "" ∨
    versionCheckPeriod < Time_Sub now (versionCheckLastTime st) in
  (status w' = Some StatusBadGateway ↔
   passed_over ∧
   ((∃ err, client_Get versionCheckURL = inl err) ∨
    (∃ err, client_Get versionCheckURL = inr (Err err)))) ∧
  (status w' = Some StatusBadGateway → st' = st) ∧
  (st' = st ∨
   ∃ body, client_Get versionCheckURL = inr (Ok body) ∧
     st' = {| versionCheckJSON := body; versionCheckLastTime := now |} ∧
     w' = {| status := Some StatusOK; body := body |}) ∧
  (passed_over →
   ∀ body, client_Get versionCheckURL = inr (Ok body) →
     st' = {| versionCheckJSON := body; versionCheckLastTime := now |} ∧
     w' = {| status := Some StatusOK; body := body |}).
Proof.
  unfold handleGetVersionJSON.
  destruct (bool_decide _ && bool_decide _) eqn:Hhit; simpl.
  - apply andb_true_iff in Hhit as [Hsoon Hfull].
    apply bool_decide_eq_true_1 in Hsoon, Hfull.
    assert (Hserved : ¬ (versionCheckJSON st = "" ∨
                         versionCheckPeriod
                         < Time_Sub now (versionCheckLastTime st))).
    { intros [Hempty|Hlate]; [|lia]. by rewrite Hempty in Hfull. }
    split; [split; [done|by intros [? _]]|].
    split; [done|]. split; [by left|]. done.
  - assert (Hpassed : versionCheckJSON st = "" ∨
                      versionCheckPeriod
                      < Time_Sub now (versionCheckLastTime st)).
    { apply andb_false_iff in Hhit as [Hlate|Hempty].
      - right. apply bool_decide_eq_false_1 in Hlate. lia.
      - left. apply bool_decide_eq_false_1 in Hempty.
        destruct (versionCheckJSON st); [done|]. exfalso. by apply Hempty. }
    destruct (client_Get versionCheckURL) as [err|[body|err]]; simpl.
    + split; [split; [intros _; split; [done|left; by exists err]|done]|].
      split; [done|]. split; [by left|]. done.
    + split; [split; [done|intros [_ [[? ?]|[? ?]]]; done]|].
      split; [done|]. split; [right; by exists body|].
      intros _ body' [= <-]. done.
    + split; [split; [intros _; split; [done|right; by exists err]|done]|].
      split; [done|]. split; [by left|]. done.
Qed.

(** Once a request has fetched a non-empty version file, every request
    made up to eight hours after it is answered with that file from the
    cache, whatever the network would answer, and leaves the cache as it
    is. *)
Theorem handleGetVersionJSON_cached (first later : Network) (now1 now2 : Z)
    (st : state) (body : string) :
  versionCheckJSON st = "" ∨
  versionCheckPeriod < Time_Sub now1 (versionCheckLastTime st) →
  @client_Get first versionCheckURL = inr (Ok body) →
  body ≠ "" →
  now2 - now1 ≤ versionCheckPeriod →
  let st1 := (@handleGetVersionJSON first now1 fresh st).1 in
  st1 = {| versionCheckJSON := body; versionCheckLastTime := now1 |} ∧
  @handleGetVersionJSON later now2 fresh st1
  = (st1, {| status := Some StatusOK; body := body |}).
Proof.
  intros Hmiss Hget Hbody Hsoon st1.
  assert (Hst1 : st1 = {| versionCheckJSON := body;
                          versionCheckLastTime := now1 |}).
  { subst st1. unfold handleGetVersionJSON.
    assert (Hno : bool_decide (Time_Sub now1 (versionCheckLastTime st)
                               ≤ versionCheckPeriod)
                  && bool_decide (String.length (versionCheckJSON st) ≠ 0%nat)
                  = false).
    { destruct Hmiss as [->|Hlate].
      - by rewrite andb_false_r.
      - rewrite bool_decide_eq_false_2 by lia. done. }
    by rewrite Hno, Hget. }
  split; [done|]. rewrite Hst1. unfold handleGetVersionJSON. simpl.
  rewrite bool_decide_eq_true_2 by (by apply Time_Sub_within).
  rewrite bool_decide_eq_true_2 by (by destruct body).
  done.
Qed.
End version_extras.

Lemma handleGetVersionJSON_cache_witness :
  let st := {| Version.versionCheckJSON := "{}";
               Version.versionCheckLastTime := 0 |} in
  let out := @Version.handleGetVersionJSON Version.BrokenBody
               (Version.Hour * 9) Http.fresh st in
  Http.status out.2 = Some 502 ∧ out.1 = st.
Proof.
  intros st out.
  destruct (@handleGetVersionJSON_cache Version.BrokenBody
              (Version.Hour * 9) st) as (Hiff & Hkeep & _).
  assert (Hs : Http.status out.2 = Some 502).
  { apply Hiff. split.
    - right. vm_compute. reflexivity.
    - right. by exists "unexpected EOF". }
  split; [exact Hs|exact (Hkeep Hs)].
Defined.

Lemma handleGetVersionJSON_cached_witness :
  let st := {| Version.versionCheckJSON := "";
               Version.versionCheckLastTime := 0 |} in
  let st1 := (@Version.handleGetVersionJSON (Version.Online "{}")
                (Version.Hour * 9) Http.fresh st).1 in
  @Version.handleGetVersionJSON Version.Offline (Version.Hour * 17)
    Http.fresh st1
  = (st1, {| Http.status := Some 200; Http.body := "{}" |}).
Proof.
  intros st st1.
  refine (proj2 (@handleGetVersionJSON_cached (Version.Online "{}")
                   Version.Offline (Version.Hour * 9) (Version.Hour * 17)
                   st "{}" (or_introl eq_refl) eq_refl _ _)).
  - discriminate.
  - vm_compute. discriminate.
Defined.

(** ** Parental control *)

Section parental_extras.
Import Http Parental.
Context `{Persistence}.

(** The handler accepts the eight sensitivities of [levels] and nothing
    else.  An accepted request enables parental control with the number the
    sensitivity stands for, so the sensitivity stored is 3, 10, 13 or 17;
    any other request is answered with status 400 and changes nothing. *)
Theorem handleParentalEnable_levels (parameters : gmap string string)
    (st : state) :
  (∀ name n, (name, n) ∈ levels →
     parameters !! "sensitivity" = Some name →
     handleParentalEnable (Ok parameters) fresh st
     = ({| ParentalSensitivity := n; ParentalEnabled := true |},
        httpUpdateConfigReloadDNSReturnOK fresh
          {| ParentalSensitivity := n; ParentalEnabled := true |})) ∧
  ((∀ name n, (name, n) ∈ levels →
      parameters !! "sensitivity" ≠ Some name) →
   (handleParentalEnable (Ok parameters) fresh st).1 = st ∧
   status (handleParentalEnable (Ok parameters) fresh st).2
     = Some StatusBadRequest).
Proof.
  split.
  - intros name n Hin Hparam. unfold handleParentalEnable. rewrite Hparam.
    unfold levels in Hin.
    repeat (apply elem_of_cons in Hin as [[= -> ->]|Hin]; [reflexivity|]).
    by apply elem_of_nil in Hin.
  - intros Hnone. unfold handleParentalEnable.
    destruct (parameters !! "sensitivity") as [sensitivity|]; [|done].
    assert (Hnot : ∀ name n, (name, n) ∈ levels → sensitivity ≠ name).
    { intros name n Hin ->. by apply (Hnone name n Hin). }
    unfold normalise.
    repeat (case_bool_decide as Hs;
            [exfalso; subst sensitivity;
             eapply Hnot; [|reflexivity]; unfold levels;
             repeat ((by left) || right)|clear Hs]).
    done.
Qed.
End parental_extras.

Lemma handleParentalEnable_levels_witness :
  let parameters : gmap string string := {[ "sensitivity" := "TEEN" ]} in
  let st := {| Parental.ParentalSensitivity := 0;
               Parental.ParentalEnabled := false |} in
  (@Parental.handleParentalEnable Parental.Saved (Ok parameters) Http.fresh
     st).1
  = {| Parental.ParentalSensitivity := 13; Parental.ParentalEnabled := true |}.
Proof.
  intros parameters st.
  rewrite (proj1 (@handleParentalEnable_levels Parental.Saved parameters st)
             "TEEN" 13).
  - reflexivity.
  - unfold Parental.levels. do 5 right. left.
  - reflexivity.
Defined.

(** ** User rules *)

Section rules_extras.
Import Http UserRules.

Lemma splitLines_cons (s : string) :
  ∃ line lines, splitLines s = line :: lines.
Proof.
  induction s as [|c s (line & lines & IH)]; simpl; [by eexists _, _|].
  case_bool_decide; [by eexists _, _|]. rewrite IH. by eexists _, _.
Qed.

Lemma joinLines_cons (c : Ascii.ascii) (line : string) (lines : list string) :
  joinLines (String c line :: lines) = String c (joinLines (line :: lines)).
Proof. by destruct lines. Qed.

Lemma joinLines_splitLines (s : string) : joinLines (splitLines s) = s.
Proof.
  induction s as [|c s IH]; [done|]. simpl.
  destruct (splitLines_cons s) as (line & lines & Hs).
  rewrite Hs in IH |- *. case_bool_decide as Hc.
  - rewrite <- IH, Hc. reflexivity.
  - by rewrite joinLines_cons, IH.
Qed.

Lemma splitLines_one_line (s : string) : Forall one_line (splitLines s).
Proof.
  induction s as [|c s IH]; simpl; [by repeat constructor|].
  case_bool_decide as Hc; [by constructor|].
  destruct (splitLines_cons s) as (line & lines & Hs).
  rewrite Hs in IH |- *. apply Forall_cons in IH as [Hline Hlines].
  by constructor.
Qed.

(** Setting the user rules replaces them by the lines of the body: there
    is always at least one rule (an empty body gives one empty rule), no
    rule holds a line feed, and the rules written one per line are the
    body again.  This holds also when the configuration cannot be
    written. *)
Theorem handleFilteringSetRules_lines `{Persistence} (text : string)
    (userRules : list string) :
  let rules := (handleFilteringSetRules (Ok text) fresh userRules).1 in
  rules ≠ [] ∧ Forall one_line rules ∧ joinLines rules = text.
Proof.
  simpl. split; [|split].
  - by destruct (splitLines_cons text) as (line & lines & ->).
  - apply splitLines_one_line.
  - apply joinLines_splitLines.
Qed.
End rules_extras.

(** ** First-run configuration *)

Section install_extras.
Import Http Install.
Context `{Platform}.

(** A first-run request answered with status 400 (unreadable body, web
    port or DNS port not available) changes no setting and restarts
    nothing. *)
Theorem handleInstallConfigure_rejected (body : result firstRunData)
    (config : configuration) :
  let out := handleInstallConfigure body fresh config in
  status out.1.2 = Some StatusBadRequest →
  out.1.1 = config ∧ out.2 = false.
Proof.
  unfold handleInstallConfigure, httpUpdateConfigReloadDNSReturnOK.
  repeat case_match; simpl; done.
Qed.

(** The HTTP server restart is started exactly when the web address of
    the request differs from the one in force, both ports can be bound and
    the DNS server, if it has a port, could be started; whether the
    configuration could then be written plays no role.  A request that
    keeps the web address never restarts the HTTP server. *)
Theorem handleInstallConfigure_restart (newSettings : firstRunData)
    (config : configuration) :
  let out := handleInstallConfigure (Ok newSettings) fresh config in
  let config' :=
    {| firstRun := false;
       BindHost := IP (Web newSettings); BindPort := Port (Web newSettings);
       DNS_BindHost := IP (DNS newSettings);
       DNS_Port := Port (DNS newSettings);
       AuthName := Username newSettings;
       AuthPass := Password newSettings |} in
  out.2 = true ↔
    (BindHost config ≠ IP (Web newSettings) ∨
     BindPort config ≠ Port (Web newSettings)) ∧
    checkPortAvailable (IP (Web newSettings)) (Port (Web newSettings)) = None ∧
    checkPacketPortAvailable (IP (DNS newSettings)) (Port (DNS newSettings))
      = None ∧
    (Port (DNS newSettings) = 0 ∨ startDNSServer config' = None).
Proof.
  intros out config'. subst out config'. unfold handleInstallConfigure.
  destruct (checkPortAvailable (IP (Web newSettings))
              (Port (Web newSettings))) as [e1|] eqn:Hweb;
  destruct (checkPacketPortAvailable (IP (DNS newSettings))
              (Port (DNS newSettings))) as [e2|] eqn:Hdns;
  destruct (startDNSServer _) as [e3|] eqn:Hstart;
  destruct (decide (BindHost config = IP (Web newSettings))) as [Hhost|Hhost];
  destruct (decide (BindPort config = Port (Web newSettings))) as [Hport|Hport];
  destruct (decide (Port (DNS newSettings) = 0)) as [Hzero|Hzero];
  simpl;
  rewrite ?(bool_decide_eq_true_2 (BindHost config = _)),
    ?(bool_decide_eq_false_2 (BindHost config = _)),
    ?(bool_decide_eq_true_2 (BindPort config = _)),
    ?(bool_decide_eq_false_2 (BindPort config = _)) by done;
  simpl; rewrite ?Hweb, ?Hdns; simpl;
  rewrite ?(bool_decide_eq_true_2 (Port (DNS newSettings) ≠ 0)),
    ?(bool_decide_eq_false_2 (Port (DNS newSettings) ≠ 0)) by tauto;
  simpl; rewrite ?Hstart; simpl; intuition congruence.
Qed.
End install_extras.

Lemma handleInstallConfigure_rejected_witness :
  let out := @Install.handleInstallConfigure (Install.FreePorts None)
               (Err "unexpected end of JSON input") Http.fresh
               Install.first_run in
  Http.status out.1.2 = Some 400 ∧ out.1.1 = Install.first_run ∧ out.2 = false.
Proof.
  intros out.
  assert (Hs : Http.status out.1.2 = Some 400) by reflexivity.
  split; [exact Hs|].
  exact (@handleInstallConfigure_rejected (Install.FreePorts None)
           (Err "unexpected end of JSON input") Install.first_run Hs).
Defined.

Lemma handleInstallConfigure_restart_witness :
  let newSettings :=
    {| Install.Web := {| Install.IP := "192.168.1.1"; Install.Port := 80;
                         Install.Warning := "" |};
       Install.DNS := {| Install.IP := "192.168.1.1"; Install.Port := 53;
                         Install.Warning := "" |};
       Install.Username := "admin"; Install.Password := "secret" |} in
  (@Install.handleInstallConfigure (Install.FreePorts (Some "disk full"))
     (Ok newSettings) Http.fresh Install.first_run).2 = true.
Proof.
  intros newSettings.
  apply (@handleInstallConfigure_restart (Install.FreePorts (Some "disk full"))
           newSettings Install.first_run).
  split; [left; discriminate|]. split; [reflexivity|].
  split; [reflexivity|]. right. reflexivity.
Defined.

Lemma handleFilteringRemoveURL_twice_witness :
  let C := Filtering.TestCollaborators None in
  let st := {| Filtering.Filters :=
                 [Filtering.list_a; Filtering.list_b; Filtering.list_a_again];
               Filtering.nextFilterID := 4 |} in
  let parameters : gmap string string :=
    {[ "url" := "https://a.example/list.txt" ]} in
  let st' := (@Filtering.handleFilteringRemoveURL C (Ok parameters)
                Http.fresh st).1 in
  @Filtering.handleFilteringRemoveURL C (Ok parameters) Http.fresh st'
  = (st', {| Http.status := Some 200; Http.body := "OK" +:+ Http.nl |}).
Proof.
  intros C st parameters st'.
  refine (@handleFilteringRemoveURL_twice C parameters
            "https://a.example/list.txt" st eq_refl eq_refl _).
  repeat constructor.
Defined.

Lemma handleFilteringAddURL_reload_fails_witness :
  let st := {| Filtering.Filters := []; Filtering.nextFilterID := 1 |} in
  let out := @Filtering.handleFilteringAddURL Filtering.NoReload
               (Ok (Filtering.request_for "https://example.test/list.txt"))
               Http.fresh st in
  Http.status out.2 = Some 500 ∧
  Http.body out.2
  = ("Couldn't reconfigure the DNS server: listen udp :53: bind failed"
     +:+ Http.nl) +:+ "OK 120 rules" +:+ Http.nl ∧
  length (Filtering.Filters out.1) = 1%nat.
Proof.
  intros st out. subst out.
  rewrite (@handleFilteringAddURL_reload_fails Filtering.NoReload
             (Filtering.request_for "https://example.test/list.txt") st
             120 "||ads.example^" "listen udp :53: bind failed").
  - split; [reflexivity|]. split; reflexivity.
  - discriminate.
  - reflexivity.
  - reflexivity.
  - reflexivity.
  - discriminate.
  - reflexivity.
  - reflexivity.
  - reflexivity.
Defined.

Section tls_valid_cert.
Import TLS.
Context `{CryptoLib}.

(** What [ValidCert] in a bundle means: a chain text was given, every
    CERTIFICATE block in it parsed, and subject, issuer, validity window
    and DNS names are those of the first certificate.  Without [ValidCert]
    the bundle reports nothing about the chain: those fields and
    [ValidChain] have their zero values. *)
Theorem validateCertificates_valid_cert (data bundle : tlsConfig) :
  validateCertificates data = Some bundle →
  (ValidCert (tlsConfigStatus_of bundle) = true →
   CertificateChain (tlsConfigSettings_of data) ≠ "" ∧
   ∃ certs mainCert rest,
     certificateBlocks (CertificateChain (tlsConfigSettings_of data))
       = Some certs ∧
     parseCertificates certs [] = Ok (mainCert :: rest) ∧
     Subject (tlsConfigStatus_of bundle) = x509.Subject mainCert ∧
     Issuer (tlsConfigStatus_of bundle) = x509.Issuer mainCert ∧
     NotBefore (tlsConfigStatus_of bundle) = x509.NotBefore mainCert ∧
     NotAfter (tlsConfigStatus_of bundle) = x509.NotAfter mainCert ∧
     DNSNames (tlsConfigStatus_of bundle) = x509.DNSNames mainCert) ∧
  (ValidCert (tlsConfigStatus_of bundle) = false →
   chain_report bundle = (false, false, "", "", Time_zero, Time_zero, [])).
Proof.
  unfold validateCertificates. intros Hret.
  set (d0 := with_status data tlsConfigStatus_zero) in *.
  assert (Hchain : ∃ fl, validateChain d0 = Some fl ∧
            chain_report bundle = chain_report (flow_data fl)).
  { destruct (validateChain_frame d0) as (fl1 & Hc & _).
    exists fl1. split; [done|]. rewrite Hc in Hret.
    destruct fl1 as [d1|d1]; [by injection Hret as <-|].
    destruct (validateKey_frame d1) as (fl2 & Hk & _ & Hrep2 & _).
    rewrite Hk in Hret. destruct fl2 as [d2|d2]; injection Hret as <-;
      [done|].
    destruct (validatePair_frame d2) as (_ & -> & _). done. }
  destruct Hchain as (fl & Hc & Hrep). clear Hret.
  assert (Hnone : ∀ P : Prop,
            chain_report bundle
              = (false, false, "", "", Time_zero, Time_zero, []) →
            (ValidCert (tlsConfigStatus_of bundle) = true → P) ∧
            (ValidCert (tlsConfigStatus_of bundle) = false →
             chain_report bundle
               = (false, false, "", "", Time_zero, Time_zero, []))).
  { intros P Hzero. split; [|done]. intros Hv.
    unfold chain_report in Hzero. injection Hzero as Hvc _. congruence. }
  revert Hc. unfold validateChain, certificateBlocks.
  change (tlsConfigSettings_of d0) with (tlsConfigSettings_of data).
  case_bool_decide as Hne.
  - destruct (decodeCertificates _ _ _ _) as [[certs skipped]|]; [|done].
    destruct (parseCertificates certs []) as [[|mainCert rest]|err] eqn:Hparse.
    + intros [= <-]. by apply Hnone.
    + intros [= <-]. simpl in Hrep.
      destruct (Certificate_Verify _ _); unfold chain_report in Hrep;
        simpl in Hrep; injection Hrep as -> _ -> -> -> -> ->;
        (split; [|done]); intros _; (split; [done|]);
        exists certs, mainCert, rest; by repeat split.
    + intros [= <-]. by apply Hnone.
  - intros [= <-]. by apply Hnone.
Qed.
End tls_valid_cert.

Lemma validateCertificates_valid_cert_witness :
  let data := TLS.example_config "X" "R" in
  ∃ bundle, @TLS.validateCertificates _ ExampleLib data = Some bundle ∧
    TLS.ValidCert (TLS.tlsConfigStatus_of bundle) = false ∧
    TLS.Subject (TLS.tlsConfigStatus_of bundle) = "".
Proof.
  intros data.
  destruct (@validateCertificates_returns _ ExampleLib data) as [bundle Hret].
  assert (Hno : TLS.ValidCert (TLS.tlsConfigStatus_of bundle) = false).
  { vm_compute in Hret. injection Hret as <-. reflexivity. }
  exists bundle. split; [exact Hret|]. split; [exact Hno|].
  pose proof (proj2 (@validateCertificates_valid_cert _ ExampleLib data bundle
                       Hret) Hno) as Hrep.
  unfold TLS.chain_report in Hrep. by injection Hrep.
Defined.
